(** * Runtime lifecycle of Kotlin/Native: a shallow embedding of Runtime.cpp

    The development follows runtime/src/main/cpp/Runtime.cpp.  The process
    state (the globals of the translation unit, the thread-local
    [runtimeState] of every thread, the memory that holds the [InitNode] and
    [RuntimeState] objects) is threaded through a small state-and-failure
    monad.  Calls into collaborators that are not part of the file (memory
    manager, workers, console, cleaners) are recorded, in program order, in a
    trace of events.  The entry points are first taken as wholes, one call
    after the other; the part "Calls that overlap" then cuts the three
    lifecycle calls at their accesses to the shared variables and runs them
    under every schedule of the threads. *)

From Stdlib Require Import ZArith List String Bool Lia.
From stdpp Require Import gmap strings list fin_maps.

Local Open Scope Z_scope.

(** ** Data model *)

(** Addresses; [nullptr] is address 0.  Thread identifiers are naturals. *)
Abbreviation ptr := N (only parsing).
Abbreviation tid := nat (only parsing).
Definition nullptr : ptr := 0%N.

(** The function-pointer type [Initializer], called with a phase tag and the
    memory state of the calling thread: a code address.  What a callback does
    is outside the file; its invocation is an event of the trace. *)
Abbreviation Initializer := N (only parsing).

Record InitNode : Type := mkInitNode {
  init : Initializer;
  next : ptr
}.

Module RuntimeStatus.
Inductive t : Type := kUninitialized | kRunning | kDestroying.
Definition eqb (a b : t) : bool :=
  match a, b with
  | kUninitialized, kUninitialized | kRunning, kRunning
  | kDestroying, kDestroying => true
  | _, _ => false
  end.
End RuntimeStatus.

Module GlobalRuntimeStatus.
Inductive t : Type := kUninitialized | kRunning | kDestroyed.
Definition eqb (a b : t) : bool :=
  match a, b with
  | kUninitialized, kUninitialized | kRunning, kRunning
  | kDestroyed, kDestroyed => true
  | _, _ => false
  end.
End GlobalRuntimeStatus.

Record RuntimeState : Type := mkRuntimeState {
  memoryState : ptr;
  worker : ptr;
  status : RuntimeStatus.t
}.

(** The anonymous enum of phase tags. *)
Definition INIT_GLOBALS : Z := 0.
Definition INIT_THREAD_LOCAL_GLOBALS : Z := 1.
Definition DEINIT_THREAD_LOCAL_GLOBALS : Z := 2.
Definition DEINIT_GLOBALS : Z := 3.

(** [int] is 32 bits wide and signed; arithmetic on it wraps. *)
Definition INT_MAX : Z := 2 ^ 31 - 1.
Definition wrap_int (z : Z) : Z := (z + 2 ^ 31) mod 2 ^ 32 - 2 ^ 31.

(** Calls that leave the file, and the entry into
    [InitOrDeinitGlobalVariables], in the order in which they happen. *)
Inductive event : Type :=
| EvSetKonanTerminateHandler
| EvInitMemory (firstRuntime : bool)
| EvWorkerInit (withRuntime : bool)
| EvConsoleInit
| EvObjCExportInitialize
| EvRunPhase (initialize : Z) (memory : ptr)
| EvInitializer (fn : Initializer) (initialize : Z) (memory : ptr)
| EvRestoreMemory (memory : ptr)
| EvGetWorkerId (w : ptr)
| EvWorkerDeinit (w : ptr)
| EvDeinitMemory (memory : ptr) (destroyRuntime : bool)
| EvWorkerDestroyThreadDataIfNeeded (workerId : Z)
| EvOnThreadExit (argument : ptr)
| EvConsoleErrorf (format : string) (args : list Z)
| EvRuntimeAssertFailed (message : string)
| EvPerformFullGC
| EvShutdownCleaners (executeScheduledCleaners : bool)
| EvWaitNativeWorkersTermination.

(** The process state.  [runtimeState] is the thread-local variable: a thread
    without an entry holds [kInvalidRuntime].  [nodes] and [runtimes] are the
    memory that holds the [InitNode] and the [RuntimeState] objects. *)
Record State : Type := mkState {
  initHeadNode : ptr;
  initTailNode : ptr;
  nodes : gmap N InitNode;
  g_checkLeaks : bool;
  g_checkLeakedCleaners : bool;
  runtimeState : gmap nat N;
  aliveRuntimesCount : Z;
  globalRuntimeStatus : GlobalRuntimeStatus.t;
  runtimes : gmap N RuntimeState;
  trace : list (tid * event)
}.

Definition kInvalidRuntime : ptr := nullptr.

Definition set_initHeadNode (v : ptr) (s : State) : State :=
  mkState v (initTailNode s) (nodes s) (g_checkLeaks s)
    (g_checkLeakedCleaners s) (runtimeState s) (aliveRuntimesCount s)
    (globalRuntimeStatus s) (runtimes s) (trace s).
Definition set_initTailNode (v : ptr) (s : State) : State :=
  mkState (initHeadNode s) v (nodes s) (g_checkLeaks s)
    (g_checkLeakedCleaners s) (runtimeState s) (aliveRuntimesCount s)
    (globalRuntimeStatus s) (runtimes s) (trace s).
Definition set_nodes (v : gmap N InitNode) (s : State) : State :=
  mkState (initHeadNode s) (initTailNode s) v (g_checkLeaks s)
    (g_checkLeakedCleaners s) (runtimeState s) (aliveRuntimesCount s)
    (globalRuntimeStatus s) (runtimes s) (trace s).
Definition set_g_checkLeaks (v : bool) (s : State) : State :=
  mkState (initHeadNode s) (initTailNode s) (nodes s) v
    (g_checkLeakedCleaners s) (runtimeState s) (aliveRuntimesCount s)
    (globalRuntimeStatus s) (runtimes s) (trace s).
Definition set_g_checkLeakedCleaners (v : bool) (s : State) : State :=
  mkState (initHeadNode s) (initTailNode s) (nodes s) (g_checkLeaks s)
    v (runtimeState s) (aliveRuntimesCount s)
    (globalRuntimeStatus s) (runtimes s) (trace s).
Definition set_runtimeState (v : gmap nat N) (s : State) : State :=
  mkState (initHeadNode s) (initTailNode s) (nodes s) (g_checkLeaks s)
    (g_checkLeakedCleaners s) v (aliveRuntimesCount s)
    (globalRuntimeStatus s) (runtimes s) (trace s).
Definition set_aliveRuntimesCount (v : Z) (s : State) : State :=
  mkState (initHeadNode s) (initTailNode s) (nodes s) (g_checkLeaks s)
    (g_checkLeakedCleaners s) (runtimeState s) v
    (globalRuntimeStatus s) (runtimes s) (trace s).
Definition set_globalRuntimeStatus (v : GlobalRuntimeStatus.t) (s : State) : State :=
  mkState (initHeadNode s) (initTailNode s) (nodes s) (g_checkLeaks s)
    (g_checkLeakedCleaners s) (runtimeState s) (aliveRuntimesCount s)
    v (runtimes s) (trace s).
Definition set_runtimes (v : gmap N RuntimeState) (s : State) : State :=
  mkState (initHeadNode s) (initTailNode s) (nodes s) (g_checkLeaks s)
    (g_checkLeakedCleaners s) (runtimeState s) (aliveRuntimesCount s)
    (globalRuntimeStatus s) v (trace s).
Definition set_trace (v : list (tid * event)) (s : State) : State :=
  mkState (initHeadNode s) (initTailNode s) (nodes s) (g_checkLeaks s)
    (g_checkLeakedCleaners s) (runtimeState s) (aliveRuntimesCount s)
    (globalRuntimeStatus s) (runtimes s) v.

(** ** The monad of the runtime's code *)

(** A call returns normally ([Ok]), terminates the process through
    [konan::abort] ([Abort], with the state at that point), has undefined
    behaviour because it dereferences a null or dangling pointer ([Fault]),
    or is cut off by the bound on the length of the list walk
    ([OutOfFuel]). *)
Inductive result (A : Type) : Type :=
| Ok (a : A) (s : State)
| Abort (s : State)
| Fault
| OutOfFuel.
Arguments Ok {A} a s.
Arguments Abort {A} s.
Arguments Fault {A}.
Arguments OutOfFuel {A}.

Definition M (A : Type) : Type := State -> result A.

Definition ret {A} (a : A) : M A := fun s => Ok a s.
Definition bind {A B} (m : M A) (k : A -> M B) : M B :=
  fun s =>
    match m s with
    | Ok a s' => k a s'
    | Abort s' => Abort s'
    | Fault => Fault
    | OutOfFuel => OutOfFuel
    end.

Declare Scope rt_scope.
Delimit Scope rt_scope with rt.
Notation "x <- m ;; k" := (bind m (fun x => k))
  (at level 100, m at next level, right associativity) : rt_scope.
Notation "m ;; k" := (bind m (fun _ => k))
  (at level 100, right associativity) : rt_scope.
Local Open Scope rt_scope.

Definition gets {A} (f : State -> A) : M A := fun s => Ok (f s) s.
Definition modify (f : State -> State) : M unit := fun s => Ok tt (f s).
Definition out_of_fuel {A} : M A := fun _ => OutOfFuel.

(** [konan::abort()]: the process ends in the state it is in. *)
Definition abort {A} : M A := fun s => Abort s.

Definition emit (t : tid) (e : event) : M unit :=
  modify (fun s => set_trace (trace s ++ [(t, e)]) s).

(** ** Build parameters and collaborators *)

(** What the build and the headers that are not among the sources decide:
    whether [RuntimeAssert] is compiled in (KAssert.h), whether the
    Objective-C bridge is compiled in, the default of the two leak-checker
    flags, and the worker's id accessor (Worker.h).  Everything below holds
    for every choice of them. *)
Class Build : Type := mkBuild {
  KONAN_ENABLE_ASSERT : bool;
  KONAN_OBJC_INTEROP : bool;
  KonanNeedDebugInfo : bool;
  GetWorkerId : ptr -> Z
}.

(** What the collaborators answer during one [initRuntime]: whether the
    allocation of the [RuntimeState] succeeds, and the pointers returned by
    [InitMemory] and [WorkerInit]. *)
Record Env : Type := mkEnv {
  alloc_ok : bool;
  init_memory : ptr;
  init_worker : ptr
}.

(** ** Memory accesses *)

(** Reading [::runtimeState] on thread [t]. *)
Definition get_runtimeState (t : tid) : M ptr :=
  gets (fun s => default kInvalidRuntime (runtimeState s !! t)).

(** [::runtimeState = p] on thread [t]; storing [kInvalidRuntime] removes the
    thread's entry. *)
Definition put_runtimeState (t : tid) (p : ptr) : M unit :=
  modify (fun s =>
    set_runtimeState
      (if (p =? kInvalidRuntime)%N then delete t (runtimeState s)
       else <[t := p]> (runtimeState s)) s).

(** Reading through a [RuntimeState*]. *)
Definition load_runtime (p : ptr) : M RuntimeState :=
  fun s =>
    if (p =? nullptr)%N then Fault
    else match runtimes s !! p with
         | Some rs => Ok rs s
         | None => Fault
         end.

(** Writing a field through a [RuntimeState*]. *)
Definition update_runtime (p : ptr) (f : RuntimeState -> RuntimeState) : M unit :=
  rs <- load_runtime p ;;
  modify (fun s => set_runtimes (<[p := f rs]> (runtimes s)) s).

Definition set_memoryState (v : ptr) (rs : RuntimeState) : RuntimeState :=
  mkRuntimeState v (worker rs) (status rs).
Definition set_worker (v : ptr) (rs : RuntimeState) : RuntimeState :=
  mkRuntimeState (memoryState rs) v (status rs).
Definition set_status (v : RuntimeStatus.t) (rs : RuntimeState) : RuntimeState :=
  mkRuntimeState (memoryState rs) (worker rs) v.

(** Reading through an [InitNode*]. *)
Definition load_node (p : ptr) : M InitNode :=
  fun s =>
    if (p =? nullptr)%N then Fault
    else match nodes s !! p with
         | Some n => Ok n s
         | None => Fault
         end.

(** The address the allocator hands out: one that is not null and not in
    use (which one is of no consequence). *)
Definition fresh_address (h : gmap N RuntimeState) : ptr :=
  fresh ({[nullptr]} ∪ dom h).

(** Modelled from the spec: [konanConstructInstance<RuntimeState>()] of
    Alloc.h, which is not among the sources.  An allocation failure is
    "propagated as a null/failure result"; otherwise the result is a new
    zeroed object whose [status] has its default member initializer. *)
Definition konanConstructInstance (ok : bool) : M ptr :=
  fun s =>
    if ok then
      let p := fresh_address (runtimes s) in
      Ok p (set_runtimes
              (<[p := mkRuntimeState nullptr nullptr RuntimeStatus.kUninitialized]>
                 (runtimes s)) s)
    else Ok nullptr s.

(** Modelled from the spec: [konanDestructInstance(state)] of Alloc.h, which
    "frees the RuntimeState". *)
Definition konanDestructInstance (p : ptr) : M unit :=
  _ <- load_runtime p ;;
  modify (fun s => set_runtimes (delete p (runtimes s)) s).

(** Modelled from the spec: the atomics of Atomic.h, which is not among the
    sources, on the two shared variables ("atomic compare-and-set / atomic
    store", "plain atomic increment/decrement for the counter"). *)
Definition atomicGet_globalRuntimeStatus : M GlobalRuntimeStatus.t :=
  gets globalRuntimeStatus.
Definition atomicSet_globalRuntimeStatus (v : GlobalRuntimeStatus.t) : M unit :=
  modify (set_globalRuntimeStatus v).
Definition compareAndSet_globalRuntimeStatus
    (expected new : GlobalRuntimeStatus.t) : M bool :=
  fun s =>
    if GlobalRuntimeStatus.eqb (globalRuntimeStatus s) expected
    then Ok true (set_globalRuntimeStatus new s)
    else Ok false s.
Definition atomicGet_aliveRuntimesCount : M Z := gets aliveRuntimesCount.
Definition atomicAdd_aliveRuntimesCount (d : Z) : M unit :=
  modify (fun s => set_aliveRuntimesCount (wrap_int (aliveRuntimesCount s + d)) s).

(** ** The code of Runtime.cpp *)

Section Code.
Context {B : Build}.

(** Modelled from the spec: [RuntimeCheck] of KAssert.h, which is not among
    the sources.  A violated condition is "a fatal process abort with a
    diagnostic message". *)
Definition RuntimeCheck (t : tid) (condition : M bool) (message : string) : M unit :=
  c <- condition ;;
  if c then ret tt
  else (emit t (EvRuntimeAssertFailed message) ;; abort).

(** Modelled from the spec: [RuntimeAssert] of KAssert.h.  As [RuntimeCheck]
    when the build compiles asserts in; else the condition is not
    evaluated. *)
Definition RuntimeAssert (t : tid) (condition : M bool) (message : string) : M unit :=
  if KONAN_ENABLE_ASSERT then RuntimeCheck t condition message else ret tt.

(** The loop of [InitOrDeinitGlobalVariables], from [currentNode] on. *)
Fixpoint walkInitNodes (fuel : nat) (t : tid) (initialize : Z) (memory : ptr)
    (currentNode : ptr) : M unit :=
  if (currentNode =? nullptr)%N then ret tt
  else match fuel with
       | O => out_of_fuel
       | S fuel' =>
           node <- load_node currentNode ;;
           emit t (EvInitializer (init node) initialize memory) ;;
           walkInitNodes fuel' t initialize memory (next node)
       end.

Definition InitOrDeinitGlobalVariables (fuel : nat) (t : tid) (initialize : Z)
    (memory : ptr) : M unit :=
  emit t (EvRunPhase initialize memory) ;;
  currentNode <- gets initHeadNode ;;
  walkInitNodes fuel t initialize memory currentNode.

Definition isValidRuntime (t : tid) : M bool :=
  p <- get_runtimeState t ;;
  ret (negb (p =? kInvalidRuntime)%N).

Definition initRuntime (fuel : nat) (env : Env) (t : tid) : M ptr :=
  emit t EvSetKonanTerminateHandler ;;
  result <- konanConstructInstance (alloc_ok env) ;;
  if (result =? nullptr)%N then ret kInvalidRuntime
  else
    RuntimeCheck t (v <- isValidRuntime t ;; ret (negb v))
      "No active runtimes allowed" ;;
    put_runtimeState t result ;;
    firstRuntime <- compareAndSet_globalRuntimeStatus
                      GlobalRuntimeStatus.kUninitialized GlobalRuntimeStatus.kRunning ;;
    RuntimeCheck t (g <- atomicGet_globalRuntimeStatus ;;
                    ret (GlobalRuntimeStatus.eqb g GlobalRuntimeStatus.kRunning))
      "Must be running" ;;
    atomicAdd_aliveRuntimesCount 1 ;;
    emit t (EvInitMemory firstRuntime) ;;
    update_runtime result (set_memoryState (init_memory env)) ;;
    emit t (EvWorkerInit true) ;;
    update_runtime result (set_worker (init_worker env)) ;;
    (if firstRuntime then
       emit t EvConsoleInit ;;
       (if KONAN_OBJC_INTEROP then emit t EvObjCExportInitialize else ret tt) ;;
       rs <- load_runtime result ;;
       InitOrDeinitGlobalVariables fuel t INIT_GLOBALS (memoryState rs)
     else ret tt) ;;
    rs <- load_runtime result ;;
    InitOrDeinitGlobalVariables fuel t INIT_THREAD_LOCAL_GLOBALS (memoryState rs) ;;
    RuntimeAssert t (rs <- load_runtime result ;;
                     ret (RuntimeStatus.eqb (status rs) RuntimeStatus.kUninitialized))
      "Runtime must still be in the uninitialized state" ;;
    update_runtime result (set_status RuntimeStatus.kRunning) ;;
    ret result.

Definition deinitRuntime (fuel : nat) (t : tid) (state : ptr)
    (destroyRuntime : bool) : M unit :=
  RuntimeAssert t (rs <- load_runtime state ;;
                   ret (RuntimeStatus.eqb (status rs) RuntimeStatus.kRunning))
    "Runtime must be in the running state" ;;
  update_runtime state (set_status RuntimeStatus.kDestroying) ;;
  rs <- load_runtime state ;;
  emit t (EvRestoreMemory (memoryState rs)) ;;
  atomicAdd_aliveRuntimesCount (-1) ;;
  rs <- load_runtime state ;;
  InitOrDeinitGlobalVariables fuel t DEINIT_THREAD_LOCAL_GLOBALS (memoryState rs) ;;
  (if destroyRuntime then
     rs <- load_runtime state ;;
     InitOrDeinitGlobalVariables fuel t DEINIT_GLOBALS (memoryState rs)
   else ret tt) ;;
  rs <- load_runtime state ;;
  emit t (EvGetWorkerId (worker rs)) ;;
  let workerId := GetWorkerId (worker rs) in
  rs <- load_runtime state ;;
  emit t (EvWorkerDeinit (worker rs)) ;;
  rs <- load_runtime state ;;
  emit t (EvDeinitMemory (memoryState rs) destroyRuntime) ;;
  konanDestructInstance state ;;
  emit t (EvWorkerDestroyThreadDataIfNeeded workerId).

Definition Kotlin_deinitRuntimeCallback (fuel : nat) (t : tid) (argument : ptr) : M unit :=
  let state := argument in
  deinitRuntime fuel t state false.

Definition AppendToInitializersTail (next_ : ptr) : M unit :=
  h <- gets initHeadNode ;;
  (if (h =? nullptr)%N then modify (set_initHeadNode next_)
   else
     tl <- gets initTailNode ;;
     n <- load_node tl ;;
     modify (fun s => set_nodes (<[tl := mkInitNode (init n) next_]> (nodes s)) s)) ;;
  modify (set_initTailNode next_).

Definition Kotlin_initRuntimeIfNeeded (fuel : nat) (env : Env) (t : tid) : M unit :=
  v <- isValidRuntime t ;;
  if negb v then
    g <- atomicGet_globalRuntimeStatus ;;
    (if GlobalRuntimeStatus.eqb g GlobalRuntimeStatus.kDestroyed then
       emit t (EvConsoleErrorf
                 "Kotlin runtime was previously destroyed. Cannot create new runtime.\n" []) ;;
       abort
     else ret tt) ;;
    _ <- initRuntime fuel env t ;;
    p <- get_runtimeState t ;;
    emit t (EvOnThreadExit p)
  else ret tt.

Definition Kotlin_deinitRuntimeIfNeeded (fuel : nat) (t : tid) : M unit :=
  v <- isValidRuntime t ;;
  if v then
    p <- get_runtimeState t ;;
    deinitRuntime fuel t p false ;;
    put_runtimeState t kInvalidRuntime
  else ret tt.

Definition Kotlin_cleanersLeakCheckerEnabled : M bool := gets g_checkLeakedCleaners.
Definition Kotlin_memoryLeakCheckerEnabled : M bool := gets g_checkLeaks.
Definition Konan_Platform_setMemoryLeakChecker (value : bool) : M unit :=
  modify (set_g_checkLeaks value).
Definition Konan_Platform_setCleanersLeakChecker (value : bool) : M unit :=
  modify (set_g_checkLeakedCleaners value).

Definition Kotlin_destroyRuntime (fuel : nat) (t : tid) : M unit :=
  RuntimeAssert t (g <- atomicGet_globalRuntimeStatus ;;
                   ret (GlobalRuntimeStatus.eqb g GlobalRuntimeStatus.kRunning))
    "Kotlin runtime must be running" ;;
  RuntimeAssert t (isValidRuntime t)
    "Current thread must have Kotlin runtime on it." ;;
  c <- Kotlin_cleanersLeakCheckerEnabled ;;
  (if c then emit t EvPerformFullGC ;; emit t (EvShutdownCleaners true)
   else emit t (EvShutdownCleaners false)) ;;
  m <- Kotlin_memoryLeakCheckerEnabled ;;
  (if m then emit t EvWaitNativeWorkersTermination else ret tt) ;;
  atomicSet_globalRuntimeStatus GlobalRuntimeStatus.kDestroyed ;;
  alive <- atomicGet_aliveRuntimesCount ;;
  let otherRuntimesCount := wrap_int (alive - 1) in
  RuntimeAssert t (ret (0 <=? otherRuntimesCount)) "Cannot be negative." ;;
  (if 0 <? otherRuntimesCount then
     emit t (EvConsoleErrorf
               "Cannot destroy runtime while there're %d alive threads with Kotlin runtime on them.\n"
               [otherRuntimesCount]) ;;
     abort
   else ret tt) ;;
  p <- get_runtimeState t ;;
  deinitRuntime fuel t p true ;;
  put_runtimeState t kInvalidRuntime.

Definition Kotlin_zeroOutTLSGlobals (fuel : nat) (t : tid) : M unit :=
  p <- get_runtimeState t ;;
  if (p =? nullptr)%N then ret tt
  else
    rs <- load_runtime p ;;
    if (memoryState rs =? nullptr)%N then ret tt
    else InitOrDeinitGlobalVariables fuel t DEINIT_THREAD_LOCAL_GLOBALS (memoryState rs).

(** Modelled from the spec: the thread-exit hook that [konan::onThreadExit]
    installs (Porting.cpp is not among the sources).  The registered callback
    "will invoke the non-destroying teardown automatically if the thread
    exits without explicit cleanup": a thread that still holds its runtime
    runs [Kotlin_deinitRuntimeCallback] on it; the thread-local variable
    goes away with the thread. *)
Definition threadExit (fuel : nat) (t : tid) : M unit :=
  v <- isValidRuntime t ;;
  if v then
    p <- get_runtimeState t ;;
    Kotlin_deinitRuntimeCallback fuel t p ;;
    put_runtimeState t kInvalidRuntime
  else ret tt.

End Code.

(** ** The registry as a list *)

(** The nodes reached from [p] by following [next], when the chain ends in
    null after at most [fuel] links. *)
Fixpoint chain (fuel : nat) (h : gmap N InitNode) (p : ptr) : option (list ptr) :=
  if (p =? nullptr)%N then Some []
  else match fuel with
       | O => None
       | S fuel' =>
           match h !! p with
           | None => None
           | Some n =>
               match chain fuel' h (next n) with
               | Some l => Some (p :: l)
               | None => None
               end
           end
       end.

(** [registry s l]: the list starting at [initHeadNode] is made of the nodes
    [l], in this order, and [initTailNode] is the last of them. *)
Definition registry (s : State) (l : list ptr) : Prop :=
  chain (length l) (nodes s) (initHeadNode s) = Some l /\
  (l <> [] -> initTailNode s = List.last l nullptr).

(** The callback stored in the node at [p]. *)
Definition callback (h : gmap N InitNode) (p : ptr) : Initializer :=
  match h !! p with
  | Some n => init n
  | None => 0%N
  end.

(** The events of one traversal of the nodes [l] by thread [t]. *)
Definition calls (h : gmap N InitNode) (t : tid) (initialize : Z) (memory : ptr)
    (l : list ptr) : list (tid * event) :=
  map (fun p => (t, EvInitializer (callback h p) initialize memory)) l.

Definition phase_events (h : gmap N InitNode) (t : tid) (initialize : Z)
    (memory : ptr) (l : list ptr) : list (tid * event) :=
  (t, EvRunPhase initialize memory) :: calls h t initialize memory l.

(** ** What the lifecycle functions emit *)

Section Events.
Context {B : Build}.

(** The events of a successful [initRuntime] on thread [t]; [firstRuntime] is
    the outcome of the compare-and-set and [l] the registered nodes. *)
Definition init_events (h : gmap N InitNode) (t : tid) (firstRuntime : bool)
    (env : Env) (l : list ptr) : list (tid * event) :=
  [(t, EvSetKonanTerminateHandler); (t, EvInitMemory firstRuntime);
   (t, EvWorkerInit true)] ++
  (if firstRuntime then
     (t, EvConsoleInit) ::
     (if KONAN_OBJC_INTEROP then [(t, EvObjCExportInitialize)] else []) ++
     phase_events h t INIT_GLOBALS (init_memory env) l
   else []) ++
  phase_events h t INIT_THREAD_LOCAL_GLOBALS (init_memory env) l.

(** The events of [deinitRuntime] on the runtime [rs]. *)
Definition deinit_events (h : gmap N InitNode) (t : tid) (rs : RuntimeState)
    (destroyRuntime : bool) (l : list ptr) : list (tid * event) :=
  [(t, EvRestoreMemory (memoryState rs))] ++
  phase_events h t DEINIT_THREAD_LOCAL_GLOBALS (memoryState rs) l ++
  (if destroyRuntime then phase_events h t DEINIT_GLOBALS (memoryState rs) l
   else []) ++
  [(t, EvGetWorkerId (worker rs)); (t, EvWorkerDeinit (worker rs));
   (t, EvDeinitMemory (memoryState rs) destroyRuntime);
   (t, EvWorkerDestroyThreadDataIfNeeded (GetWorkerId (worker rs)))].

(** The events of [Kotlin_destroyRuntime] before it reads the counter. *)
Definition shutdown_events (t : tid) (s : State) : list (tid * event) :=
  (if g_checkLeakedCleaners s
   then [(t, EvPerformFullGC); (t, EvShutdownCleaners true)]
   else [(t, EvShutdownCleaners false)]) ++
  (if g_checkLeaks s then [(t, EvWaitNativeWorkersTermination)] else []).

(** The two diagnostics printed through [konan::consoleErrorf]. *)
Definition destroyed_message : string :=
  "Kotlin runtime was previously destroyed. Cannot create new runtime.\n".
Definition alive_message : string :=
  "Cannot destroy runtime while there're %d alive threads with Kotlin runtime on them.\n".

(** The state of [Kotlin_destroyRuntime] when it reads the counter. *)
Definition destroy_pre_state (t : tid) (s : State) : State :=
  set_globalRuntimeStatus GlobalRuntimeStatus.kDestroyed
    (set_trace (trace s ++ shutdown_events t s) s).

(** The state in which a successful [initRuntime] leaves the process. *)
Definition init_state (t : tid) (env : Env) (l : list ptr) (s : State) : State :=
  let p := fresh_address (runtimes s) in
  let firstRuntime :=
    GlobalRuntimeStatus.eqb (globalRuntimeStatus s) GlobalRuntimeStatus.kUninitialized in
  mkState (initHeadNode s) (initTailNode s) (nodes s) (g_checkLeaks s)
    (g_checkLeakedCleaners s)
    (<[t := p]> (runtimeState s))
    (wrap_int (aliveRuntimesCount s + 1))
    GlobalRuntimeStatus.kRunning
    (<[p := mkRuntimeState (init_memory env) (init_worker env) RuntimeStatus.kRunning]>
       (runtimes s))
    (trace s ++ init_events (nodes s) t firstRuntime env l).

(** The state in which [deinitRuntime] leaves the process. *)
Definition deinit_state (t : tid) (p : ptr) (rs : RuntimeState)
    (destroyRuntime : bool) (l : list ptr) (s : State) : State :=
  mkState (initHeadNode s) (initTailNode s) (nodes s) (g_checkLeaks s)
    (g_checkLeakedCleaners s) (runtimeState s)
    (wrap_int (aliveRuntimesCount s + -1))
    (globalRuntimeStatus s)
    (delete p (runtimes s))
    (trace s ++ deinit_events (nodes s) t rs destroyRuntime l).

End Events.

(** ** The process as a transition system *)

(** The calls a thread can make into the file, and the end of a thread. *)
Inductive call : Type :=
| CallAppendToInitializersTail (node : ptr)
| CallInitRuntimeIfNeeded (env : Env)
| CallDeinitRuntimeIfNeeded
| CallDestroyRuntime
| CallZeroOutTLSGlobals
| CallSetMemoryLeakChecker (value : bool)
| CallSetCleanersLeakChecker (value : bool)
| ThreadExit.

(** The calls that tear the calling thread's runtime down. *)
Definition is_teardown (c : call) : bool :=
  match c with
  | CallDeinitRuntimeIfNeeded | CallDestroyRuntime | ThreadExit => true
  | _ => false
  end.

Section System.
Context {B : Build}.

Definition exec (fuel : nat) (t : tid) (c : call) : M unit :=
  match c with
  | CallAppendToInitializersTail node => AppendToInitializersTail node
  | CallInitRuntimeIfNeeded env => Kotlin_initRuntimeIfNeeded fuel env t
  | CallDeinitRuntimeIfNeeded => Kotlin_deinitRuntimeIfNeeded fuel t
  | CallDestroyRuntime => Kotlin_destroyRuntime fuel t
  | CallZeroOutTLSGlobals => Kotlin_zeroOutTLSGlobals fuel t
  | CallSetMemoryLeakChecker value => Konan_Platform_setMemoryLeakChecker value
  | CallSetCleanersLeakChecker value => Konan_Platform_setCleanersLeakChecker value
  | ThreadExit => threadExit fuel t
  end.

(** The state at process start: the static initial values of the globals;
    [mem] is the memory in which the modules' [InitNode] objects live. *)
Definition initial_state (mem : gmap N InitNode) : State :=
  mkState nullptr nullptr mem KonanNeedDebugInfo KonanNeedDebugInfo
    ∅ 0 GlobalRuntimeStatus.kUninitialized ∅ [].

(** The number of threads that hold a runtime is representable in the
    counter's type. *)
Definition threads_fit_int (s : State) : Prop :=
  Z.of_nat (size (runtimeState s)) <= INT_MAX.

(** The states a live process passes through: every call so far returned,
    and the machine never ran more threads with a runtime than an [int]
    counts. *)
Inductive reachable : State -> Prop :=
| reachable_initial (mem : gmap N InitNode) : reachable (initial_state mem)
| reachable_step (s : State) (fuel : nat) (t : tid) (c : call) (s' : State) :
    reachable s ->
    exec fuel t c s = Ok tt s' ->
    threads_fit_int s' ->
    reachable s'.

(** Any number of returning calls, from any state. *)
Inductive steps : State -> State -> Prop :=
| steps_refl (s : State) : steps s s
| steps_step (s : State) (fuel : nat) (t : tid) (c : call) (s1 s2 : State) :
    exec fuel t c s = Ok tt s1 -> steps s1 s2 -> steps s s2.

End System.

(** How often [InitOrDeinitGlobalVariables] was entered with the phase tag
    [ph]. *)
Definition is_phase (ph : Z) (e : tid * event) : bool :=
  match snd e with
  | EvRunPhase i _ => (i =? ph)
  | _ => false
  end.
Definition phase_runs (ph : Z) (tr : list (tid * event)) : nat :=
  length (List.filter (is_phase ph) tr).

(** The invariant of the lifecycle: no thread-local pointer of the table is
    null, the counter is the number of threads that hold a runtime, and
    the global status bounds what has happened so far. *)
Definition Inv (s : State) : Prop :=
  (forall t p, runtimeState s !! t = Some p -> p <> nullptr) /\
  aliveRuntimesCount s = Z.of_nat (size (runtimeState s)) /\
  match globalRuntimeStatus s with
  | GlobalRuntimeStatus.kUninitialized =>
      runtimeState s = ∅ /\
      phase_runs INIT_GLOBALS (trace s) = 0%nat /\
      phase_runs DEINIT_GLOBALS (trace s) = 0%nat
  | GlobalRuntimeStatus.kRunning =>
      phase_runs INIT_GLOBALS (trace s) = 1%nat /\
      phase_runs DEINIT_GLOBALS (trace s) = 0%nat
  | GlobalRuntimeStatus.kDestroyed =>
      runtimeState s = ∅ /\
      phase_runs INIT_GLOBALS (trace s) = 1%nat /\
      phase_runs DEINIT_GLOBALS (trace s) = 1%nat
  end.

(** ** The first runtime *)



(** ** Ownership of the per-thread runtimes *)

(** Every thread that holds a runtime points to a live [RuntimeState] in
    status [kRunning]; two threads never share one; and every live
    [RuntimeState] is the runtime of some thread. *)
Definition Owned (s : State) : Prop :=
  (forall t p, runtimeState s !! t = Some p ->
     exists rs, runtimes s !! p = Some rs /\ status rs = RuntimeStatus.kRunning) /\
  (forall t1 t2 p, runtimeState s !! t1 = Some p -> runtimeState s !! t2 = Some p ->
     t1 = t2) /\
  (forall p rs, runtimes s !! p = Some rs -> exists t, runtimeState s !! t = Some p).


(** The phase tags with which [InitOrDeinitGlobalVariables] was entered, in
    the order of the trace. *)
Definition phase_of (e : tid * event) : option Z :=
  match snd e with
  | EvRunPhase i _ => Some i
  | _ => None
  end.
Definition phases (tr : list (tid * event)) : list Z := omap phase_of tr.

(** A per-thread phase: one of the two that every thread runs. *)
Definition thread_phase (i : Z) : Prop :=
  i = INIT_THREAD_LOCAL_GLOBALS \/ i = DEINIT_THREAD_LOCAL_GLOBALS.

(** The shape of the phases of a process, by global status. *)
Definition PhaseOrder (s : State) : Prop :=
  match globalRuntimeStatus s with
  | GlobalRuntimeStatus.kUninitialized => phases (trace s) = []
  | GlobalRuntimeStatus.kRunning =>
      exists rest, phases (trace s) = INIT_GLOBALS :: rest /\ Forall thread_phase rest
  | GlobalRuntimeStatus.kDestroyed =>
      exists rest, phases (trace s) = INIT_GLOBALS :: rest ++ [DEINIT_GLOBALS] /\
                   Forall thread_phase rest
  end.

(** ** Registration of several modules *)

(** The static constructors of the modules, run one after the other: one
    [AppendToInitializersTail] per node. *)
Fixpoint registerAll (ns : list ptr) : M unit :=
  match ns with
  | [] => ret tt
  | n :: ns' => AppendToInitializersTail n ;; registerAll ns'
  end.

(** ** The leak-checker accessors *)

Definition Konan_Platform_getMemoryLeakChecker : M bool := gets g_checkLeaks.
Definition Konan_Platform_getCleanersLeakChecker : M bool := gets g_checkLeakedCleaners.

(** The events of the shutdown of the cleaners and the wait for the native
    workers. *)
Definition is_shutdown (e : tid * event) : bool :=
  match snd e with
  | EvPerformFullGC | EvShutdownCleaners _ | EvWaitNativeWorkersTermination => true
  | _ => false
  end.


(** ** Platform queries *)

(** The preprocessor macros that [Konan_Platform_getOsFamily] and
    [Konan_Platform_getCpuArchitecture] test; a macro that is not defined, or
    defined as 0, is [false]. *)
Record Target : Type := mkTarget {
  KONAN_MACOSX : bool;
  KONAN_IOS : bool;
  KONAN_LINUX : bool;
  KONAN_WINDOWS : bool;
  KONAN_ANDROID : bool;
  KONAN_WASM : bool;
  KONAN_TVOS : bool;
  KONAN_WATCHOS : bool;
  KONAN_ARM32 : bool;
  KONAN_ARM64 : bool;
  KONAN_X86 : bool;
  KONAN_X64 : bool;
  KONAN_MIPS32 : bool;
  KONAN_MIPSEL32 : bool
}.

Definition Konan_Platform_getOsFamily (T : Target) : Z :=
  if KONAN_MACOSX T then 1
  else if KONAN_IOS T then 2
  else if KONAN_LINUX T then 3
  else if KONAN_WINDOWS T then 4
  else if KONAN_ANDROID T then 5
  else if KONAN_WASM T then 6
  else if KONAN_TVOS T then 7
  else if KONAN_WATCHOS T then 8
  else 0.

Definition Konan_Platform_getCpuArchitecture (T : Target) : Z :=
  if KONAN_ARM32 T then 1
  else if KONAN_ARM64 T then 2
  else if KONAN_X86 T then 3
  else if KONAN_X64 T then 4
  else if KONAN_MIPS32 T then 5
  else if KONAN_MIPSEL32 T then 6
  else if KONAN_WASM T then 7
  else 0.

(** The macros of the two chains, in the order in which they are tested. *)
Definition os_macros (T : Target) : list bool :=
  [KONAN_MACOSX T; KONAN_IOS T; KONAN_LINUX T; KONAN_WINDOWS T;
   KONAN_ANDROID T; KONAN_WASM T; KONAN_TVOS T; KONAN_WATCHOS T].
Definition cpu_macros (T : Target) : list bool :=
  [KONAN_ARM32 T; KONAN_ARM64 T; KONAN_X86 T; KONAN_X64 T;
   KONAN_MIPS32 T; KONAN_MIPSEL32 T; KONAN_WASM T].

(** The number of macros of a chain that are defined. *)
Definition defined (ms : list bool) : nat := length (List.filter (fun b => b) ms).

(** The chain with only its [k]-th macro defined (counting from 1). *)
Definition only (n : nat) (k : Z) : list bool :=
  map (fun i => Z.of_nat (S i) =? k) (seq 0 n).

(** ** Calls that overlap

    The bodies of [Kotlin_initRuntimeIfNeeded], [Kotlin_deinitRuntimeIfNeeded]
    and [Kotlin_destroyRuntime] once more, cut into steps.  A step holds at
    most one access to a variable that a step of another thread writes
    ([globalRuntimeStatus], [aliveRuntimesCount]) or one call of the
    allocator; what else it does is local to the calling thread (its
    [runtimeState], its own [RuntimeState] object) or reads what no step
    writes (the initializer list, the leak-checker flags).  The steps of
    different threads are taken in any order; the shared variables are
    sequentially consistent, as the atomics of the source make them.  The
    events of one step stand together in the trace; what is stated below
    about overlapping calls counts events, or orders the events of
    different steps, and does not depend on it. *)

(** Where a thread stands inside its call, with the local variables that
    are live there. *)
Inductive point : Type :=
| AtInitEntry (env : Env)
    (* Kotlin_initRuntimeIfNeeded, lines 148-152 *)
| AtInitRuntime (env : Env)
    (* initRuntime, lines 88-92 *)
| AtCompareAndSet (env : Env) (result : ptr)
    (* line 93 *)
| AtMustBeRunning (env : Env) (result : ptr) (firstRuntime : bool)
    (* line 94 *)
| AtIncrement (env : Env) (result : ptr) (firstRuntime : bool)
    (* line 95 *)
| AtInitMemory (env : Env) (result : ptr) (firstRuntime : bool)
    (* lines 96-109 *)
| AtOnThreadExit
    (* Kotlin_initRuntimeIfNeeded, line 155 *)
| AtDeinitEntry
    (* Kotlin_deinitRuntimeIfNeeded, lines 160-161 *)
| AtDestroyEntry
    (* Kotlin_destroyRuntime, lines 167-179 *)
| AtDestroyStore
    (* line 181 *)
| AtDestroyCount
    (* lines 183-190 *)
| AtDeinitRuntime (state : ptr) (destroyRuntime : bool)
    (* deinitRuntime, lines 113-117 *)
| AtDeinitPhases (state : ptr) (destroyRuntime : bool)
    (* lines 118-125 *)
| AtClear
    (* ::runtimeState = kInvalidRuntime, line 163 or 191 *)
| Returned.




Section Steps.
Context {B : Build}.

(** One step of thread [t]; the result is the point it reaches. *)
Definition thread_step (fuel : nat) (t : tid) (pt : point) : M point :=
  match pt with
  | AtInitEntry env =>
      v <- isValidRuntime t ;;
      if negb v then
        g <- atomicGet_globalRuntimeStatus ;;
        (if GlobalRuntimeStatus.eqb g GlobalRuntimeStatus.kDestroyed then
           emit t (EvConsoleErrorf
                     "Kotlin runtime was previously destroyed. Cannot create new runtime.\n" []) ;;
           abort
         else ret tt) ;;
        ret (AtInitRuntime env)
      else ret Returned
  | AtInitRuntime env =>
      emit t EvSetKonanTerminateHandler ;;
      result <- konanConstructInstance (alloc_ok env) ;;
      if (result =? nullptr)%N then ret AtOnThreadExit
      else
        RuntimeCheck t (v <- isValidRuntime t ;; ret (negb v))
          "No active runtimes allowed" ;;
        put_runtimeState t result ;;
        ret (AtCompareAndSet env result)
  | AtCompareAndSet env result =>
      firstRuntime <- compareAndSet_globalRuntimeStatus
                        GlobalRuntimeStatus.kUninitialized GlobalRuntimeStatus.kRunning ;;
      ret (AtMustBeRunning env result firstRuntime)
  | AtMustBeRunning env result firstRuntime =>
      RuntimeCheck t (g <- atomicGet_globalRuntimeStatus ;;
                      ret (GlobalRuntimeStatus.eqb g GlobalRuntimeStatus.kRunning))
        "Must be running" ;;
      ret (AtIncrement env result firstRuntime)
  | AtIncrement env result firstRuntime =>
      atomicAdd_aliveRuntimesCount 1 ;;
      ret (AtInitMemory env result firstRuntime)
  | AtInitMemory env result firstRuntime =>
      emit t (EvInitMemory firstRuntime) ;;
      update_runtime result (set_memoryState (init_memory env)) ;;
      emit t (EvWorkerInit true) ;;
      update_runtime result (set_worker (init_worker env)) ;;
      (if firstRuntime then
         emit t EvConsoleInit ;;
         (if KONAN_OBJC_INTEROP then emit t EvObjCExportInitialize else ret tt) ;;
         rs <- load_runtime result ;;
         InitOrDeinitGlobalVariables fuel t INIT_GLOBALS (memoryState rs)
       else ret tt) ;;
      rs <- load_runtime result ;;
      InitOrDeinitGlobalVariables fuel t INIT_THREAD_LOCAL_GLOBALS (memoryState rs) ;;
      RuntimeAssert t (rs <- load_runtime result ;;
                       ret (RuntimeStatus.eqb (status rs) RuntimeStatus.kUninitialized))
        "Runtime must still be in the uninitialized state" ;;
      update_runtime result (set_status RuntimeStatus.kRunning) ;;
      ret AtOnThreadExit
  | AtOnThreadExit =>
      p <- get_runtimeState t ;;
      emit t (EvOnThreadExit p) ;;
      ret Returned
  | AtDeinitEntry =>
      v <- isValidRuntime t ;;
      if v then
        p <- get_runtimeState t ;;
        ret (AtDeinitRuntime p false)
      else ret Returned
  | AtDestroyEntry =>
      RuntimeAssert t (g <- atomicGet_globalRuntimeStatus ;;
                       ret (GlobalRuntimeStatus.eqb g GlobalRuntimeStatus.kRunning))
        "Kotlin runtime must be running" ;;
      RuntimeAssert t (isValidRuntime t)
        "Current thread must have Kotlin runtime on it." ;;
      c <- Kotlin_cleanersLeakCheckerEnabled ;;
      (if c then emit t EvPerformFullGC ;; emit t (EvShutdownCleaners true)
       else emit t (EvShutdownCleaners false)) ;;
      m <- Kotlin_memoryLeakCheckerEnabled ;;
      (if m then emit t EvWaitNativeWorkersTermination else ret tt) ;;
      ret AtDestroyStore
  | AtDestroyStore =>
      atomicSet_globalRuntimeStatus GlobalRuntimeStatus.kDestroyed ;;
      ret AtDestroyCount
  | AtDestroyCount =>
      alive <- atomicGet_aliveRuntimesCount ;;
      let otherRuntimesCount := wrap_int (alive - 1) in
      RuntimeAssert t (ret (0 <=? otherRuntimesCount)) "Cannot be negative." ;;
      (if 0 <? otherRuntimesCount then
         emit t (EvConsoleErrorf
                   "Cannot destroy runtime while there're %d alive threads with Kotlin runtime on them.\n"
                   [otherRuntimesCount]) ;;
         abort
       else ret tt) ;;
      p <- get_runtimeState t ;;
      ret (AtDeinitRuntime p true)
  | AtDeinitRuntime state destroyRuntime =>
      RuntimeAssert t (rs <- load_runtime state ;;
                       ret (RuntimeStatus.eqb (status rs) RuntimeStatus.kRunning))
        "Runtime must be in the running state" ;;
      update_runtime state (set_status RuntimeStatus.kDestroying) ;;
      rs <- load_runtime state ;;
      emit t (EvRestoreMemory (memoryState rs)) ;;
      atomicAdd_aliveRuntimesCount (-1) ;;
      ret (AtDeinitPhases state destroyRuntime)
  | AtDeinitPhases state destroyRuntime =>
      rs <- load_runtime state ;;
      InitOrDeinitGlobalVariables fuel t DEINIT_THREAD_LOCAL_GLOBALS (memoryState rs) ;;
      (if destroyRuntime then
         rs <- load_runtime state ;;
         InitOrDeinitGlobalVariables fuel t DEINIT_GLOBALS (memoryState rs)
       else ret tt) ;;
      rs <- load_runtime state ;;
      emit t (EvGetWorkerId (worker rs)) ;;
      let workerId := GetWorkerId (worker rs) in
      rs <- load_runtime state ;;
      emit t (EvWorkerDeinit (worker rs)) ;;
      rs <- load_runtime state ;;
      emit t (EvDeinitMemory (memoryState rs) destroyRuntime) ;;
      konanDestructInstance state ;;
      emit t (EvWorkerDestroyThreadDataIfNeeded workerId) ;;
      ret AtClear
  | AtClear =>
      put_runtimeState t kInvalidRuntime ;;
      ret Returned
  | Returned => ret Returned
  end.

(** Thread [t] runs [n] steps without another thread in between. *)
Fixpoint run_thread (fuel : nat) (t : tid) (n : nat) (pt : point) : M point :=
  match n with
  | O => ret pt
  | S n' => pt' <- thread_step fuel t pt ;; run_thread fuel t n' pt'
  end.

(** The threads of [th], each inside its call, take their steps in the
    order of the schedule [sched]; a thread that is not in [th] is passed
    over, and one that has returned stays where it is. *)
Fixpoint run_schedule (fuel : nat) (sched : list tid) (th : gmap nat point)
    : M (gmap nat point) :=
  match sched with
  | [] => ret th
  | t :: sched' =>
      match th !! t with
      | Some pt =>
          pt' <- thread_step fuel t pt ;;
          run_schedule fuel sched' (<[t := pt']> th)
      | None => run_schedule fuel sched' th
      end
  end.


End Steps.

(** All threads of [th] have returned from their calls. *)
Definition all_returned (th : gmap nat point) : Prop :=
  forall t pt, th !! t = Some pt -> pt = Returned.


(** ** Initializations that overlap: the invariant *)






(** ** Sample builds and states

    A concrete build and process states on which the statements below are
    checked by evaluation. *)

Definition debug_build : Build := mkBuild true false true (fun w => Z.of_N w).

(** Three [InitNode] objects of the modules, before registration. *)
Definition sample_nodes : gmap N InitNode :=
  <[16%N := mkInitNode 100%N 0%N]>
    (<[32%N := mkInitNode 200%N 0%N]>
       (<[48%N := mkInitNode 300%N 0%N]> ∅)).

(** The same memory once the nodes at 16 and 32 are registered. *)
Definition registered_nodes : gmap N InitNode :=
  <[16%N := mkInitNode 100%N 32%N]>
    (<[32%N := mkInitNode 200%N 0%N]>
       (<[48%N := mkInitNode 300%N 0%N]> ∅)).

(** A debug build after static construction, before any thread has a
    runtime. *)
Definition sample_start : State :=
  mkState 16%N 32%N registered_nodes true true ∅ 0
    GlobalRuntimeStatus.kUninitialized ∅ [].

Definition env0 : Env := mkEnv true 1000%N 2000%N.
Definition env1 : Env := mkEnv true 1001%N 2001%N.
Definition env_no_memory : Env := mkEnv false 0%N 0%N.

Definition one_thread_trace : list (tid * event) :=
  [(0%nat, EvSetKonanTerminateHandler); (0%nat, EvInitMemory true);
   (0%nat, EvWorkerInit true); (0%nat, EvConsoleInit);
   (0%nat, EvRunPhase 0 1000%N); (0%nat, EvInitializer 100%N 0 1000%N);
   (0%nat, EvInitializer 200%N 0 1000%N); (0%nat, EvRunPhase 1 1000%N);
   (0%nat, EvInitializer 100%N 1 1000%N); (0%nat, EvInitializer 200%N 1 1000%N);
   (0%nat, EvOnThreadExit 1%N)].

(** [sample_start] after thread 0 has initialized its runtime. *)
Definition one_thread : State :=
  mkState 16%N 32%N registered_nodes true true
    (<[0%nat := 1%N]> ∅) 1 GlobalRuntimeStatus.kRunning
    (<[1%N := mkRuntimeState 1000%N 2000%N RuntimeStatus.kRunning]> ∅)
    one_thread_trace.

(** ... and after thread 1 has initialized its runtime as well. *)
Definition two_threads : State :=
  mkState 16%N 32%N registered_nodes true true
    (<[0%nat := 1%N]> (<[1%nat := 2%N]> ∅)) 2 GlobalRuntimeStatus.kRunning
    (<[1%N := mkRuntimeState 1000%N 2000%N RuntimeStatus.kRunning]>
       (<[2%N := mkRuntimeState 1001%N 2001%N RuntimeStatus.kRunning]> ∅))
    (one_thread_trace ++
     [(1%nat, EvSetKonanTerminateHandler); (1%nat, EvInitMemory false);
      (1%nat, EvWorkerInit true); (1%nat, EvRunPhase 1 1001%N);
      (1%nat, EvInitializer 100%N 1 1001%N); (1%nat, EvInitializer 200%N 1 1001%N);
      (1%nat, EvOnThreadExit 2%N)]).

(** A release build, and the states of [one_thread] and [two_threads] in
    it: the leak checkers are off by default. *)
Definition release_build : Build := mkBuild false false false (fun w => Z.of_N w).

Definition release_start : State :=
  mkState 16%N 32%N registered_nodes false false ∅ 0
    GlobalRuntimeStatus.kUninitialized ∅ [].

Definition release_two_threads : State :=
  mkState 16%N 32%N registered_nodes false false
    (runtimeState two_threads) 2 GlobalRuntimeStatus.kRunning
    (runtimes two_threads) (trace two_threads).

(** Two targets: Linux on x86-64, and macOS on ARM64. *)
Definition linux_x64 : Target :=
  mkTarget false false true false false false false false
    false false false true false false.
Definition macos_arm64 : Target :=
  mkTarget true false false false false false false false
    false true false false false false.



(** Linux on ARM64, and a target for which none of the macros is defined. *)
Definition linux_arm64 : Target :=
  mkTarget false false true false false false false false
    false true false false false false.
Definition bare_target : Target :=
  mkTarget false false false false false false false false
    false false false false false false.


(** ** Symbolic execution *)

Ltac msimpl :=
  cbv beta iota delta
    [bind ret gets modify emit abort out_of_fuel
     atomicGet_globalRuntimeStatus atomicSet_globalRuntimeStatus
     compareAndSet_globalRuntimeStatus atomicGet_aliveRuntimesCount
     atomicAdd_aliveRuntimesCount get_runtimeState put_runtimeState
     isValidRuntime load_runtime load_node update_runtime
     konanConstructInstance konanDestructInstance kInvalidRuntime
     RuntimeCheck RuntimeAssert
     Kotlin_cleanersLeakCheckerEnabled Kotlin_memoryLeakCheckerEnabled
     Konan_Platform_setMemoryLeakChecker
     Konan_Platform_setCleanersLeakChecker] in *;
  cbn [set_initHeadNode set_initTailNode set_nodes set_g_checkLeaks
       set_g_checkLeakedCleaners set_runtimeState set_aliveRuntimesCount
       set_globalRuntimeStatus set_runtimes set_trace
       initHeadNode initTailNode nodes g_checkLeaks g_checkLeakedCleaners
       runtimeState aliveRuntimesCount globalRuntimeStatus runtimes trace
       memoryState worker status set_memoryState set_worker set_status
       init next alloc_ok init_memory init_worker
       RuntimeStatus.eqb GlobalRuntimeStatus.eqb negb] in *.

Lemma chain_fuel_mono (h : gmap N InitNode) fuel p l :
  chain fuel h p = Some l -> forall k, chain (fuel + k) h p = Some l.
Proof.
  revert p l. induction fuel as [|fuel IH]; intros p l H k.
  - simpl in H. destruct (p =? nullptr)%N eqn:E; [|discriminate].
    destruct (0 + k)%nat; simpl; rewrite E; exact H.
  - simpl in *. destruct (p =? nullptr)%N; [exact H|].
    destruct (h !! p) as [n|]; [|discriminate].
    destruct (chain fuel h (next n)) as [l'|] eqn:E; [|discriminate].
    rewrite (IH _ _ E k). exact H.
Qed.

Lemma chain_enough (h : gmap N InitNode) fuel p l :
  chain (length l) h p = Some l -> (length l <= fuel)%nat -> chain fuel h p = Some l.
Proof.
  intros H Hle. replace fuel with (length l + (fuel - length l))%nat by lia.
  now apply chain_fuel_mono.
Qed.

Section Proofs.
Context {B : Build}.

Lemma walkInitNodes_chain fuel t i m p s l :
  chain fuel (nodes s) p = Some l ->
  walkInitNodes fuel t i m p s = Ok tt (set_trace (trace s ++ calls (nodes s) t i m l) s).
Proof.
  revert p s l. induction fuel as [|fuel IH]; intros p s l H; simpl in H |- *.
  - destruct (p =? nullptr)%N; [|discriminate]. injection H as <-.
    unfold calls; simpl. rewrite app_nil_r. now destruct s.
  - destruct (p =? nullptr)%N eqn:E.
    + injection H as <-. unfold calls; simpl. rewrite app_nil_r. now destruct s.
    + msimpl. rewrite E.
      destruct (nodes s !! p) as [n|] eqn:Hn; [|discriminate].
      destruct (chain fuel (nodes s) (next n)) as [l'|] eqn:E'; [|discriminate].
      injection H as <-. msimpl.
      rewrite (IH (next n) _ l') by (msimpl; exact E'). msimpl.
      unfold calls, callback. simpl. rewrite Hn, <- app_assoc. reflexivity.
Qed.

Lemma walkInitNodes_Ok fuel t i m p s s' :
  walkInitNodes fuel t i m p s = Ok tt s' ->
  exists l, chain fuel (nodes s) p = Some l.
Proof.
  revert p s s'. induction fuel as [|fuel IH]; intros p s s' H; simpl in H |- *.
  - destruct (p =? nullptr)%N; [eauto|discriminate].
  - destruct (p =? nullptr)%N eqn:E; [eauto|].
    msimpl. rewrite E in H.
    destruct (nodes s !! p) as [n|] eqn:Hn; [|discriminate]. msimpl.
    apply IH in H. msimpl. destruct H as [l ->]. eauto.
Qed.

Lemma walkInitNodes_not_Abort fuel t i m p s s' :
  walkInitNodes fuel t i m p s <> Abort s'.
Proof.
  revert p s. induction fuel as [|fuel IH]; intros p s; simpl.
  - destruct (p =? nullptr)%N; discriminate.
  - destruct (p =? nullptr)%N eqn:E; [discriminate|].
    msimpl. rewrite E.
    destruct (nodes s !! p) as [n|]; [|discriminate]. msimpl. apply IH.
Qed.


Lemma walkInitNodes_cases fuel t i m p s :
  (exists l, chain fuel (nodes s) p = Some l /\
     walkInitNodes fuel t i m p s
     = Ok tt (set_trace (trace s ++ calls (nodes s) t i m l) s)) \/
  (chain fuel (nodes s) p = None /\
     (walkInitNodes fuel t i m p s = Fault \/
      walkInitNodes fuel t i m p s = OutOfFuel)).
Proof.
  destruct (chain fuel (nodes s) p) as [l|] eqn:Hc.
  - left. exists l. split; [reflexivity|]. now apply walkInitNodes_chain.
  - right. split; [reflexivity|].
    destruct (walkInitNodes fuel t i m p s) as [[] s'| s'| |] eqn:Hw; auto.
    + apply walkInitNodes_Ok in Hw. destruct Hw as [l Hl]. congruence.
    + now apply walkInitNodes_not_Abort in Hw.
Qed.

Lemma InitOrDeinitGlobalVariables_cases fuel t i m s :
  (exists l, chain fuel (nodes s) (initHeadNode s) = Some l /\
     InitOrDeinitGlobalVariables fuel t i m s
     = Ok tt (set_trace (trace s ++ phase_events (nodes s) t i m l) s)) \/
  (chain fuel (nodes s) (initHeadNode s) = None /\
     (InitOrDeinitGlobalVariables fuel t i m s = Fault \/
      InitOrDeinitGlobalVariables fuel t i m s = OutOfFuel)).
Proof.
  unfold InitOrDeinitGlobalVariables. msimpl.
  destruct (walkInitNodes_cases fuel t i m (initHeadNode s)
              (set_trace (trace s ++ [(t, EvRunPhase i m)]) s))
    as [(l & Hc & Hw) | (Hc & Hw)]; msimpl.
  - left. exists l. split; [exact Hc|]. rewrite Hw. msimpl.
    unfold phase_events. rewrite <- app_assoc. reflexivity.
  - right. split; [exact Hc|]. destruct Hw as [-> | ->]; auto.
Qed.

End Proofs.

(** ** What the internal functions do *)

Lemma fresh_address_spec (h : gmap N RuntimeState) :
  fresh_address h <> nullptr /\ h !! fresh_address h = None.
Proof.
  unfold fresh_address.
  pose proof (is_fresh ({[nullptr]} ∪ dom h)) as Hf.
  split.
  - intros E. apply Hf. rewrite E. set_solver.
  - apply not_elem_of_dom. set_solver.
Qed.

Lemma Neqb_nullptr_false (p : N) : p <> nullptr -> (p =? nullptr)%N = false.
Proof. intros H. now apply N.eqb_neq. Qed.

Lemma State_eq (s1 s2 : State) :
  initHeadNode s1 = initHeadNode s2 -> initTailNode s1 = initTailNode s2 ->
  nodes s1 = nodes s2 -> g_checkLeaks s1 = g_checkLeaks s2 ->
  g_checkLeakedCleaners s1 = g_checkLeakedCleaners s2 ->
  runtimeState s1 = runtimeState s2 ->
  aliveRuntimesCount s1 = aliveRuntimesCount s2 ->
  globalRuntimeStatus s1 = globalRuntimeStatus s2 ->
  runtimes s1 = runtimes s2 -> trace s1 = trace s2 -> s1 = s2.
Proof. destruct s1, s2; simpl; intros; subst; reflexivity. Qed.

Ltac use_eqs :=
  repeat match goal with
    | H : ?a !! ?b = _ |- context [?a !! ?b] => rewrite H
    | H : (?a =? ?b)%N = _ |- context [(?a =? ?b)%N] => rewrite H
    | H : GlobalRuntimeStatus.eqb ?a ?b = _
      |- context [GlobalRuntimeStatus.eqb ?a ?b] => rewrite H
    | H : RuntimeStatus.eqb ?a ?b = _
      |- context [RuntimeStatus.eqb ?a ?b] => rewrite H
    | H : KONAN_ENABLE_ASSERT = _ |- context [KONAN_ENABLE_ASSERT] => rewrite H
    | H : default ?a ?b = _ |- context [default ?a ?b] => rewrite H
    | H : g_checkLeaks ?s = _ |- context [g_checkLeaks ?s] => rewrite H
    | H : g_checkLeakedCleaners ?s = _
      |- context [g_checkLeakedCleaners ?s] => rewrite H
    | H : (?a <=? ?b) = _ |- context [(?a <=? ?b)] => rewrite H
    | H : (?a <? ?b) = _ |- context [(?a <? ?b)] => rewrite H
    | H : alloc_ok ?e = _ |- context [alloc_ok ?e] => rewrite H
    | H : globalRuntimeStatus ?s = _ |- context [globalRuntimeStatus ?s] => rewrite H
    | |- context [<[?i:=_]> _ !! ?i] => rewrite lookup_insert_eq
    | |- context [(?p =? ?p)%N] => rewrite N.eqb_refl
    end.

Ltac mrun := msimpl; use_eqs; repeat (progress (msimpl; use_eqs)).

Ltac phase_split :=
  match goal with
  | |- context [InitOrDeinitGlobalVariables ?f ?t ?i ?m ?s] =>
      let l := fresh "l" in
      let Hc := fresh "Hc" in
      let Hw := fresh "Hw" in
      destruct (InitOrDeinitGlobalVariables_cases f t i m s)
        as [(l & Hc & Hw) | (Hc & [Hw | Hw])];
      rewrite Hw; clear Hw; msimpl
  end.

Section Specs.
Context {B : Build}.

(** [deinitRuntime] on a live runtime: the conditions under which it
    returns, and the state it leaves. *)
Lemma deinitRuntime_returns fuel t p d s rs l :
  p <> nullptr ->
  runtimes s !! p = Some rs ->
  (KONAN_ENABLE_ASSERT = true -> status rs = RuntimeStatus.kRunning) ->
  chain fuel (nodes s) (initHeadNode s) = Some l ->
  deinitRuntime fuel t p d s = Ok tt (deinit_state t p rs d l s).
Proof.
  intros Hp Hrs Hst Hl.
  pose proof (Neqb_nullptr_false p Hp) as Hp'.
  assert (Hrun : KONAN_ENABLE_ASSERT = true ->
            RuntimeStatus.eqb (status rs) RuntimeStatus.kRunning = true).
  { intros Ha. now rewrite (Hst Ha). }
  unfold deinitRuntime.
  destruct KONAN_ENABLE_ASSERT eqn:Ha; [specialize (Hrun eq_refl)|]; mrun.
  all: phase_split; try congruence; mrun.
  all: destruct d; mrun.
  all: try (phase_split; try congruence; mrun).
  all: repeat match goal with
         | H1 : chain ?f ?h ?p = Some ?a, H2 : chain ?f ?h ?p = Some ?b |- _ =>
             assert (a = b) as -> by congruence; clear H1
         end.
  all: unfold deinit_state, deinit_events; msimpl.
  all: rewrite ?delete_insert_eq, <- ?app_assoc; reflexivity.
Qed.

Lemma status_eqb_Running (st : RuntimeStatus.t) :
  RuntimeStatus.eqb st RuntimeStatus.kRunning = true <-> st = RuntimeStatus.kRunning.
Proof. destruct st; simpl; split; congruence. Qed.

Lemma deinitRuntime_Ok_inv fuel t p d s s' :
  deinitRuntime fuel t p d s = Ok tt s' ->
  exists rs l,
    p <> nullptr /\ runtimes s !! p = Some rs /\
    (KONAN_ENABLE_ASSERT = true -> status rs = RuntimeStatus.kRunning) /\
    chain fuel (nodes s) (initHeadNode s) = Some l /\
    s' = deinit_state t p rs d l s.
Proof.
  intros H.
  destruct (p =? nullptr)%N eqn:Hp.
  { exfalso. revert H. unfold deinitRuntime.
    destruct KONAN_ENABLE_ASSERT eqn:Ha; mrun; discriminate. }
  destruct (runtimes s !! p) as [rs|] eqn:Hrs.
  2:{ exfalso. revert H. unfold deinitRuntime.
      destruct KONAN_ENABLE_ASSERT eqn:Ha; mrun; discriminate. }
  assert (Hst : KONAN_ENABLE_ASSERT = true -> status rs = RuntimeStatus.kRunning).
  { intros Ha. apply status_eqb_Running.
    destruct (RuntimeStatus.eqb (status rs) RuntimeStatus.kRunning) eqn:E; [reflexivity|].
    exfalso. revert H. unfold deinitRuntime. mrun. discriminate. }
  apply N.eqb_neq in Hp.
  destruct (chain fuel (nodes s) (initHeadNode s)) as [l|] eqn:Hl.
  - exists rs, l. rewrite (deinitRuntime_returns fuel t p d s rs l) in H by assumption.
    injection H as <-. auto.
  - exfalso. revert H. unfold deinitRuntime.
    pose proof (Neqb_nullptr_false p Hp) as Hp'.
    destruct KONAN_ENABLE_ASSERT eqn:Ha.
    + pose proof (proj2 (status_eqb_Running _) (Hst eq_refl)) as Hrun.
      mrun. phase_split; try congruence; discriminate.
    + mrun. phase_split; try congruence; discriminate.
Qed.

Lemma deinitRuntime_Abort_inv fuel t p d s s' :
  deinitRuntime fuel t p d s = Abort s' ->
  exists rs,
    KONAN_ENABLE_ASSERT = true /\ runtimes s !! p = Some rs /\
    status rs <> RuntimeStatus.kRunning /\
    s' = set_trace (trace s ++
           [(t, EvRuntimeAssertFailed "Runtime must be in the running state")]) s.
Proof.
  intros H.
  destruct (p =? nullptr)%N eqn:Hp.
  { exfalso. revert H. unfold deinitRuntime.
    destruct KONAN_ENABLE_ASSERT eqn:Ha; mrun; discriminate. }
  destruct (runtimes s !! p) as [rs|] eqn:Hrs.
  2:{ exfalso. revert H. unfold deinitRuntime.
      destruct KONAN_ENABLE_ASSERT eqn:Ha; mrun; discriminate. }
  destruct (RuntimeStatus.eqb (status rs) RuntimeStatus.kRunning) eqn:E.
  - exfalso. revert H. unfold deinitRuntime.
    destruct KONAN_ENABLE_ASSERT eqn:Ha; mrun.
    all: phase_split; try discriminate; mrun.
    all: destruct d; mrun; try discriminate.
    all: phase_split; try discriminate; mrun; discriminate.
  - destruct KONAN_ENABLE_ASSERT eqn:Ha.
    + exists rs. revert H. unfold deinitRuntime. mrun. intros [= <-].
      repeat split; auto. intros Hc. rewrite Hc in E. discriminate.
    + exfalso. revert H. unfold deinitRuntime. mrun.
      phase_split; try discriminate; mrun.
      destruct d; mrun; try discriminate.
      phase_split; try discriminate; mrun; discriminate.
Qed.

(** A thread holds no runtime when its [runtimeState] is [kInvalidRuntime]. *)
Lemma initRuntime_alloc_failure fuel env t s :
  alloc_ok env = false ->
  initRuntime fuel env t s
  = Ok kInvalidRuntime (set_trace (trace s ++ [(t, EvSetKonanTerminateHandler)]) s).
Proof. intros Ha. unfold initRuntime. mrun. reflexivity. Qed.

Lemma initRuntime_returns fuel env t s l :
  alloc_ok env = true ->
  default nullptr (runtimeState s !! t) = nullptr ->
  globalRuntimeStatus s <> GlobalRuntimeStatus.kDestroyed ->
  chain fuel (nodes s) (initHeadNode s) = Some l ->
  initRuntime fuel env t s = Ok (fresh_address (runtimes s)) (init_state t env l s).
Proof.
  intros Ha Hv Hg Hl.
  destruct (fresh_address_spec (runtimes s)) as [Hf1 Hf2].
  pose proof (Neqb_nullptr_false _ Hf1) as Hf.
  unfold initRuntime, init_state.
  destruct (globalRuntimeStatus s) eqn:Hs; [| |congruence]; mrun.
  all: destruct KONAN_OBJC_INTEROP eqn:Ho; mrun.
  all: repeat (phase_split; try congruence; mrun).
  all: destruct KONAN_ENABLE_ASSERT eqn:Hen; mrun.
  all: repeat match goal with
         | H1 : chain ?f ?h ?p = Some ?a, H2 : chain ?f ?h ?p = Some ?b |- _ =>
             assert (a = b) as -> by congruence; clear H1
         end.
  all: unfold init_events; rewrite ?Ho; msimpl.
  all: rewrite ?insert_insert_eq, <- ?app_assoc.
  all: f_equal; apply State_eq; cbn; try reflexivity; assumption.
Qed.

End Specs.

(** ** What the entry points do *)

Section EntryPoints.
Context {B : Build}.

Lemma initRuntime_Ok_inv fuel env t s p s' :
  initRuntime fuel env t s = Ok p s' ->
  (alloc_ok env = false /\ p = nullptr /\
   s' = set_trace (trace s ++ [(t, EvSetKonanTerminateHandler)]) s) \/
  (alloc_ok env = true /\ default nullptr (runtimeState s !! t) = nullptr /\
   globalRuntimeStatus s <> GlobalRuntimeStatus.kDestroyed /\
   exists l, chain fuel (nodes s) (initHeadNode s) = Some l /\
     p = fresh_address (runtimes s) /\ s' = init_state t env l s).
Proof.
  intros H. destruct (alloc_ok env) eqn:Ha.
  2:{ left. rewrite initRuntime_alloc_failure in H by assumption.
      injection H as <- <-. auto. }
  right. split; [reflexivity|].
  destruct (fresh_address_spec (runtimes s)) as [Hf1 Hf2].
  pose proof (Neqb_nullptr_false _ Hf1) as Hf.
  destruct (default nullptr (runtimeState s !! t) =? nullptr)%N eqn:Hv.
  2:{ exfalso. revert H. unfold initRuntime. mrun. discriminate. }
  apply N.eqb_eq in Hv. split; [exact Hv|].
  assert (Hg : globalRuntimeStatus s <> GlobalRuntimeStatus.kDestroyed).
  { intros Hg. revert H. unfold initRuntime. mrun. discriminate. }
  split; [exact Hg|].
  destruct (chain fuel (nodes s) (initHeadNode s)) as [l|] eqn:Hl.
  - exists l. rewrite (initRuntime_returns fuel env t s l) in H by assumption.
    injection H as <- <-. auto.
  - exfalso. revert H. unfold initRuntime.
    destruct (globalRuntimeStatus s) eqn:Hs; [| |congruence]; mrun.
    all: destruct KONAN_OBJC_INTEROP eqn:Ho; mrun.
    all: phase_split; try congruence; discriminate.
Qed.

Lemma Kotlin_initRuntimeIfNeeded_valid fuel env t s :
  default nullptr (runtimeState s !! t) <> nullptr ->
  Kotlin_initRuntimeIfNeeded fuel env t s = Ok tt s.
Proof.
  intros Hv. apply Neqb_nullptr_false in Hv.
  unfold Kotlin_initRuntimeIfNeeded. mrun. reflexivity.
Qed.

Lemma Kotlin_initRuntimeIfNeeded_destroyed fuel env t s :
  default nullptr (runtimeState s !! t) = nullptr ->
  globalRuntimeStatus s = GlobalRuntimeStatus.kDestroyed ->
  Kotlin_initRuntimeIfNeeded fuel env t s
  = Abort (set_trace (trace s ++ [(t, EvConsoleErrorf destroyed_message [])]) s).
Proof.
  intros Hv Hg. unfold Kotlin_initRuntimeIfNeeded. mrun. reflexivity.
Qed.

Lemma Kotlin_initRuntimeIfNeeded_alloc_failure fuel env t s :
  default nullptr (runtimeState s !! t) = nullptr ->
  globalRuntimeStatus s <> GlobalRuntimeStatus.kDestroyed ->
  alloc_ok env = false ->
  Kotlin_initRuntimeIfNeeded fuel env t s
  = Ok tt (set_trace (trace s ++ [(t, EvSetKonanTerminateHandler);
                                  (t, EvOnThreadExit nullptr)]) s).
Proof.
  intros Hv Hg Ha. unfold Kotlin_initRuntimeIfNeeded. mrun.
  destruct (globalRuntimeStatus s) eqn:Hs; [| |congruence]; mrun.
  all: rewrite initRuntime_alloc_failure by assumption; mrun.
  all: rewrite <- app_assoc; reflexivity.
Qed.

Lemma Kotlin_initRuntimeIfNeeded_success fuel env t s l :
  default nullptr (runtimeState s !! t) = nullptr ->
  globalRuntimeStatus s <> GlobalRuntimeStatus.kDestroyed ->
  alloc_ok env = true ->
  chain fuel (nodes s) (initHeadNode s) = Some l ->
  Kotlin_initRuntimeIfNeeded fuel env t s
  = Ok tt (set_trace (trace (init_state t env l s) ++
                      [(t, EvOnThreadExit (fresh_address (runtimes s)))])
             (init_state t env l s)).
Proof.
  intros Hv Hg Ha Hl. unfold Kotlin_initRuntimeIfNeeded. mrun.
  destruct (globalRuntimeStatus s) eqn:Hs; [| |congruence]; mrun.
  all: rewrite (initRuntime_returns fuel env t s l) by (try assumption; congruence).
  all: mrun; unfold init_state; mrun; reflexivity.
Qed.

Lemma Kotlin_initRuntimeIfNeeded_Ok_inv fuel env t s s' :
  Kotlin_initRuntimeIfNeeded fuel env t s = Ok tt s' ->
  (default nullptr (runtimeState s !! t) <> nullptr /\ s' = s) \/
  (default nullptr (runtimeState s !! t) = nullptr /\
   globalRuntimeStatus s <> GlobalRuntimeStatus.kDestroyed /\
   ((alloc_ok env = false /\
     s' = set_trace (trace s ++ [(t, EvSetKonanTerminateHandler);
                                 (t, EvOnThreadExit nullptr)]) s) \/
    (alloc_ok env = true /\
     exists l, chain fuel (nodes s) (initHeadNode s) = Some l /\
       s' = set_trace (trace (init_state t env l s) ++
                       [(t, EvOnThreadExit (fresh_address (runtimes s)))])
              (init_state t env l s)))).
Proof.
  intros H.
  destruct (N.eq_dec (default nullptr (runtimeState s !! t)) nullptr) as [Hv|Hv].
  2:{ left. rewrite Kotlin_initRuntimeIfNeeded_valid in H by assumption.
      injection H as <-. auto. }
  right. split; [exact Hv|].
  assert (Hg : globalRuntimeStatus s <> GlobalRuntimeStatus.kDestroyed).
  { intros Hg. rewrite Kotlin_initRuntimeIfNeeded_destroyed in H by assumption.
    discriminate. }
  split; [exact Hg|].
  destruct (alloc_ok env) eqn:Ha.
  - right. split; [reflexivity|].
    destruct (chain fuel (nodes s) (initHeadNode s)) as [l|] eqn:Hl.
    + exists l. split; [reflexivity|].
      rewrite (Kotlin_initRuntimeIfNeeded_success fuel env t s l) in H by assumption.
      now injection H as <-.
    + exfalso. revert H. unfold Kotlin_initRuntimeIfNeeded. mrun.
      destruct (globalRuntimeStatus s) eqn:Hs; [| |congruence]; mrun.
      all: destruct (initRuntime fuel env t _) as [p s1| | |] eqn:Hi;
        try discriminate.
      all: apply initRuntime_Ok_inv in Hi.
      all: destruct Hi as [(Hx & _) | (_ & _ & _ & l & Hx & _)];
        msimpl; congruence.
  - left. split; [reflexivity|].
    rewrite Kotlin_initRuntimeIfNeeded_alloc_failure in H by assumption.
    now injection H as <-.
Qed.

Lemma Kotlin_deinitRuntimeIfNeeded_invalid fuel t s :
  default nullptr (runtimeState s !! t) = nullptr ->
  Kotlin_deinitRuntimeIfNeeded fuel t s = Ok tt s.
Proof. intros Hv. unfold Kotlin_deinitRuntimeIfNeeded. mrun. reflexivity. Qed.

Lemma Kotlin_deinitRuntimeIfNeeded_valid fuel t s :
  default nullptr (runtimeState s !! t) <> nullptr ->
  Kotlin_deinitRuntimeIfNeeded fuel t s
  = match deinitRuntime fuel t (default nullptr (runtimeState s !! t)) false s with
    | Ok _ s1 => Ok tt (set_runtimeState (delete t (runtimeState s1)) s1)
    | Abort s1 => Abort s1
    | Fault => Fault
    | OutOfFuel => OutOfFuel
    end.
Proof.
  intros Hv. apply Neqb_nullptr_false in Hv.
  unfold Kotlin_deinitRuntimeIfNeeded. mrun.
  destruct (deinitRuntime fuel t _ false s); mrun; reflexivity.
Qed.

Lemma threadExit_eq fuel t s :
  threadExit fuel t s = Kotlin_deinitRuntimeIfNeeded fuel t s.
Proof. reflexivity. Qed.

Lemma Kotlin_deinitRuntimeIfNeeded_Ok_inv fuel t s s' :
  Kotlin_deinitRuntimeIfNeeded fuel t s = Ok tt s' ->
  (default nullptr (runtimeState s !! t) = nullptr /\ s' = s) \/
  (exists p rs l,
     default nullptr (runtimeState s !! t) = p /\ p <> nullptr /\
     runtimes s !! p = Some rs /\
     (KONAN_ENABLE_ASSERT = true -> status rs = RuntimeStatus.kRunning) /\
     chain fuel (nodes s) (initHeadNode s) = Some l /\
     s' = set_runtimeState (delete t (runtimeState s)) (deinit_state t p rs false l s)).
Proof.
  intros H.
  destruct (N.eq_dec (default nullptr (runtimeState s !! t)) nullptr) as [Hv|Hv].
  - left. rewrite Kotlin_deinitRuntimeIfNeeded_invalid in H by assumption.
    injection H as <-. auto.
  - right. rewrite Kotlin_deinitRuntimeIfNeeded_valid in H by assumption.
    destruct (deinitRuntime fuel t _ false s) as [[] s1| | |] eqn:Hd; try discriminate.
    injection H as <-.
    apply deinitRuntime_Ok_inv in Hd. destruct Hd as (rs & l & H1 & H2 & H3 & H4 & ->).
    exists (default nullptr (runtimeState s !! t)), rs, l. repeat split; auto.
Qed.

Lemma Kotlin_deinitRuntimeIfNeeded_Abort_inv fuel t s s' :
  Kotlin_deinitRuntimeIfNeeded fuel t s = Abort s' ->
  s' = set_trace (trace s ++
         [(t, EvRuntimeAssertFailed "Runtime must be in the running state")]) s.
Proof.
  intros H.
  destruct (N.eq_dec (default nullptr (runtimeState s !! t)) nullptr) as [Hv|Hv].
  - rewrite Kotlin_deinitRuntimeIfNeeded_invalid in H by assumption. discriminate.
  - rewrite Kotlin_deinitRuntimeIfNeeded_valid in H by assumption.
    destruct (deinitRuntime fuel t _ false s) as [[] s1|s1| |] eqn:Hd; try discriminate.
    injection H as <-.
    apply deinitRuntime_Abort_inv in Hd. destruct Hd as (rs & _ & _ & _ & ->).
    reflexivity.
Qed.

Lemma Kotlin_destroyRuntime_unfold fuel t s :
  (KONAN_ENABLE_ASSERT = true ->
   globalRuntimeStatus s = GlobalRuntimeStatus.kRunning /\
   default nullptr (runtimeState s !! t) <> nullptr) ->
  Kotlin_destroyRuntime fuel t s
  = let s1 := destroy_pre_state t s in
    let other := wrap_int (aliveRuntimesCount s - 1) in
    if KONAN_ENABLE_ASSERT && negb (0 <=? other) then
      Abort (set_trace (trace s1 ++
               [(t, EvRuntimeAssertFailed "Cannot be negative.")]) s1)
    else if 0 <? other then
      Abort (set_trace (trace s1 ++ [(t, EvConsoleErrorf alive_message [other])]) s1)
    else
      match deinitRuntime fuel t (default nullptr (runtimeState s !! t)) true s1 with
      | Ok _ s2 => Ok tt (set_runtimeState (delete t (runtimeState s2)) s2)
      | Abort s2 => Abort s2
      | Fault => Fault
      | OutOfFuel => OutOfFuel
      end.
Proof.
  intros Hpre. unfold Kotlin_destroyRuntime, destroy_pre_state, shutdown_events.
  destruct (g_checkLeakedCleaners s) eqn:Hc1, (g_checkLeaks s) eqn:Hc2.
  all: destruct (0 <=? wrap_int (aliveRuntimesCount s - 1)) eqn:Hn.
  all: destruct (0 <? wrap_int (aliveRuntimesCount s - 1)) eqn:Hp.
  all: destruct KONAN_ENABLE_ASSERT eqn:Ha;
    [destruct (Hpre eq_refl) as [Hg Hv]; apply Neqb_nullptr_false in Hv|].
  all: mrun; cbn [andb negb]; rewrite <- ?app_assoc; try reflexivity.
  all: match goal with
       | |- context [deinitRuntime ?f ?t ?p ?d ?s] =>
           destruct (deinitRuntime f t p d s)
       end; mrun; reflexivity.
Qed.

Lemma Kotlin_destroyRuntime_precondition fuel t s :
  KONAN_ENABLE_ASSERT = true ->
  ~ (globalRuntimeStatus s = GlobalRuntimeStatus.kRunning /\
     default nullptr (runtimeState s !! t) <> nullptr) ->
  exists msg,
    Kotlin_destroyRuntime fuel t s
    = Abort (set_trace (trace s ++ [(t, EvRuntimeAssertFailed msg)]) s).
Proof.
  intros Ha Hpre. unfold Kotlin_destroyRuntime.
  destruct (GlobalRuntimeStatus.eqb (globalRuntimeStatus s) GlobalRuntimeStatus.kRunning)
    eqn:Hg.
  - destruct (N.eq_dec (default nullptr (runtimeState s !! t)) nullptr) as [Hv|Hv].
    + mrun. eexists. reflexivity.
    + exfalso. apply Hpre. split; [|exact Hv].
      destruct (globalRuntimeStatus s); simpl in Hg; congruence.
  - mrun. eexists. reflexivity.
Qed.

End EntryPoints.

Section MoreEntryPoints.
Context {B : Build}.

Lemma Kotlin_zeroOutTLSGlobals_invalid fuel t s :
  default nullptr (runtimeState s !! t) = nullptr ->
  Kotlin_zeroOutTLSGlobals fuel t s = Ok tt s.
Proof. intros Hv. unfold Kotlin_zeroOutTLSGlobals. mrun. reflexivity. Qed.

Lemma Kotlin_zeroOutTLSGlobals_no_memory fuel t s p rs :
  default nullptr (runtimeState s !! t) = p -> p <> nullptr ->
  runtimes s !! p = Some rs -> memoryState rs = nullptr ->
  Kotlin_zeroOutTLSGlobals fuel t s = Ok tt s.
Proof.
  intros Hv Hp Hrs Hm. apply Neqb_nullptr_false in Hp.
  unfold Kotlin_zeroOutTLSGlobals. mrun. rewrite Hm. mrun. reflexivity.
Qed.

Lemma Kotlin_zeroOutTLSGlobals_memory fuel t s p rs :
  default nullptr (runtimeState s !! t) = p -> p <> nullptr ->
  runtimes s !! p = Some rs -> memoryState rs <> nullptr ->
  Kotlin_zeroOutTLSGlobals fuel t s
  = InitOrDeinitGlobalVariables fuel t DEINIT_THREAD_LOCAL_GLOBALS (memoryState rs) s.
Proof.
  intros Hv Hp Hrs Hm. apply Neqb_nullptr_false in Hp, Hm.
  unfold Kotlin_zeroOutTLSGlobals. mrun. reflexivity.
Qed.

Lemma Kotlin_zeroOutTLSGlobals_Ok_inv fuel t s s' :
  Kotlin_zeroOutTLSGlobals fuel t s = Ok tt s' ->
  s' = s \/
  exists rs l,
    runtimes s !! default nullptr (runtimeState s !! t) = Some rs /\
    memoryState rs <> nullptr /\
    chain fuel (nodes s) (initHeadNode s) = Some l /\
    s' = set_trace (trace s ++ phase_events (nodes s) t DEINIT_THREAD_LOCAL_GLOBALS
                                 (memoryState rs) l) s.
Proof.
  intros H.
  destruct (N.eq_dec (default nullptr (runtimeState s !! t)) nullptr) as [Hv|Hv].
  { rewrite Kotlin_zeroOutTLSGlobals_invalid in H by assumption.
    injection H as <-. auto. }
  destruct (runtimes s !! default nullptr (runtimeState s !! t)) as [rs|] eqn:Hrs.
  2:{ exfalso. revert H. apply Neqb_nullptr_false in Hv.
      unfold Kotlin_zeroOutTLSGlobals. mrun. discriminate. }
  destruct (N.eq_dec (memoryState rs) nullptr) as [Hm|Hm].
  { rewrite (Kotlin_zeroOutTLSGlobals_no_memory fuel t s _ rs eq_refl) in H
      by assumption.
    injection H as <-. auto. }
  rewrite (Kotlin_zeroOutTLSGlobals_memory fuel t s _ rs eq_refl) in H by assumption.
  right. exists rs.
  destruct (InitOrDeinitGlobalVariables_cases fuel t DEINIT_THREAD_LOCAL_GLOBALS
              (memoryState rs) s) as [(l & Hc & Hw) | (Hc & [Hw | Hw])];
    rewrite Hw in H; try discriminate.
  injection H as <-. exists l. auto.
Qed.

Lemma AppendToInitializersTail_empty node s :
  initHeadNode s = nullptr ->
  AppendToInitializersTail node s
  = Ok tt (set_initTailNode node (set_initHeadNode node s)).
Proof.
  intros Hh. unfold AppendToInitializersTail. mrun. rewrite Hh. mrun. reflexivity.
Qed.

Lemma AppendToInitializersTail_nonempty node s n :
  initHeadNode s <> nullptr -> initTailNode s <> nullptr ->
  nodes s !! initTailNode s = Some n ->
  AppendToInitializersTail node s
  = Ok tt (set_initTailNode node
             (set_nodes (<[initTailNode s := mkInitNode (init n) node]> (nodes s)) s)).
Proof.
  intros Hh Ht Hn. apply Neqb_nullptr_false in Hh, Ht.
  unfold AppendToInitializersTail. mrun. reflexivity.
Qed.

Lemma AppendToInitializersTail_frame node s s' :
  AppendToInitializersTail node s = Ok tt s' ->
  runtimeState s' = runtimeState s /\
  aliveRuntimesCount s' = aliveRuntimesCount s /\
  globalRuntimeStatus s' = globalRuntimeStatus s /\
  runtimes s' = runtimes s /\ trace s' = trace s.
Proof.
  unfold AppendToInitializersTail. mrun.
  destruct (initHeadNode s =? nullptr)%N; mrun.
  - intros [= <-]. auto.
  - destruct (initTailNode s =? nullptr)%N; [discriminate|].
    destruct (nodes s !! initTailNode s); [|discriminate].
    mrun. intros [= <-]. auto.
Qed.

End MoreEntryPoints.

Section Aborts.
Context {B : Build}.

Lemma InitOrDeinitGlobalVariables_not_Abort fuel t i m s s' :
  InitOrDeinitGlobalVariables fuel t i m s <> Abort s'.
Proof.
  destruct (InitOrDeinitGlobalVariables_cases fuel t i m s)
    as [(l & _ & ->) | (_ & [-> | ->])]; discriminate.
Qed.

Lemma Kotlin_initRuntimeIfNeeded_Abort_inv fuel env t s s' :
  Kotlin_initRuntimeIfNeeded fuel env t s = Abort s' ->
  default nullptr (runtimeState s !! t) = nullptr /\
  globalRuntimeStatus s = GlobalRuntimeStatus.kDestroyed /\
  s' = set_trace (trace s ++ [(t, EvConsoleErrorf destroyed_message [])]) s.
Proof.
  intros H.
  destruct (N.eq_dec (default nullptr (runtimeState s !! t)) nullptr) as [Hv|Hv].
  2:{ rewrite Kotlin_initRuntimeIfNeeded_valid in H by assumption. discriminate. }
  destruct (globalRuntimeStatus s) eqn:Hg.
  3:{ rewrite Kotlin_initRuntimeIfNeeded_destroyed in H by assumption.
      injection H as <-. auto. }
  all: exfalso.
  all: destruct (alloc_ok env) eqn:Ha;
    [|rewrite Kotlin_initRuntimeIfNeeded_alloc_failure in H
        by (try assumption; congruence); discriminate].
  all: destruct (chain fuel (nodes s) (initHeadNode s)) as [l|] eqn:Hl;
    [rewrite (Kotlin_initRuntimeIfNeeded_success fuel env t s l) in H
        by (try assumption; congruence); discriminate|].
  all: destruct (fresh_address_spec (runtimes s)) as [Hf1 Hf2].
  all: pose proof (Neqb_nullptr_false _ Hf1) as Hf.
  all: revert H; unfold Kotlin_initRuntimeIfNeeded, initRuntime; mrun.
  all: destruct KONAN_OBJC_INTEROP eqn:Ho; mrun.
  all: phase_split; try congruence; discriminate.
Qed.

Lemma Kotlin_zeroOutTLSGlobals_not_Abort fuel t s s' :
  Kotlin_zeroOutTLSGlobals fuel t s <> Abort s'.
Proof.
  destruct (N.eq_dec (default nullptr (runtimeState s !! t)) nullptr) as [Hv|Hv].
  { rewrite Kotlin_zeroOutTLSGlobals_invalid by assumption. discriminate. }
  destruct (runtimes s !! default nullptr (runtimeState s !! t)) as [rs|] eqn:Hrs.
  2:{ apply Neqb_nullptr_false in Hv.
      unfold Kotlin_zeroOutTLSGlobals. mrun. discriminate. }
  destruct (N.eq_dec (memoryState rs) nullptr) as [Hm|Hm].
  { rewrite (Kotlin_zeroOutTLSGlobals_no_memory fuel t s _ rs eq_refl) by assumption.
    discriminate. }
  rewrite (Kotlin_zeroOutTLSGlobals_memory fuel t s _ rs eq_refl) by assumption.
  apply InitOrDeinitGlobalVariables_not_Abort.
Qed.


(** Past its two entry assertions, [Kotlin_destroyRuntime] leaves the global
    status at [kDestroyed], whether it returns or aborts. *)
Lemma Kotlin_destroyRuntime_sets_Destroyed fuel t s s' :
  (KONAN_ENABLE_ASSERT = true ->
   globalRuntimeStatus s = GlobalRuntimeStatus.kRunning /\
   default nullptr (runtimeState s !! t) <> nullptr) ->
  Kotlin_destroyRuntime fuel t s = Ok tt s' \/ Kotlin_destroyRuntime fuel t s = Abort s' ->
  globalRuntimeStatus s' = GlobalRuntimeStatus.kDestroyed.
Proof.
  intros Hpre H. rewrite Kotlin_destroyRuntime_unfold in H by exact Hpre.
  cbv zeta in H.
  destruct (KONAN_ENABLE_ASSERT && negb (0 <=? wrap_int (aliveRuntimesCount s - 1))).
  { destruct H as [H|H]; [discriminate|]. injection H as <-. reflexivity. }
  destruct (0 <? wrap_int (aliveRuntimesCount s - 1)).
  { destruct H as [H|H]; [discriminate|]. injection H as <-. reflexivity. }
  destruct (deinitRuntime fuel t _ true (destroy_pre_state t s)) as [[] s2|s2| |] eqn:Hd;
    destruct H as [H|H]; try discriminate; injection H as <-.
  - apply deinitRuntime_Ok_inv in Hd. destruct Hd as (rs & l & _ & _ & _ & _ & ->).
    reflexivity.
  - apply deinitRuntime_Abort_inv in Hd. destruct Hd as (rs & _ & _ & _ & ->).
    reflexivity.
Qed.

End Aborts.

(** ** Counting phases in a trace *)

Lemma phase_runs_app ph a b :
  phase_runs ph (a ++ b) = (phase_runs ph a + phase_runs ph b)%nat.
Proof. unfold phase_runs. now rewrite List.filter_app, length_app. Qed.

Lemma phase_runs_calls ph h t i m l : phase_runs ph (calls h t i m l) = 0%nat.
Proof. unfold phase_runs, calls. induction l; simpl; auto. Qed.

Lemma phase_runs_phase_events ph h t i m l :
  phase_runs ph (phase_events h t i m l) = if i =? ph then 1%nat else 0%nat.
Proof.
  unfold phase_events.
  change ((t, EvRunPhase i m) :: calls h t i m l)
    with ([(t, EvRunPhase i m)] ++ calls h t i m l).
  rewrite phase_runs_app, phase_runs_calls. unfold phase_runs. simpl.
  unfold is_phase. simpl. destruct (i =? ph); reflexivity.
Qed.

Section Counting.
Context {B : Build}.

Lemma phase_runs_init_events ph h t first env l :
  phase_runs ph (init_events h t first env l)
  = ((if first then if (INIT_GLOBALS =? ph)%Z then 1 else 0 else 0) +
     (if (INIT_THREAD_LOCAL_GLOBALS =? ph)%Z then 1 else 0))%nat.
Proof.
  unfold init_events. rewrite !phase_runs_app.
  destruct first.
  - change ((t, EvConsoleInit) :: ?x) with ([(t, EvConsoleInit)] ++ x).
    rewrite !phase_runs_app, !phase_runs_phase_events.
    destruct KONAN_OBJC_INTEROP; reflexivity.
  - rewrite !phase_runs_phase_events. reflexivity.
Qed.

Lemma phase_runs_deinit_events ph h t rs d l :
  phase_runs ph (deinit_events h t rs d l)
  = ((if (DEINIT_THREAD_LOCAL_GLOBALS =? ph)%Z then 1 else 0) +
     (if d then if (DEINIT_GLOBALS =? ph)%Z then 1 else 0 else 0))%nat.
Proof.
  unfold deinit_events. rewrite !phase_runs_app.
  destruct d; rewrite ?phase_runs_phase_events;
    destruct (DEINIT_THREAD_LOCAL_GLOBALS =? ph), (DEINIT_GLOBALS =? ph); reflexivity.
Qed.

Lemma phase_runs_shutdown_events ph t s :
  phase_runs ph (shutdown_events t s) = 0%nat.
Proof.
  unfold shutdown_events.
  destruct (g_checkLeakedCleaners s), (g_checkLeaks s); reflexivity.
Qed.

End Counting.

Lemma wrap_int_small (z : Z) : - 2 ^ 31 <= z <= INT_MAX -> wrap_int z = z.
Proof.
  unfold wrap_int, INT_MAX. intros H.
  rewrite Z.mod_small; lia.
Qed.

(** ** The invariant holds in every reachable state *)

Lemma default_Some_valid (m : gmap nat N) t p :
  default nullptr (m !! t) = p -> p <> nullptr -> m !! t = Some p.
Proof. destruct (m !! t); simpl; congruence. Qed.

Lemma default_None_invalid (m : gmap nat N) t :
  (forall t p, m !! t = Some p -> p <> nullptr) ->
  default nullptr (m !! t) = nullptr -> m !! t = None.
Proof.
  intros Hnn Hd. destruct (m !! t) as [p|] eqn:E; [|reflexivity].
  simpl in Hd. subst p. now apply Hnn in E.
Qed.

Lemma size_pos_of_lookup (m : gmap nat N) t p :
  m !! t = Some p -> (1 <= size m)%nat.
Proof.
  intros H. destruct (size m) eqn:E; [|lia].
  apply map_size_empty_inv in E. subst m. rewrite lookup_empty in H. discriminate.
Qed.

Lemma Inv_frame (s s' : State) :
  runtimeState s' = runtimeState s ->
  aliveRuntimesCount s' = aliveRuntimesCount s ->
  globalRuntimeStatus s' = globalRuntimeStatus s ->
  (forall ph, phase_runs ph (trace s') = phase_runs ph (trace s)) ->
  Inv s -> Inv s'.
Proof. unfold Inv. intros -> -> -> Htr. now rewrite !Htr. Qed.

Lemma phase_runs_snoc_other ph tr t e :
  is_phase ph (t, e) = false -> phase_runs ph (tr ++ [(t, e)]) = phase_runs ph tr.
Proof.
  intros H. rewrite phase_runs_app. unfold phase_runs at 2. simpl.
  rewrite H. simpl. lia.
Qed.

Section Invariant.
Context {B : Build}.

Lemma Inv_initial mem : Inv (initial_state mem).
Proof.
  unfold Inv, initial_state. simpl. repeat split; try reflexivity.
  intros t p H. rewrite lookup_empty in H. discriminate.
Qed.

Lemma Inv_holds_runtime_Running s t p :
  Inv s -> runtimeState s !! t = Some p ->
  globalRuntimeStatus s = GlobalRuntimeStatus.kRunning.
Proof.
  intros (_ & _ & HK) Ht.
  destruct (globalRuntimeStatus s); [|reflexivity|];
    destruct HK as [He _]; rewrite He, lookup_empty in Ht; discriminate.
Qed.

Lemma Inv_init s t env l :
  Inv s ->
  default nullptr (runtimeState s !! t) = nullptr ->
  globalRuntimeStatus s <> GlobalRuntimeStatus.kDestroyed ->
  threads_fit_int (init_state t env l s) ->
  Inv (init_state t env l s).
Proof.
  intros (H0 & H1 & HK) Hv Hg Hfit.
  pose proof (default_None_invalid _ _ H0 Hv) as Hn.
  destruct (fresh_address_spec (runtimes s)) as [Hf _].
  unfold threads_fit_int, init_state in *. unfold Inv. msimpl.
  rewrite map_size_insert_None in * by assumption.
  split; [|split].
  - intros t' p' Hl. destruct (decide (t = t')) as [<-|Hne].
    + rewrite lookup_insert_eq in Hl. congruence.
    + rewrite lookup_insert_ne in Hl by assumption. eauto.
  - rewrite H1. rewrite wrap_int_small; unfold INT_MAX in *; lia.
  - rewrite !phase_runs_app, !phase_runs_init_events.
    destruct (globalRuntimeStatus s); [| |congruence]; simpl;
      destruct HK as (? & ?); intuition lia.
Qed.

Lemma Inv_deinit s t p rs d l :
  Inv s -> threads_fit_int s ->
  runtimeState s !! t = Some p ->
  (d = true -> size (runtimeState s) = 1%nat) ->
  Inv (set_runtimeState (delete t (runtimeState s))
         (deinit_state t p rs d l
            (if d then destroy_pre_state t s else s))).
Proof.
  intros HI Hfit Ht Hd.
  pose proof (Inv_holds_runtime_Running _ _ _ HI Ht) as Hg.
  destruct HI as (H0 & H1 & HK). rewrite Hg in HK. destruct HK as [HK1 HK2].
  pose proof (size_pos_of_lookup _ _ _ Ht) as Hpos.
  unfold threads_fit_int in Hfit.
  assert (Hsz : size (delete t (runtimeState s)) = pred (size (runtimeState s))).
  { apply map_size_delete_Some. eauto. }
  unfold Inv, deinit_state, destroy_pre_state. destruct d; msimpl.
  - split; [|split].
    + intros t' p' Hl. apply lookup_delete_Some in Hl. destruct Hl; eauto.
    + rewrite Hsz, H1, (Hd eq_refl). reflexivity.
    + split.
      * apply map_size_empty_inv. rewrite Hsz, (Hd eq_refl). reflexivity.
      * rewrite !phase_runs_app, !phase_runs_deinit_events,
          !phase_runs_shutdown_events, HK1, HK2. split; reflexivity.
  - rewrite Hg. split; [|split].
    + intros t' p' Hl. apply lookup_delete_Some in Hl. destruct Hl; eauto.
    + rewrite Hsz, H1. rewrite wrap_int_small; unfold INT_MAX in *; lia.
    + rewrite !phase_runs_app, !phase_runs_deinit_events, HK1, HK2.
      split; reflexivity.
Qed.

(** When [Kotlin_destroyRuntime] returns, the caller held the only runtime. *)
Lemma Kotlin_destroyRuntime_Ok_inv fuel t s s' :
  Inv s -> threads_fit_int s ->
  Kotlin_destroyRuntime fuel t s = Ok tt s' ->
  exists p rs l,
    runtimeState s !! t = Some p /\ p <> nullptr /\
    runtimes s !! p = Some rs /\
    size (runtimeState s) = 1%nat /\
    chain fuel (nodes s) (initHeadNode s) = Some l /\
    s' = set_runtimeState (delete t (runtimeState s))
           (deinit_state t p rs true l (destroy_pre_state t s)).
Proof.
  intros HI Hfit H.
  assert (Hpre : KONAN_ENABLE_ASSERT = true ->
            globalRuntimeStatus s = GlobalRuntimeStatus.kRunning /\
            default nullptr (runtimeState s !! t) <> nullptr).
  { intros Ha.
    destruct (GlobalRuntimeStatus.eqb (globalRuntimeStatus s)
                GlobalRuntimeStatus.kRunning) eqn:Hg;
    destruct (N.eq_dec (default nullptr (runtimeState s !! t)) nullptr) as [Hv|Hv].
    - exfalso. destruct (Kotlin_destroyRuntime_precondition fuel t s Ha) as [m Hm];
        [tauto|congruence].
    - split; [|exact Hv]. destruct (globalRuntimeStatus s); simpl in Hg; congruence.
    - exfalso. destruct (Kotlin_destroyRuntime_precondition fuel t s Ha) as [m Hm];
        [|congruence].
      intros [Hc _]. rewrite Hc in Hg. discriminate.
    - exfalso. destruct (Kotlin_destroyRuntime_precondition fuel t s Ha) as [m Hm];
        [|congruence].
      intros [Hc _]. rewrite Hc in Hg. discriminate. }
  rewrite Kotlin_destroyRuntime_unfold in H by exact Hpre. cbv zeta in H.
  destruct (KONAN_ENABLE_ASSERT && negb (0 <=? wrap_int (aliveRuntimesCount s - 1)));
    [discriminate|].
  destruct (0 <? wrap_int (aliveRuntimesCount s - 1)) eqn:Hother; [discriminate|].
  destruct (deinitRuntime fuel t _ true (destroy_pre_state t s)) as [[] s2| | |] eqn:Hd;
    try discriminate.
  injection H as <-.
  apply deinitRuntime_Ok_inv in Hd.
  destruct Hd as (rs & l & Hp & Hrs & _ & Hl & ->).
  unfold destroy_pre_state in Hrs, Hl. msimpl.
  pose proof (default_Some_valid _ _ _ eq_refl Hp) as Ht.
  exists (default nullptr (runtimeState s !! t)), rs, l.
  repeat split; auto.
  pose proof (size_pos_of_lookup _ _ _ Ht) as Hpos.
  destruct HI as (_ & H1 & _). unfold threads_fit_int in Hfit.
  apply Z.ltb_ge in Hother. rewrite H1 in Hother.
  rewrite wrap_int_small in Hother; unfold INT_MAX in *; lia.
Qed.

Lemma Inv_step s fuel t c s' :
  Inv s -> threads_fit_int s ->
  exec fuel t c s = Ok tt s' -> threads_fit_int s' ->
  Inv s'.
Proof.
  intros HI Hfit H Hfit'. destruct c as [node|env| | | |v|v|]; simpl in H.
  - apply AppendToInitializersTail_frame in H.
    destruct H as (? & ? & ? & ? & Htr). apply (Inv_frame s); auto.
    intros. now rewrite Htr.
  - apply Kotlin_initRuntimeIfNeeded_Ok_inv in H.
    destruct H as [[_ ->] | (Hv & Hg & [[_ ->] | (_ & l & _ & ->)])]; auto.
    + apply (Inv_frame s); auto. intros ph. msimpl.
      change (trace s ++ [(t, EvSetKonanTerminateHandler); (t, EvOnThreadExit nullptr)])
        with (trace s ++ [(t, EvSetKonanTerminateHandler)] ++ [(t, EvOnThreadExit nullptr)]).
      rewrite app_assoc, !phase_runs_snoc_other; reflexivity.
    + apply (Inv_frame (init_state t env l s)); auto.
      * intros ph. msimpl. now rewrite phase_runs_snoc_other.
      * apply Inv_init; auto.
  - apply Kotlin_deinitRuntimeIfNeeded_Ok_inv in H.
    destruct H as [[_ ->] | (p & rs & l & Hv & Hp & Hrs & _ & _ & ->)]; auto.
    apply (Inv_deinit s t p rs false l); auto.
    + now apply default_Some_valid.
    + discriminate.
  - apply Kotlin_destroyRuntime_Ok_inv in H; auto.
    destruct H as (p & rs & l & Ht & Hp & Hrs & Hsz & _ & ->).
    apply (Inv_deinit s t p rs true l); auto.
  - apply Kotlin_zeroOutTLSGlobals_Ok_inv in H.
    destruct H as [-> | (rs & l & _ & _ & _ & ->)]; auto.
    destruct HI as (H0 & H1 & HK). unfold Inv. msimpl.
    rewrite !phase_runs_app, !phase_runs_phase_events. simpl.
    rewrite !Nat.add_0_r. auto.
  - injection H as <-. apply (Inv_frame s); auto.
  - injection H as <-. apply (Inv_frame s); auto.
  - rewrite threadExit_eq in H.
    apply Kotlin_deinitRuntimeIfNeeded_Ok_inv in H.
    destruct H as [[_ ->] | (p & rs & l & Hv & Hp & Hrs & _ & _ & ->)]; auto.
    apply (Inv_deinit s t p rs false l); auto.
    + now apply default_Some_valid.
    + discriminate.
Qed.

Lemma reachable_fit s : reachable s -> threads_fit_int s.
Proof.
  induction 1; auto. unfold threads_fit_int, initial_state, INT_MAX. simpl.
  rewrite map_size_empty. lia.
Qed.

Lemma reachable_Inv s : reachable s -> Inv s.
Proof.
  induction 1 as [mem|s fuel t c s' Hr IH He Hf].
  - apply Inv_initial.
  - eapply Inv_step; eauto. now apply reachable_fit.
Qed.

End Invariant.

(** ** The initializer registry *)

Lemma chain_nil_inv fuel (h : gmap N InitNode) p :
  chain fuel h p = Some [] -> p = nullptr.
Proof.
  destruct fuel; simpl; destruct (p =? nullptr)%N eqn:E; try discriminate.
  - intros _. now apply N.eqb_eq.
  - intros _. now apply N.eqb_eq.
  - destruct (h !! p) as [n|]; [|discriminate].
    destruct (chain fuel h (next n)); discriminate.
Qed.

Lemma chain_cons_inv fuel (h : gmap N InitNode) p q l :
  chain fuel h p = Some (q :: l) ->
  exists fuel' n, fuel = S fuel' /\ p = q /\ p <> nullptr /\ h !! p = Some n /\
                  chain fuel' h (next n) = Some l.
Proof.
  destruct fuel; simpl; destruct (p =? nullptr)%N eqn:E; try discriminate.
  destruct (h !! p) as [n|] eqn:Hn; [|discriminate].
  destruct (chain fuel h (next n)) as [l'|] eqn:Hc; [|discriminate].
  intros [= <- <-]. exists fuel, n. apply N.eqb_neq in E. auto.
Qed.

(** Linking a new node behind the last node of a chain. *)
Lemma chain_snoc fuel (h : gmap N InitNode) p l node nd :
  chain fuel h p = Some l -> l <> [] ->
  node <> nullptr -> node ∉ l -> h !! node = Some nd -> next nd = nullptr ->
  exists n,
    List.last l nullptr <> nullptr /\
    h !! List.last l nullptr = Some n /\ next n = nullptr /\
    chain (S fuel) (<[List.last l nullptr := mkInitNode (init n) node]> h) p
    = Some (l ++ [node]).
Proof.
  revert p l. induction fuel as [|fuel IH]; intros p l Hc Hl Hnode Hnotin Hnd Hnext.
  - destruct l as [|q l]; [congruence|].
    apply chain_cons_inv in Hc. destruct Hc as (f & n & Hf & _). discriminate.
  - destruct l as [|q l]; [congruence|].
    apply chain_cons_inv in Hc.
    destruct Hc as (f & n & [= <-] & <- & Hp & Hn & Hc).
    pose proof (Neqb_nullptr_false _ Hp) as Hp'.
    pose proof (Neqb_nullptr_false _ Hnode) as Hnode'.
    assert (Hne : node <> p) by (intros ->; apply Hnotin; left).
    destruct l as [|q' l'].
    + apply chain_nil_inv in Hc. exists n. simpl.
      repeat split; auto.
      rewrite Hp', lookup_insert_eq. simpl.
      rewrite Hnode', lookup_insert_ne by congruence. rewrite Hnd, Hnext.
      destruct fuel; reflexivity.
    + assert (Hnotin' : node ∉ q' :: l').
      { intros Hin. apply Hnotin. now right. }
      destruct (IH (next n) (q' :: l') Hc ltac:(discriminate) Hnode Hnotin' Hnd Hnext)
        as (n_t & Ht & Hlt & Hnt & Hch).
      exists n_t.
      change (List.last (p :: q' :: l') nullptr) with (List.last (q' :: l') nullptr).
      repeat split; auto.
      assert (Hpt : List.last (q' :: l') nullptr <> p).
      { intros E. rewrite E in Hlt. rewrite Hn in Hlt. injection Hlt as <-.
        rewrite Hnt in Hc. destruct fuel; simpl in Hc; discriminate. }
      change (chain (S (S fuel)) ?h' p) with
        (if (p =? nullptr)%N then Some []
         else match h' !! p with
              | None => None
              | Some n0 => match chain (S fuel) h' (next n0) with
                           | Some l0 => Some (p :: l0)
                           | None => None
                           end
              end).
      rewrite Hp', lookup_insert_ne by assumption. rewrite Hn, Hch. reflexivity.
Qed.

Lemma callback_insert_same_init (h : gmap N InitNode) p n nxt q :
  h !! p = Some n ->
  callback (<[p := mkInitNode (init n) nxt]> h) q = callback h q.
Proof.
  intros Hn. unfold callback. destruct (decide (p = q)) as [<-|Hne].
  - now rewrite lookup_insert_eq, Hn.
  - now rewrite lookup_insert_ne.
Qed.

Lemma registry_nonempty_head s l :
  registry s l -> l <> [] -> initHeadNode s <> nullptr.
Proof.
  intros [Hc _] Hl. destruct l as [|q l]; [congruence|].
  apply chain_cons_inv in Hc. destruct Hc as (f & n & _ & _ & Hp & _). exact Hp.
Qed.

Lemma registry_empty_head s : registry s [] -> initHeadNode s = nullptr.
Proof. intros [Hc _]. now apply chain_nil_inv in Hc. Qed.

Section Registry.
Context {B : Build}.

(** C6.  [AppendToInitializersTail], given a node that is not yet registered
    and whose [next] is null, makes it the last node of the list and keeps
    the nodes registered before, their order and their callbacks;
    [InitOrDeinitGlobalVariables] calls the callback of every registered node
    once, from the head to the tail, each with the phase tag and the memory
    state it was given. *)
Theorem registry_append_then_traverse (s : State) (l : list ptr) :
  registry s l ->
  (forall node nd,
      node <> nullptr -> node ∉ l -> nodes s !! node = Some nd ->
      next nd = nullptr ->
      exists s',
        AppendToInitializersTail node s = Ok tt s' /\
        registry s' (l ++ [node]) /\
        (forall q, callback (nodes s') q = callback (nodes s) q)) /\
  (forall fuel t initialize memory,
      (length l <= fuel)%nat ->
      InitOrDeinitGlobalVariables fuel t initialize memory s
      = Ok tt (set_trace
                 (trace s ++
                  (t, EvRunPhase initialize memory) ::
                  map (fun q => (t, EvInitializer (callback (nodes s) q)
                                       initialize memory)) l) s)).
Proof.
  intros Hreg. split.
  - intros node nd Hnode Hnotin Hnd Hnext.
    destruct l as [|q l].
    + pose proof (registry_empty_head s Hreg) as Hh.
      rewrite AppendToInitializersTail_empty by assumption.
      eexists. split; [reflexivity|]. split; [|reflexivity].
      unfold registry. msimpl. simpl.
      rewrite (Neqb_nullptr_false _ Hnode), Hnd, Hnext. simpl. auto.
    + pose proof (registry_nonempty_head s _ Hreg ltac:(discriminate)) as Hh.
      destruct Hreg as [Hc Htl]. specialize (Htl ltac:(discriminate)).
      destruct (chain_snoc _ _ _ _ node nd Hc ltac:(discriminate) Hnode Hnotin Hnd Hnext)
        as (n & Hlast & Hn & Hnn & Hch).
      rewrite <- Htl in Hlast, Hn, Hch.
      rewrite (AppendToInitializersTail_nonempty node s n) by assumption.
      eexists. split; [reflexivity|]. split.
      * unfold registry. msimpl. rewrite length_app. simpl length.
        rewrite Nat.add_1_r. split; [exact Hch|].
        intros _. now rewrite last_last.
      * intros q'. msimpl. now apply callback_insert_same_init.
  - intros fuel t i m Hle. destruct Hreg as [Hc _].
    pose proof (chain_enough _ _ _ _ Hc Hle) as Hc'.
    destruct (InitOrDeinitGlobalVariables_cases fuel t i m s)
      as [(l' & Hl' & ->) | (Hn & _)]; [|congruence].
    assert (l' = l) as -> by congruence. reflexivity.
Qed.

End Registry.

Lemma registry_append_then_traverse_witness :
  registry sample_start [16%N; 32%N] /\
  (exists s',
      AppendToInitializersTail 48%N sample_start = Ok tt s' /\
      registry s' [16%N; 32%N; 48%N] /\
      InitOrDeinitGlobalVariables 3%nat 0%nat INIT_GLOBALS 1000%N s'
      = Ok tt (set_trace
                 [(0%nat, EvRunPhase INIT_GLOBALS 1000%N);
                  (0%nat, EvInitializer 100%N INIT_GLOBALS 1000%N);
                  (0%nat, EvInitializer 200%N INIT_GLOBALS 1000%N);
                  (0%nat, EvInitializer 300%N INIT_GLOBALS 1000%N)] s')) /\
  InitOrDeinitGlobalVariables 2%nat 0%nat INIT_GLOBALS 1000%N sample_start
  = Ok tt (set_trace
             [(0%nat, EvRunPhase INIT_GLOBALS 1000%N);
              (0%nat, EvInitializer 100%N INIT_GLOBALS 1000%N);
              (0%nat, EvInitializer 200%N INIT_GLOBALS 1000%N)] sample_start).
Proof.
  assert (Hreg : registry sample_start [16%N; 32%N]).
  { split; [reflexivity|]. intros _. reflexivity. }
  destruct (registry_append_then_traverse sample_start [16%N; 32%N] Hreg)
    as [Happend Hwalk].
  split; [exact Hreg|]. split.
  - assert (Hnotin : 48%N ∉ [16%N; 32%N]).
    { intros Hin. apply list_elem_of_In in Hin. simpl in Hin.
      destruct Hin as [Hin|[Hin|[]]]; discriminate. }
    destruct (Happend 48%N (mkInitNode 300%N 0%N) ltac:(discriminate) Hnotin
                ltac:(reflexivity) ltac:(reflexivity)) as (s' & Hs' & Hreg' & Hcb).
    exists s'. split; [exact Hs'|]. split; [exact Hreg'|].
    vm_compute in Hs'. injection Hs' as <-. reflexivity.
  - exact (Hwalk 2%nat 0%nat INIT_GLOBALS 1000%N ltac:(simpl; lia)).
Defined.

(** ** The sample states are states of a running process *)

Lemma sample_start_reachable : @reachable debug_build sample_start.
Proof.
  assert (H1 : @reachable debug_build
                 (mkState 16%N 16%N sample_nodes true true ∅ 0
                    GlobalRuntimeStatus.kUninitialized ∅ [])).
  { apply (@reachable_step debug_build (@initial_state debug_build sample_nodes)
             0%nat 0%nat (CallAppendToInitializersTail 16%N)).
    - apply reachable_initial.
    - vm_compute. reflexivity.
    - vm_compute. discriminate. }
  apply (@reachable_step debug_build _ 0%nat 0%nat
           (CallAppendToInitializersTail 32%N) _ H1).
  - vm_compute. reflexivity.
  - vm_compute. discriminate.
Qed.

Lemma one_thread_reachable : @reachable debug_build one_thread.
Proof.
  apply (@reachable_step debug_build sample_start 2%nat 0%nat
           (CallInitRuntimeIfNeeded env0)).
  - apply sample_start_reachable.
  - vm_compute. reflexivity.
  - vm_compute. discriminate.
Qed.

Lemma two_threads_reachable : @reachable debug_build two_threads.
Proof.
  apply (@reachable_step debug_build one_thread 2%nat 1%nat
           (CallInitRuntimeIfNeeded env1)).
  - apply one_thread_reachable.
  - vm_compute. reflexivity.
  - vm_compute. discriminate.
Qed.

(** ** Destroying the runtime while other threads hold one *)

Lemma size_two_of_lookups (m : gmap nat N) t t' p p' :
  t <> t' -> m !! t = Some p -> m !! t' = Some p' -> (2 <= size m)%nat.
Proof.
  intros Hne Ht Ht'.
  assert (Hd : delete t m !! t' = Some p') by now rewrite lookup_delete_ne.
  pose proof (size_pos_of_lookup _ _ _ Hd) as Hpos.
  rewrite map_size_delete_Some in Hpos by eauto.
  pose proof (size_pos_of_lookup _ _ _ Ht). lia.
Qed.

(** C1, as stated, fails: with two threads holding a runtime,
    [Kotlin_destroyRuntime] on thread 0 aborts with the count 1 in its
    diagnostic, and the global status at the abort is [kDestroyed], not the
    [kRunning] it was at the call. *)
Lemma destroy_abort_status_counterexample :
  exists s',
    @Kotlin_destroyRuntime debug_build 2%nat 0%nat two_threads = Abort s' /\
    last (trace s') = Some (0%nat, EvConsoleErrorf alive_message [1]) /\
    globalRuntimeStatus two_threads = GlobalRuntimeStatus.kRunning /\
    globalRuntimeStatus s' = GlobalRuntimeStatus.kDestroyed /\
    globalRuntimeStatus s' <> globalRuntimeStatus two_threads.
Proof.
  eexists. split; [vm_compute; reflexivity|].
  repeat split; try reflexivity. discriminate.
Qed.

Section DestroyWithOthers.
Context {B : Build}.

(** C1, amended.  When the calling thread [t] holds a runtime and another
    thread [t'] holds one too, [Kotlin_destroyRuntime] aborts after printing
    the diagnostic with the number of the other runtimes, which is positive;
    by then the global status has been set to [kDestroyed], and nothing else
    of the lifecycle state has changed. *)
Theorem destroy_with_other_runtimes_aborts (s : State) (fuel : nat)
    (t t' : tid) (p p' : ptr) :
  reachable s ->
  t <> t' ->
  runtimeState s !! t = Some p ->
  runtimeState s !! t' = Some p' ->
  let others := Z.of_nat (size (runtimeState s)) - 1 in
  let s' := set_trace (trace (destroy_pre_state t s) ++
                       [(t, EvConsoleErrorf alive_message [others])])
              (destroy_pre_state t s) in
  0 < others /\
  Kotlin_destroyRuntime fuel t s = Abort s' /\
  globalRuntimeStatus s = GlobalRuntimeStatus.kRunning /\
  globalRuntimeStatus s' = GlobalRuntimeStatus.kDestroyed /\
  runtimeState s' = runtimeState s /\
  aliveRuntimesCount s' = aliveRuntimesCount s /\
  runtimes s' = runtimes s.
Proof.
  intros Hr Hne Ht Ht'. cbv zeta.
  pose proof (reachable_Inv s Hr) as HI.
  pose proof (reachable_fit s Hr) as Hfit.
  pose proof (size_two_of_lookups _ _ _ _ _ Hne Ht Ht') as Hsz.
  pose proof (Inv_holds_runtime_Running s t p HI Ht) as Hg.
  destruct HI as (H0 & H1 & _).
  assert (Hv : default nullptr (runtimeState s !! t) <> nullptr).
  { rewrite Ht. simpl. eauto. }
  unfold threads_fit_int, INT_MAX in Hfit.
  assert (Hw : wrap_int (aliveRuntimesCount s - 1)
               = Z.of_nat (size (runtimeState s)) - 1).
  { rewrite H1. apply wrap_int_small. unfold INT_MAX. lia. }
  split; [lia|]. split; [|auto].
  rewrite Kotlin_destroyRuntime_unfold by auto. cbv zeta. rewrite Hw.
  replace (0 <=? Z.of_nat (size (runtimeState s)) - 1) with true
    by (symmetry; apply Z.leb_le; lia).
  replace (0 <? Z.of_nat (size (runtimeState s)) - 1) with true
    by (symmetry; apply Z.ltb_lt; lia).
  rewrite andb_false_r. reflexivity.
Qed.

End DestroyWithOthers.

Lemma destroy_with_other_runtimes_aborts_witness :
  @reachable debug_build two_threads /\
  0%nat <> 1%nat /\
  runtimeState two_threads !! 0%nat = Some 1%N /\
  runtimeState two_threads !! 1%nat = Some 2%N /\
  @Kotlin_destroyRuntime debug_build 2%nat 0%nat two_threads
  = Abort (set_trace (trace (@destroy_pre_state 0%nat two_threads) ++
                      [(0%nat, EvConsoleErrorf alive_message
                                 [Z.of_nat (size (runtimeState two_threads)) - 1])])
             (@destroy_pre_state 0%nat two_threads)).
Proof.
  assert (Hne : 0%nat <> 1%nat) by lia.
  assert (H0 : runtimeState two_threads !! 0%nat = Some 1%N) by reflexivity.
  assert (H1 : runtimeState two_threads !! 1%nat = Some 2%N) by reflexivity.
  pose proof (@destroy_with_other_runtimes_aborts debug_build two_threads 2%nat
                0%nat 1%nat 1%N 2%N two_threads_reachable Hne H0 H1) as H.
  cbv zeta in H. destruct H as (_ & H & _).
  split; [exact two_threads_reachable|]. split; [exact Hne|].
  split; [exact H0|]. split; [exact H1|]. exact H.
Defined.

(** ** After the destruction *)

Section AfterDestroy.
Context {B : Build}.

(** No call changes a global status that is [kDestroyed]. *)
Lemma exec_keeps_Destroyed fuel t c s s' :
  globalRuntimeStatus s = GlobalRuntimeStatus.kDestroyed ->
  exec fuel t c s = Ok tt s' ->
  globalRuntimeStatus s' = GlobalRuntimeStatus.kDestroyed.
Proof.
  intros Hg H. destruct c as [node|env| | | |v|v|]; simpl in H.
  - apply AppendToInitializersTail_frame in H. destruct H as (_ & _ & -> & _). exact Hg.
  - apply Kotlin_initRuntimeIfNeeded_Ok_inv in H.
    destruct H as [[_ ->] | (_ & Hn & _)]; [exact Hg|contradiction].
  - apply Kotlin_deinitRuntimeIfNeeded_Ok_inv in H.
    destruct H as [[_ ->] | (p & rs & l & _ & _ & _ & _ & _ & ->)]; exact Hg.
  - destruct (KONAN_ENABLE_ASSERT) eqn:Ha.
    + destruct (Kotlin_destroyRuntime_precondition fuel t s Ha) as [m Hm];
        [|congruence].
      intros [Hc _]. congruence.
    + apply (Kotlin_destroyRuntime_sets_Destroyed fuel t s s'); auto.
      intros Hc. congruence.
  - apply Kotlin_zeroOutTLSGlobals_Ok_inv in H.
    destruct H as [-> | (rs & l & _ & _ & _ & ->)]; exact Hg.
  - injection H as <-. exact Hg.
  - injection H as <-. exact Hg.
  - rewrite threadExit_eq in H. apply Kotlin_deinitRuntimeIfNeeded_Ok_inv in H.
    destruct H as [[_ ->] | (p & rs & l & _ & _ & _ & _ & _ & ->)]; exact Hg.
Qed.

Lemma steps_keep_Destroyed s s' :
  steps s s' ->
  globalRuntimeStatus s = GlobalRuntimeStatus.kDestroyed ->
  globalRuntimeStatus s' = GlobalRuntimeStatus.kDestroyed.
Proof.
  induction 1 as [s|s fuel t c s1 s2 He Hs IH]; intros Hg; [exact Hg|].
  apply IH. now apply (exec_keeps_Destroyed fuel t c s).
Qed.

(** C3.  [Kotlin_destroyRuntime] that gets past its two entry assertions
    (in a build without assertions: always; in a build with assertions: when
    the global status is [kRunning] and the caller holds a runtime) leaves
    the global status at [kDestroyed] whether it returns or aborts; the
    status stays [kDestroyed] through whatever calls follow; and from then
    on [Kotlin_initRuntimeIfNeeded] on a thread without a runtime prints its
    diagnostic and aborts, with no runtime created.  A call that fails an
    entry assertion aborts before the store: the status is as it was. *)
Theorem destroyed_status_is_final (s : State) (fuel : nat) (t : tid) (s' : State) :
  Kotlin_destroyRuntime fuel t s = Ok tt s' \/ Kotlin_destroyRuntime fuel t s = Abort s' ->
  let contract :=
    globalRuntimeStatus s = GlobalRuntimeStatus.kRunning /\
    default nullptr (runtimeState s !! t) <> nullptr in
  ((KONAN_ENABLE_ASSERT = true -> contract) ->
   globalRuntimeStatus s' = GlobalRuntimeStatus.kDestroyed /\
   forall s'', steps s' s'' ->
     globalRuntimeStatus s'' = GlobalRuntimeStatus.kDestroyed /\
     forall fuel' env t',
       default nullptr (runtimeState s'' !! t') = nullptr ->
       Kotlin_initRuntimeIfNeeded fuel' env t' s''
       = Abort (set_trace (trace s'' ++ [(t', EvConsoleErrorf destroyed_message [])]) s'')) /\
  (KONAN_ENABLE_ASSERT = true -> ~ contract ->
   Kotlin_destroyRuntime fuel t s = Abort s' /\
   globalRuntimeStatus s' = globalRuntimeStatus s /\
   exists message, s' = set_trace (trace s ++ [(t, EvRuntimeAssertFailed message)]) s).
Proof.
  intros H. cbv zeta. split.
  - intros Hpre.
    assert (Hd : globalRuntimeStatus s' = GlobalRuntimeStatus.kDestroyed).
    { apply (Kotlin_destroyRuntime_sets_Destroyed fuel t s s'); auto. }
    split; [exact Hd|].
    intros s'' Hs. pose proof (steps_keep_Destroyed _ _ Hs Hd) as Hd'.
    split; [exact Hd'|].
    intros fuel' env t' Hv'. now apply Kotlin_initRuntimeIfNeeded_destroyed.
  - intros Ha Hno.
    destruct (Kotlin_destroyRuntime_precondition fuel t s Ha Hno) as [m Hm].
    rewrite Hm in H. destruct H as [H|H]; [discriminate|]. injection H as <-.
    split; [exact Hm|]. split; [reflexivity|]. eauto.
Qed.

End AfterDestroy.

Lemma destroyed_status_is_final_witness :
  exists s',
    @Kotlin_destroyRuntime debug_build 2%nat 0%nat one_thread = Ok tt s' /\
    globalRuntimeStatus s' = GlobalRuntimeStatus.kDestroyed /\
    @Kotlin_initRuntimeIfNeeded debug_build 2%nat env1 1%nat s'
    = Abort (set_trace (trace s' ++ [(1%nat, EvConsoleErrorf destroyed_message [])]) s').
Proof.
  assert (Hpre : @KONAN_ENABLE_ASSERT debug_build = true ->
            globalRuntimeStatus one_thread = GlobalRuntimeStatus.kRunning /\
            default nullptr (runtimeState one_thread !! 0%nat) <> nullptr).
  { intros _. split; [reflexivity|vm_compute; discriminate]. }
  destruct (@Kotlin_destroyRuntime debug_build 2%nat 0%nat one_thread)
    as [[] s'| | |] eqn:He; try (vm_compute in He; discriminate).
  exists s'. split; [reflexivity|].
  destruct (@destroyed_status_is_final debug_build one_thread 2%nat 0%nat s'
              (or_introl He)) as [Hpast _].
  destruct (Hpast Hpre) as [Hd Hafter].
  split; [exact Hd|].
  destruct (Hafter s' (@steps_refl debug_build s')) as [_ Hinit].
  apply Hinit.
  vm_compute in He. injection He as <-. reflexivity.
Defined.

(** In a build with assertions, [Kotlin_destroyRuntime] called by a thread
    without a runtime aborts on its second entry assertion: the status is
    still [kRunning], and a thread without a runtime can still initialize
    one. *)
Lemma destroy_assertion_abort_counterexample :
  exists s' s'',
    @Kotlin_destroyRuntime debug_build 2%nat 1%nat one_thread = Abort s' /\
    globalRuntimeStatus s' = GlobalRuntimeStatus.kRunning /\
    default nullptr (runtimeState s' !! 2%nat) = nullptr /\
    @Kotlin_initRuntimeIfNeeded debug_build 2%nat env1 2%nat s' = Ok tt s'' /\
    default nullptr (runtimeState s'' !! 2%nat) = 2%N.
Proof.
  destruct (@Kotlin_destroyRuntime debug_build 2%nat 1%nat one_thread)
    as [[] s'|s'| |] eqn:He; try (vm_compute in He; discriminate).
  vm_compute in He. injection He as <-.
  eexists _, _. split; [reflexivity|]. split; [reflexivity|].
  split; [reflexivity|]. split; [vm_compute; reflexivity|]. reflexivity.
Qed.

(** ** The DEINIT_GLOBALS phase *)

Section DeinitGlobals.
Context {B : Build}.


Lemma Kotlin_destroyRuntime_entry fuel t s :
  (exists msg,
     Kotlin_destroyRuntime fuel t s
     = Abort (set_trace (trace s ++ [(t, EvRuntimeAssertFailed msg)]) s)) \/
  (KONAN_ENABLE_ASSERT = true ->
   globalRuntimeStatus s = GlobalRuntimeStatus.kRunning /\
   default nullptr (runtimeState s !! t) <> nullptr).
Proof.
  destruct KONAN_ENABLE_ASSERT eqn:Ha; [|right; discriminate].
  destruct (globalRuntimeStatus s) eqn:Hg;
    destruct (N.eq_dec (default nullptr (runtimeState s !! t)) nullptr) as [Hv|Hv];
    try (right; intros _; split; [reflexivity|exact Hv]).
  all: left; apply Kotlin_destroyRuntime_precondition; [exact Ha|].
  all: intros [Hc1 Hc2]; congruence.
Qed.



End DeinitGlobals.


(** ** The counter of alive runtimes *)

Section AliveCount.
Context {B : Build}.

Lemma teardown_Ok_inv fuel t c s s' :
  Inv s -> threads_fit_int s ->
  is_teardown c = true ->
  is_Some (runtimeState s !! t) ->
  exec fuel t c s = Ok tt s' ->
  exists p rs d l,
    runtimeState s !! t = Some p /\
    s' = set_runtimeState (delete t (runtimeState s))
           (deinit_state t p rs d l (if d then destroy_pre_state t s else s)).
Proof.
  intros HI Hfit Hc [p Ht] H.
  assert (Hv : default nullptr (runtimeState s !! t) <> nullptr).
  { rewrite Ht. simpl. destruct HI as (H0 & _). eauto. }
  assert (Hdeinit : forall s1,
            Kotlin_deinitRuntimeIfNeeded fuel t s = Ok tt s1 ->
            exists rs l,
              s1 = set_runtimeState (delete t (runtimeState s))
                     (deinit_state t p rs false l s)).
  { intros s1 H1. apply Kotlin_deinitRuntimeIfNeeded_Ok_inv in H1.
    destruct H1 as [[Hn _] | (p1 & rs & l & Hp1 & _ & _ & _ & _ & ->)]; [contradiction|].
    rewrite Ht in Hp1. simpl in Hp1. subst p1. eauto. }
  destruct c; try discriminate; simpl in H.
  - destruct (Hdeinit s' H) as (rs & l & ->). exists p, rs, false, l. auto.
  - apply Kotlin_destroyRuntime_Ok_inv in H; auto.
    destruct H as (p1 & rs & l & Ht1 & _ & _ & _ & _ & ->).
    assert (p1 = p) as -> by congruence. exists p, rs, true, l. auto.
  - rewrite threadExit_eq in H.
    destruct (Hdeinit s' H) as (rs & l & ->). exists p, rs, false, l. auto.
Qed.

(** C7.  In every state of a running process the counter is the number of
    threads that hold a runtime (so it is not negative), and these are the
    threads whose [runtimeState] is valid.  A call of
    [Kotlin_initRuntimeIfNeeded] that gives its thread a runtime adds one
    to the counter, and one that does not leaves it as it was; a teardown
    of the calling thread's runtime ([Kotlin_deinitRuntimeIfNeeded], thread
    exit, [Kotlin_destroyRuntime]) takes the runtime from the thread and one
    from the counter.  Neither touches the runtime of another thread. *)
Theorem alive_count_is_number_of_runtimes (s : State) :
  reachable s ->
  aliveRuntimesCount s = Z.of_nat (size (runtimeState s)) /\
  0 <= aliveRuntimesCount s /\
  (forall t, default nullptr (runtimeState s !! t) <> nullptr
             <-> is_Some (runtimeState s !! t)) /\
  (forall fuel env t s',
      runtimeState s !! t = None ->
      Kotlin_initRuntimeIfNeeded fuel env t s = Ok tt s' ->
      threads_fit_int s' ->
      (forall t', t' <> t -> runtimeState s' !! t' = runtimeState s !! t') /\
      (is_Some (runtimeState s' !! t) ->
       aliveRuntimesCount s' = aliveRuntimesCount s + 1) /\
      (runtimeState s' !! t = None ->
       aliveRuntimesCount s' = aliveRuntimesCount s)) /\
  (forall fuel t c s',
      is_teardown c = true ->
      is_Some (runtimeState s !! t) ->
      exec fuel t c s = Ok tt s' ->
      (forall t', t' <> t -> runtimeState s' !! t' = runtimeState s !! t') /\
      runtimeState s' !! t = None /\
      aliveRuntimesCount s' = aliveRuntimesCount s - 1).
Proof.
  intros Hr. pose proof (reachable_Inv s Hr) as HI.
  pose proof (reachable_fit s Hr) as Hfit.
  destruct HI as (H0 & H1 & HK).
  split; [exact H1|]. split; [lia|]. split; [|split].
  - intros t. destruct (runtimeState s !! t) as [p|] eqn:Ht; simpl.
    + split; eauto.
    + split; [congruence|]. intros [p Hp]. discriminate.
  - intros fuel env t s' Ht H Hfit'.
    apply Kotlin_initRuntimeIfNeeded_Ok_inv in H.
    destruct H as [[Hv _] | (_ & _ & [[_ ->] | (_ & l & _ & ->)])].
    + rewrite Ht in Hv. simpl in Hv. congruence.
    + msimpl. repeat split; auto. rewrite Ht. intros [p Hp]. discriminate.
    + unfold init_state, threads_fit_int, INT_MAX in *. msimpl.
      rewrite map_size_insert_None in Hfit' by assumption.
      split; [|split].
      * intros t' Hne. now rewrite lookup_insert_ne.
      * intros _. rewrite H1. apply wrap_int_small. unfold INT_MAX. lia.
      * rewrite lookup_insert_eq. discriminate.
  - intros fuel t c s' Hc Hsome H.
    destruct (teardown_Ok_inv fuel t c s s' (conj H0 (conj H1 HK)) Hfit Hc Hsome H)
      as (p & rs & d & l & Ht & ->).
    pose proof (size_pos_of_lookup _ _ _ Ht) as Hpos.
    unfold deinit_state, destroy_pre_state, threads_fit_int, INT_MAX in *.
    destruct d; msimpl.
    all: split; [intros t' Hne; now rewrite lookup_delete_ne|].
    all: split; [apply lookup_delete_eq|].
    all: rewrite H1; apply wrap_int_small; unfold INT_MAX; lia.
Qed.

End AliveCount.

Lemma alive_count_is_number_of_runtimes_witness :
  @reachable debug_build two_threads /\
  aliveRuntimesCount two_threads = 2 /\
  size (runtimeState two_threads) = 2%nat /\
  (exists s', @Kotlin_deinitRuntimeIfNeeded debug_build 2%nat 1%nat two_threads = Ok tt s' /\
              aliveRuntimesCount s' = 1).
Proof.
  destruct (@alive_count_is_number_of_runtimes debug_build two_threads
              two_threads_reachable) as (Hcount & _ & _ & _ & Hdown).
  split; [exact two_threads_reachable|]. split; [reflexivity|].
  split; [reflexivity|].
  destruct (@Kotlin_deinitRuntimeIfNeeded debug_build 2%nat 1%nat two_threads)
    as [[] s'| | |] eqn:He; try (vm_compute in He; discriminate).
  exists s'. split; [reflexivity|].
  assert (Hsome : is_Some (runtimeState two_threads !! 1%nat)) by (eexists; reflexivity).
  destruct (Hdown 2%nat 1%nat CallDeinitRuntimeIfNeeded s' eq_refl Hsome He)
    as (_ & _ & Hc).
  rewrite Hc, Hcount. reflexivity.
Defined.

(** ** The phases of an initialization *)

Section InitPhases.
Context {B : Build}.

(** C5.  An [initRuntime] that returns a runtime has run, for the calling
    thread and in this order: when its compare-and-set made the global
    status [kRunning] ([firstRuntime]), the INIT_GLOBALS phase; then, in
    every case, the INIT_THREAD_LOCAL_GLOBALS phase; a call for which
    [firstRuntime] is false has not run INIT_GLOBALS.  The status of the
    thread's [RuntimeState] is [kRunning] afterwards. *)
Theorem initRuntime_phases (s : State) (fuel : nat) (env : Env) (t : tid)
    (p : ptr) (s' : State) :
  initRuntime fuel env t s = Ok p s' ->
  p <> nullptr ->
  let firstRuntime :=
    GlobalRuntimeStatus.eqb (globalRuntimeStatus s) GlobalRuntimeStatus.kUninitialized in
  exists l,
    chain fuel (nodes s) (initHeadNode s) = Some l /\
    trace s'
    = trace s ++
      [(t, EvSetKonanTerminateHandler); (t, EvInitMemory firstRuntime);
       (t, EvWorkerInit true)] ++
      (if firstRuntime then
         (t, EvConsoleInit) ::
         (if KONAN_OBJC_INTEROP then [(t, EvObjCExportInitialize)] else []) ++
         phase_events (nodes s) t INIT_GLOBALS (init_memory env) l
       else []) ++
      phase_events (nodes s) t INIT_THREAD_LOCAL_GLOBALS (init_memory env) l /\
    phase_runs INIT_GLOBALS (trace s')
    = (phase_runs INIT_GLOBALS (trace s) + if firstRuntime then 1 else 0)%nat /\
    phase_runs INIT_THREAD_LOCAL_GLOBALS (trace s')
    = (phase_runs INIT_THREAD_LOCAL_GLOBALS (trace s) + 1)%nat /\
    runtimeState s' !! t = Some p /\
    runtimes s' !! p
    = Some (mkRuntimeState (init_memory env) (init_worker env) RuntimeStatus.kRunning) /\
    globalRuntimeStatus s' = GlobalRuntimeStatus.kRunning.
Proof.
  intros H Hp. cbv zeta. apply initRuntime_Ok_inv in H.
  destruct H as [(_ & Hn & _) | (_ & _ & _ & l & Hl & -> & ->)]; [congruence|].
  exists l. unfold init_state. msimpl. split; [exact Hl|].
  split; [reflexivity|].
  rewrite !phase_runs_app, !phase_runs_init_events.
  rewrite !lookup_insert_eq.
  destruct (GlobalRuntimeStatus.eqb _ _); simpl; repeat split; lia.
Qed.

End InitPhases.

Lemma initRuntime_phases_witness :
  exists p s',
    @initRuntime debug_build 2%nat env0 0%nat sample_start = Ok p s' /\
    p <> nullptr /\
    trace s'
    = [(0%nat, EvSetKonanTerminateHandler); (0%nat, EvInitMemory true);
       (0%nat, EvWorkerInit true); (0%nat, EvConsoleInit);
       (0%nat, EvRunPhase INIT_GLOBALS 1000%N);
       (0%nat, EvInitializer 100%N INIT_GLOBALS 1000%N);
       (0%nat, EvInitializer 200%N INIT_GLOBALS 1000%N);
       (0%nat, EvRunPhase INIT_THREAD_LOCAL_GLOBALS 1000%N);
       (0%nat, EvInitializer 100%N INIT_THREAD_LOCAL_GLOBALS 1000%N);
       (0%nat, EvInitializer 200%N INIT_THREAD_LOCAL_GLOBALS 1000%N)].
Proof.
  destruct (@initRuntime debug_build 2%nat env0 0%nat sample_start)
    as [p s'| | |] eqn:He; try (vm_compute in He; discriminate).
  exists p, s'. split; [reflexivity|].
  assert (Hp : p <> nullptr).
  { vm_compute in He. injection He as <- _. discriminate. }
  split; [exact Hp|].
  destruct (@initRuntime_phases debug_build sample_start 2%nat env0 0%nat p s' He Hp)
    as (l & Hl & Htr & _).
  rewrite Htr. vm_compute in Hl. injection Hl as <-. reflexivity.
Defined.

(** ** Idempotent teardown *)

Section Idempotence.
Context {B : Build}.

(** C8.  [Kotlin_deinitRuntimeIfNeeded] on a thread whose [runtimeState] is
    invalid returns and changes nothing.  On a thread with a runtime, a call
    that returns has torn the runtime down: the counter went down by one,
    the events of one [deinitRuntime] were appended, the thread's
    [runtimeState] is invalid; a second call changes nothing more, so two
    calls in a row do what one call does. *)
Theorem Kotlin_deinitRuntimeIfNeeded_idempotent (s : State) (fuel : nat) (t : tid) :
  (default nullptr (runtimeState s !! t) = nullptr ->
   Kotlin_deinitRuntimeIfNeeded fuel t s = Ok tt s) /\
  (forall s1,
      default nullptr (runtimeState s !! t) <> nullptr ->
      Kotlin_deinitRuntimeIfNeeded fuel t s = Ok tt s1 ->
      (exists rs l,
          runtimes s !! default nullptr (runtimeState s !! t) = Some rs /\
          trace s1 = trace s ++ deinit_events (nodes s) t rs false l /\
          phase_runs DEINIT_THREAD_LOCAL_GLOBALS (trace s1)
          = S (phase_runs DEINIT_THREAD_LOCAL_GLOBALS (trace s))) /\
      aliveRuntimesCount s1 = wrap_int (aliveRuntimesCount s - 1) /\
      runtimeState s1 !! t = None /\
      Kotlin_deinitRuntimeIfNeeded fuel t s1 = Ok tt s1) /\
  (Kotlin_deinitRuntimeIfNeeded fuel t ;; Kotlin_deinitRuntimeIfNeeded fuel t)%rt s
  = Kotlin_deinitRuntimeIfNeeded fuel t s.
Proof.
  assert (Hsecond : forall s1,
            default nullptr (runtimeState s !! t) <> nullptr ->
            Kotlin_deinitRuntimeIfNeeded fuel t s = Ok tt s1 ->
            runtimeState s1 !! t = None).
  { intros s1 Hv H. apply Kotlin_deinitRuntimeIfNeeded_Ok_inv in H.
    destruct H as [[Hn _] | (p & rs & l & _ & _ & _ & _ & _ & ->)]; [contradiction|].
    msimpl. apply lookup_delete_eq. }
  split; [|split].
  - apply Kotlin_deinitRuntimeIfNeeded_invalid.
  - intros s1 Hv H. pose proof (Hsecond s1 Hv H) as Ht.
    split; [|split; [|split]]; auto.
    + apply Kotlin_deinitRuntimeIfNeeded_Ok_inv in H.
      destruct H as [[Hn _] | (p & rs & l & <- & _ & Hrs & _ & _ & ->)]; [contradiction|].
      exists rs, l. unfold deinit_state. msimpl. split; [exact Hrs|].
      split; [reflexivity|].
      rewrite phase_runs_app, phase_runs_deinit_events. simpl. lia.
    + apply Kotlin_deinitRuntimeIfNeeded_Ok_inv in H.
      destruct H as [[Hn _] | (p & rs & l & _ & _ & _ & _ & _ & ->)]; [contradiction|].
      reflexivity.
    + apply Kotlin_deinitRuntimeIfNeeded_invalid. now rewrite Ht.
  - unfold bind at 1.
    destruct (Kotlin_deinitRuntimeIfNeeded fuel t s) as [[] s1| | |] eqn:H; try reflexivity.
    destruct (N.eq_dec (default nullptr (runtimeState s !! t)) nullptr) as [Hv|Hv].
    + rewrite Kotlin_deinitRuntimeIfNeeded_invalid in H by assumption.
      injection H as <-. now apply Kotlin_deinitRuntimeIfNeeded_invalid.
    + apply Kotlin_deinitRuntimeIfNeeded_invalid. now rewrite (Hsecond s1 Hv eq_refl).
Qed.

End Idempotence.

Lemma Kotlin_deinitRuntimeIfNeeded_idempotent_witness :
  default nullptr (runtimeState sample_start !! 0%nat) = nullptr /\
  @Kotlin_deinitRuntimeIfNeeded debug_build 2%nat 0%nat sample_start = Ok tt sample_start /\
  default nullptr (runtimeState one_thread !! 0%nat) <> nullptr /\
  exists s1,
    @Kotlin_deinitRuntimeIfNeeded debug_build 2%nat 0%nat one_thread = Ok tt s1 /\
    aliveRuntimesCount s1 = 0 /\
    @Kotlin_deinitRuntimeIfNeeded debug_build 2%nat 0%nat s1 = Ok tt s1.
Proof.
  assert (Hn : default nullptr (runtimeState sample_start !! 0%nat) = nullptr)
    by reflexivity.
  assert (Hv : default nullptr (runtimeState one_thread !! 0%nat) <> nullptr)
    by (vm_compute; discriminate).
  split; [exact Hn|].
  split.
  { exact (proj1 (@Kotlin_deinitRuntimeIfNeeded_idempotent debug_build sample_start
                    2%nat 0%nat) Hn). }
  split; [exact Hv|].
  destruct (@Kotlin_deinitRuntimeIfNeeded debug_build 2%nat 0%nat one_thread)
    as [[] s1| | |] eqn:He; try (vm_compute in He; discriminate).
  exists s1. split; [reflexivity|].
  destruct (@Kotlin_deinitRuntimeIfNeeded_idempotent debug_build one_thread 2%nat 0%nat)
    as (_ & Hone & _).
  destruct (Hone s1 Hv He) as (_ & Hc & _ & Hagain).
  split; [|exact Hagain]. rewrite Hc. reflexivity.
Defined.

(** ** Allocation failure *)

Section AllocationFailure.
Context {B : Build}.

(** C9 fails on the code.  When [konanConstructInstance] returns null,
    [initRuntime] returns [kInvalidRuntime] before it touches any shared
    state, and [Kotlin_initRuntimeIfNeeded], which drops that result, returns
    normally: nothing is aborted, the thread still has no runtime, and the
    thread-exit callback has been registered with a null argument.  When it
    is [InitMemory] that returns null, the call returns normally as well and
    leaves the thread with a runtime in status [kRunning] whose
    [memoryState] is null. *)
Theorem allocation_failure_is_not_fatal (s : State) (fuel : nat) (env : Env) (t : tid) :
  default nullptr (runtimeState s !! t) = nullptr ->
  globalRuntimeStatus s <> GlobalRuntimeStatus.kDestroyed ->
  (alloc_ok env = false ->
   initRuntime fuel env t s
   = Ok kInvalidRuntime (set_trace (trace s ++ [(t, EvSetKonanTerminateHandler)]) s) /\
   Kotlin_initRuntimeIfNeeded fuel env t s
   = Ok tt (set_trace (trace s ++ [(t, EvSetKonanTerminateHandler);
                                   (t, EvOnThreadExit nullptr)]) s)) /\
  (alloc_ok env = true -> init_memory env = nullptr ->
   forall l,
     chain fuel (nodes s) (initHeadNode s) = Some l ->
     exists s',
       Kotlin_initRuntimeIfNeeded fuel env t s = Ok tt s' /\
       runtimeState s' !! t = Some (fresh_address (runtimes s)) /\
       runtimes s' !! fresh_address (runtimes s)
       = Some (mkRuntimeState nullptr (init_worker env) RuntimeStatus.kRunning)).
Proof.
  intros Hv Hg. split.
  - intros Ha. split.
    + now apply initRuntime_alloc_failure.
    + now apply Kotlin_initRuntimeIfNeeded_alloc_failure.
  - intros Ha Hm l Hl.
    rewrite (Kotlin_initRuntimeIfNeeded_success fuel env t s l) by assumption.
    eexists. split; [reflexivity|]. unfold init_state. msimpl.
    rewrite !lookup_insert_eq, Hm. auto.
Qed.

End AllocationFailure.

Lemma allocation_failure_is_not_fatal_witness :
  default nullptr (runtimeState sample_start !! 0%nat) = nullptr /\
  globalRuntimeStatus sample_start <> GlobalRuntimeStatus.kDestroyed /\
  alloc_ok env_no_memory = false /\
  @Kotlin_initRuntimeIfNeeded debug_build 2%nat env_no_memory 0%nat sample_start
  = Ok tt (set_trace [(0%nat, EvSetKonanTerminateHandler);
                      (0%nat, EvOnThreadExit nullptr)] sample_start).
Proof.
  assert (Hv : default nullptr (runtimeState sample_start !! 0%nat) = nullptr)
    by reflexivity.
  assert (Hg : globalRuntimeStatus sample_start <> GlobalRuntimeStatus.kDestroyed)
    by discriminate.
  assert (Ha : alloc_ok env_no_memory = false) by reflexivity.
  split; [exact Hv|]. split; [exact Hg|]. split; [exact Ha|].
  exact (proj2 (proj1 (@allocation_failure_is_not_fatal debug_build sample_start 2%nat
                         env_no_memory 0%nat Hv Hg) Ha)).
Defined.

(** ** Zeroing the thread-local globals *)

Section ZeroOut.
Context {B : Build}.

(** C10.  [Kotlin_zeroOutTLSGlobals] returns without any effect when the
    thread's [runtimeState] is null or the [memoryState] of its runtime is
    null.  Otherwise it is one run of the DEINIT_THREAD_LOCAL_GLOBALS phase
    over the registered nodes with that memory state: the calls of the phase
    are appended to the trace and the rest of the state (the thread's
    [RuntimeState] with its status, the global status, the counter) is as it
    was. *)
Theorem Kotlin_zeroOutTLSGlobals_effect (s : State) (fuel : nat) (t : tid) :
  (default nullptr (runtimeState s !! t) = nullptr ->
   Kotlin_zeroOutTLSGlobals fuel t s = Ok tt s) /\
  (forall p rs,
      default nullptr (runtimeState s !! t) = p -> p <> nullptr ->
      runtimes s !! p = Some rs ->
      (memoryState rs = nullptr -> Kotlin_zeroOutTLSGlobals fuel t s = Ok tt s) /\
      (memoryState rs <> nullptr ->
       forall l,
         registry s l -> (length l <= fuel)%nat ->
         let s' := set_trace
                     (trace s ++
                      phase_events (nodes s) t DEINIT_THREAD_LOCAL_GLOBALS
                        (memoryState rs) l) s in
         Kotlin_zeroOutTLSGlobals fuel t s = Ok tt s' /\
         runtimes s' = runtimes s /\
         runtimeState s' = runtimeState s /\
         globalRuntimeStatus s' = globalRuntimeStatus s /\
         aliveRuntimesCount s' = aliveRuntimesCount s)).
Proof.
  split.
  - apply Kotlin_zeroOutTLSGlobals_invalid.
  - intros p rs Hv Hp Hrs. split.
    + intros Hm. now apply (Kotlin_zeroOutTLSGlobals_no_memory fuel t s p rs).
    + intros Hm l [Hc _] Hle. cbv zeta. split; [|auto].
      rewrite (Kotlin_zeroOutTLSGlobals_memory fuel t s p rs) by assumption.
      pose proof (chain_enough _ _ _ _ Hc Hle) as Hc'.
      destruct (InitOrDeinitGlobalVariables_cases fuel t DEINIT_THREAD_LOCAL_GLOBALS
                  (memoryState rs) s) as [(l' & Hl' & ->) | (Hn & _)]; [|congruence].
      assert (l' = l) as -> by congruence. reflexivity.
Qed.

End ZeroOut.

Lemma Kotlin_zeroOutTLSGlobals_effect_witness :
  Kotlin_zeroOutTLSGlobals 2%nat 0%nat sample_start = Ok tt sample_start /\
  default nullptr (runtimeState one_thread !! 0%nat) = 1%N /\
  runtimes one_thread !! 1%N
  = Some (mkRuntimeState 1000%N 2000%N RuntimeStatus.kRunning) /\
  registry one_thread [16%N; 32%N] /\
  Kotlin_zeroOutTLSGlobals 2%nat 0%nat one_thread
  = Ok tt (set_trace
             (one_thread_trace ++
              [(0%nat, EvRunPhase DEINIT_THREAD_LOCAL_GLOBALS 1000%N);
               (0%nat, EvInitializer 100%N DEINIT_THREAD_LOCAL_GLOBALS 1000%N);
               (0%nat, EvInitializer 200%N DEINIT_THREAD_LOCAL_GLOBALS 1000%N)])
             one_thread).
Proof.
  destruct (Kotlin_zeroOutTLSGlobals_effect sample_start 2%nat 0%nat)
    as [Hnone _].
  destruct (Kotlin_zeroOutTLSGlobals_effect one_thread 2%nat 0%nat)
    as [_ Hsome].
  assert (Hv : default nullptr (runtimeState one_thread !! 0%nat) = 1%N) by reflexivity.
  assert (Hrs : runtimes one_thread !! 1%N
                = Some (mkRuntimeState 1000%N 2000%N RuntimeStatus.kRunning))
    by reflexivity.
  assert (Hreg : registry one_thread [16%N; 32%N]).
  { split; [reflexivity|]. intros _. reflexivity. }
  split; [apply Hnone; reflexivity|].
  split; [exact Hv|]. split; [exact Hrs|]. split; [exact Hreg|].
  destruct (Hsome 1%N _ Hv ltac:(discriminate) Hrs) as [_ Hrun].
  destruct (Hrun ltac:(discriminate) [16%N; 32%N] Hreg ltac:(simpl; lia)) as [Hz _].
  exact Hz.
Defined.

(** ** The first runtime, under every schedule *)

(** ** The steps of an initialization *)

Section InitSteps.
Context {B : Build}.

Lemma step_AtInitEntry fuel t env s :
  runtimeState s !! t = None ->
  globalRuntimeStatus s <> GlobalRuntimeStatus.kDestroyed ->
  thread_step fuel t (AtInitEntry env) s = Ok (AtInitRuntime env) s.
Proof.
  intros Hn Hg.
  assert (Hv : default nullptr (runtimeState s !! t) = nullptr) by now rewrite Hn.
  clear Hn.
  unfold thread_step. mrun.
  destruct (globalRuntimeStatus s) eqn:Hs; [| |congruence]; mrun; reflexivity.
Qed.


Lemma step_AtInitRuntime fuel t env s :
  runtimeState s !! t = None ->
  alloc_ok env = true ->
  let p := fresh_address (runtimes s) in
  thread_step fuel t (AtInitRuntime env) s
  = Ok (AtCompareAndSet env p)
      (set_runtimeState (<[t := p]> (runtimeState s))
         (set_runtimes
            (<[p := mkRuntimeState nullptr nullptr RuntimeStatus.kUninitialized]>
               (runtimes s))
            (set_trace (trace s ++ [(t, EvSetKonanTerminateHandler)]) s))).
Proof.
  intros Hn Ha p.
  assert (Hv : default nullptr (runtimeState s !! t) = nullptr) by now rewrite Hn.
  clear Hn.
  destruct (fresh_address_spec (runtimes s)) as [Hf1 _].
  pose proof (Neqb_nullptr_false _ Hf1) as Hf. subst p.
  unfold thread_step. mrun. reflexivity.
Qed.

Lemma step_AtCompareAndSet fuel t env r s :
  let first :=
    GlobalRuntimeStatus.eqb (globalRuntimeStatus s) GlobalRuntimeStatus.kUninitialized in
  thread_step fuel t (AtCompareAndSet env r) s
  = Ok (AtMustBeRunning env r first)
      (if first then set_globalRuntimeStatus GlobalRuntimeStatus.kRunning s else s).
Proof.
  cbv zeta. unfold thread_step. msimpl.
  destruct (globalRuntimeStatus s); reflexivity.
Qed.

Lemma step_AtMustBeRunning fuel t env r f s :
  globalRuntimeStatus s = GlobalRuntimeStatus.kRunning ->
  thread_step fuel t (AtMustBeRunning env r f) s = Ok (AtIncrement env r f) s.
Proof. intros Hg. unfold thread_step. mrun. reflexivity. Qed.

Lemma step_AtMustBeRunning_aborts fuel t env r f s :
  globalRuntimeStatus s <> GlobalRuntimeStatus.kRunning ->
  thread_step fuel t (AtMustBeRunning env r f) s
  = Abort (set_trace (trace s ++ [(t, EvRuntimeAssertFailed "Must be running")]) s).
Proof.
  intros Hg. unfold thread_step. msimpl.
  destruct (globalRuntimeStatus s); [reflexivity|congruence|reflexivity].
Qed.

Lemma step_AtIncrement fuel t env r f s :
  thread_step fuel t (AtIncrement env r f) s
  = Ok (AtInitMemory env r f)
      (set_aliveRuntimesCount (wrap_int (aliveRuntimesCount s + 1)) s).
Proof. reflexivity. Qed.

Lemma step_AtInitMemory fuel t env r f s l :
  r <> nullptr ->
  runtimes s !! r = Some (mkRuntimeState nullptr nullptr RuntimeStatus.kUninitialized) ->
  chain fuel (nodes s) (initHeadNode s) = Some l ->
  thread_step fuel t (AtInitMemory env r f) s
  = Ok AtOnThreadExit
      (set_runtimes
         (<[r := mkRuntimeState (init_memory env) (init_worker env)
                   RuntimeStatus.kRunning]> (runtimes s))
         (set_trace (trace s ++ tl (init_events (nodes s) t f env l)) s)).
Proof.
  intros Hr Hrs Hl. pose proof (Neqb_nullptr_false _ Hr) as Hr'.
  unfold thread_step. destruct f; mrun.
  all: destruct KONAN_OBJC_INTEROP eqn:Ho; mrun.
  all: repeat (phase_split; try congruence; mrun).
  all: destruct KONAN_ENABLE_ASSERT eqn:Hen; mrun.
  all: repeat match goal with
         | H1 : chain ?f ?h ?p = Some ?a, H2 : chain ?f ?h ?p = Some ?b |- _ =>
             assert (a = b) as -> by congruence; clear H1
         end.
  all: unfold init_events; rewrite ?Ho; simpl tl; msimpl.
  all: rewrite ?insert_insert_eq, <- ?app_assoc.
  all: reflexivity.
Qed.

Lemma step_AtOnThreadExit fuel t s :
  thread_step fuel t AtOnThreadExit s
  = Ok Returned
      (set_trace (trace s ++ [(t, EvOnThreadExit (default nullptr (runtimeState s !! t)))])
         s).
Proof. reflexivity. Qed.

End InitSteps.





Section InitOverlap.
Context {B : Build}.







End InitOverlap.

Section InitOverlapInv.
Context {B : Build}.


End InitOverlapInv.

Section InitOverlapStep.
Context {B : Build}.





End InitOverlapStep.




Section InitOverlapRun.
Context {B : Build}.



End InitOverlapRun.

Section FirstRuntime.
Context {B : Build}.


End FirstRuntime.



(** ** Each runtime has one owner *)

Section Ownership.
Context {B : Build}.

Lemma Owned_frame (s s' : State) :
  runtimeState s' = runtimeState s -> runtimes s' = runtimes s ->
  Owned s -> Owned s'.
Proof. unfold Owned. intros -> ->. auto. Qed.

Lemma Owned_initial mem : Owned (initial_state mem).
Proof.
  unfold Owned, initial_state. simpl. repeat split.
  - intros t p H. rewrite lookup_empty in H. discriminate.
  - intros t1 t2 p H. rewrite lookup_empty in H. discriminate.
  - intros p rs H. rewrite lookup_empty in H. discriminate.
Qed.

Lemma Owned_init s t env l :
  Owned s -> runtimeState s !! t = None ->
  Owned (init_state t env l s).
Proof.
  intros (H1 & H2 & H3) Hn.
  destruct (fresh_address_spec (runtimes s)) as [_ Hf].
  unfold Owned, init_state. msimpl. split; [|split].
  - intros t' p' Hl. destruct (decide (t = t')) as [<-|Hne].
    + rewrite lookup_insert_eq in Hl. injection Hl as <-.
      rewrite lookup_insert_eq. eauto.
    + rewrite lookup_insert_ne in Hl by assumption.
      destruct (H1 _ _ Hl) as (rs & Hrs & Hst).
      rewrite lookup_insert_ne by congruence. eauto.
  - intros t1 t2 p' Ha Hb.
    destruct (decide (t = t1)) as [<-|Hn1]; destruct (decide (t = t2)) as [<-|Hn2]; auto.
    + rewrite lookup_insert_eq in Ha. injection Ha as <-.
      rewrite lookup_insert_ne in Hb by assumption.
      destruct (H1 _ _ Hb) as (rs & Hrs & _). congruence.
    + rewrite lookup_insert_eq in Hb. injection Hb as <-.
      rewrite lookup_insert_ne in Ha by assumption.
      destruct (H1 _ _ Ha) as (rs & Hrs & _). congruence.
    + rewrite lookup_insert_ne in Ha, Hb by assumption. eauto.
  - intros p' rs Hl. destruct (decide (fresh_address (runtimes s) = p')) as [<-|Hne].
    + exists t. apply lookup_insert_eq.
    + rewrite lookup_insert_ne in Hl by assumption.
      destruct (H3 _ _ Hl) as (t0 & Ht0). exists t0.
      rewrite lookup_insert_ne by congruence. exact Ht0.
Qed.

Lemma Owned_deinit s t p rs d l s0 :
  Owned s -> runtimeState s !! t = Some p ->
  runtimeState s0 = runtimeState s -> runtimes s0 = runtimes s ->
  Owned (set_runtimeState (delete t (runtimeState s)) (deinit_state t p rs d l s0)).
Proof.
  intros (H1 & H2 & H3) Ht Htls Hrt.
  unfold Owned, deinit_state. msimpl. rewrite Hrt. split; [|split].
  - intros t' p' Hl. apply lookup_delete_Some in Hl. destruct Hl as [Hne Hl].
    destruct (H1 _ _ Hl) as (rs' & Hrs' & Hst).
    assert (p' <> p) by (intros ->; apply Hne; eauto).
    rewrite lookup_delete_ne by congruence. eauto.
  - intros t1 t2 p' Ha Hb. apply lookup_delete_Some in Ha, Hb.
    destruct Ha, Hb. eauto.
  - intros p' rs' Hl. apply lookup_delete_Some in Hl. destruct Hl as [Hne Hl].
    destruct (H3 _ _ Hl) as (t0 & Ht0). exists t0.
    rewrite lookup_delete_ne; [exact Ht0|]. intros <-. congruence.
Qed.

Lemma Owned_step s fuel t c s' :
  Inv s -> threads_fit_int s -> Owned s ->
  exec fuel t c s = Ok tt s' -> Owned s'.
Proof.
  intros HI Hfit HO H. destruct c as [node|env| | | |v|v|]; simpl in H.
  - apply AppendToInitializersTail_frame in H.
    destruct H as (? & _ & _ & ? & _). now apply (Owned_frame s).
  - apply Kotlin_initRuntimeIfNeeded_Ok_inv in H.
    destruct H as [[_ ->] | (Hv & Hg & [[_ ->] | (_ & l & _ & ->)])]; auto.
    apply (Owned_frame (init_state t env l s)); auto.
    apply Owned_init; auto. destruct HI as (H0 & _).
    now apply default_None_invalid.
  - apply Kotlin_deinitRuntimeIfNeeded_Ok_inv in H.
    destruct H as [[_ ->] | (p & rs & l & Hv & Hp & Hrs & _ & _ & ->)]; auto.
    apply Owned_deinit; auto. now apply default_Some_valid.
  - apply Kotlin_destroyRuntime_Ok_inv in H; auto.
    destruct H as (p & rs & l & Ht & Hp & Hrs & Hsz & _ & ->).
    apply Owned_deinit; auto.
  - apply Kotlin_zeroOutTLSGlobals_Ok_inv in H.
    destruct H as [-> | (rs & l & _ & _ & _ & ->)]; auto.
  - injection H as <-. now apply (Owned_frame s).
  - injection H as <-. now apply (Owned_frame s).
  - rewrite threadExit_eq in H. apply Kotlin_deinitRuntimeIfNeeded_Ok_inv in H.
    destruct H as [[_ ->] | (p & rs & l & Hv & Hp & Hrs & _ & _ & ->)]; auto.
    apply Owned_deinit; auto. now apply default_Some_valid.
Qed.

Lemma reachable_Owned s : reachable s -> Owned s.
Proof.
  induction 1 as [mem|s fuel t c s' Hr IH He Hf].
  - apply Owned_initial.
  - eapply Owned_step; eauto using reachable_Inv, reachable_fit.
Qed.

Lemma reachable_sizes s :
  reachable s -> size (runtimes s) = size (runtimeState s).
Proof.
  induction 1 as [mem|s fuel t c s' Hr IH He Hf].
  - unfold initial_state. simpl. now rewrite !map_size_empty.
  - pose proof (reachable_Inv s Hr) as HI. pose proof (reachable_fit s Hr) as Hfit.
    pose proof (reachable_Owned s Hr) as (H1 & _ & _).
    assert (Hdown : forall p rs d l s0,
              runtimeState s !! t = Some p ->
              runtimeState s0 = runtimeState s -> runtimes s0 = runtimes s ->
              size (runtimes (set_runtimeState (delete t (runtimeState s))
                                (deinit_state t p rs d l s0)))
              = size (runtimeState (set_runtimeState (delete t (runtimeState s))
                                      (deinit_state t p rs d l s0)))).
    { intros p rs d l s0 Ht Htls Hrt. unfold deinit_state. msimpl. rewrite Hrt.
      destruct (H1 _ _ Ht) as (rs' & Hrs' & _).
      rewrite !map_size_delete_Some by eauto. now rewrite IH. }
    destruct c as [node|env| | | |v|v|]; simpl in He.
    + apply AppendToInitializersTail_frame in He.
      destruct He as (-> & _ & _ & -> & _). exact IH.
    + apply Kotlin_initRuntimeIfNeeded_Ok_inv in He.
      destruct He as [[_ ->] | (Hv & Hg & [[_ ->] | (_ & l & _ & ->)])]; auto.
      unfold init_state. msimpl.
      destruct (fresh_address_spec (runtimes s)) as [_ Hfr].
      destruct HI as (H0 & _).
      rewrite !map_size_insert_None; auto using default_None_invalid.
    + apply Kotlin_deinitRuntimeIfNeeded_Ok_inv in He.
      destruct He as [[_ ->] | (p & rs & l & Hv & Hp & Hrs & _ & _ & ->)]; auto.
      apply Hdown; auto. now apply default_Some_valid.
    + apply Kotlin_destroyRuntime_Ok_inv in He; auto.
      destruct He as (p & rs & l & Ht & Hp & Hrs & Hsz & _ & ->).
      apply Hdown; auto.
    + apply Kotlin_zeroOutTLSGlobals_Ok_inv in He.
      destruct He as [-> | (rs & l & _ & _ & _ & ->)]; auto.
    + injection He as <-. exact IH.
    + injection He as <-. exact IH.
    + rewrite threadExit_eq in He. apply Kotlin_deinitRuntimeIfNeeded_Ok_inv in He.
      destruct He as [[_ ->] | (p & rs & l & Hv & Hp & Hrs & _ & _ & ->)]; auto.
      apply Hdown; auto. now apply default_Some_valid.
Qed.

(** X1.  In every state of a running process the thread-local pointers and
    the live [RuntimeState] objects correspond one to one: a valid
    [runtimeState] is not null and points to a live object in status
    [kRunning], no two threads point to the same object, every live object
    is pointed to by a thread, and the number of live objects is the value
    of [aliveRuntimesCount]. *)
Theorem every_runtime_has_one_owner (s : State) :
  reachable s ->
  (forall t p, runtimeState s !! t = Some p ->
     p <> nullptr /\
     exists rs, runtimes s !! p = Some rs /\ status rs = RuntimeStatus.kRunning) /\
  (forall t1 t2 p, runtimeState s !! t1 = Some p -> runtimeState s !! t2 = Some p ->
     t1 = t2) /\
  (forall p rs, runtimes s !! p = Some rs -> exists t, runtimeState s !! t = Some p) /\
  Z.of_nat (size (runtimes s)) = aliveRuntimesCount s.
Proof.
  intros Hr. pose proof (reachable_Owned s Hr) as (H1 & H2 & H3).
  pose proof (reachable_Inv s Hr) as (H0 & Hc & _).
  repeat split; eauto.
  rewrite Hc. now rewrite (reachable_sizes s Hr).
Qed.

(** X2.  A call made by thread [t] that returns leaves the runtime of every
    other thread alone: the other thread's [runtimeState] and the
    [RuntimeState] object it points to are as before. *)
Theorem other_threads_runtime_untouched (s : State) (fuel : nat) (t t' : tid)
    (c : call) (p' : ptr) (s' : State) :
  reachable s ->
  t <> t' ->
  runtimeState s !! t' = Some p' ->
  exec fuel t c s = Ok tt s' ->
  runtimeState s' !! t' = Some p' /\ runtimes s' !! p' = runtimes s !! p'.
Proof.
  intros Hr Hne Ht' H.
  pose proof (reachable_Owned s Hr) as (H1 & H2 & H3).
  pose proof (reachable_Inv s Hr) as HI. pose proof (reachable_fit s Hr) as Hfit.
  assert (Hdown : forall p rs d l s0,
            runtimeState s !! t = Some p ->
            runtimes s0 = runtimes s ->
            let s1 := set_runtimeState (delete t (runtimeState s))
                        (deinit_state t p rs d l s0) in
            runtimeState s1 !! t' = Some p' /\ runtimes s1 !! p' = runtimes s !! p').
  { intros p rs d l s0 Ht Hrt. unfold deinit_state. msimpl. rewrite Hrt.
    rewrite lookup_delete_ne by assumption. split; [exact Ht'|].
    apply lookup_delete_ne. intros ->. apply Hne. eauto. }
  destruct c as [node|env| | | |v|v|]; simpl in H.
  - apply AppendToInitializersTail_frame in H.
    destruct H as (-> & _ & _ & -> & _). auto.
  - apply Kotlin_initRuntimeIfNeeded_Ok_inv in H.
    destruct H as [[_ ->] | (Hv & Hg & [[_ ->] | (_ & l & _ & ->)])]; auto.
    unfold init_state. msimpl.
    destruct (fresh_address_spec (runtimes s)) as [_ Hfr].
    destruct (H1 _ _ Ht') as (rs' & Hrs' & _).
    rewrite !lookup_insert_ne by congruence. auto.
  - apply Kotlin_deinitRuntimeIfNeeded_Ok_inv in H.
    destruct H as [[_ ->] | (p & rs & l & Hv & Hp & Hrs & _ & _ & ->)]; auto.
    apply Hdown; auto. now apply default_Some_valid.
  - apply Kotlin_destroyRuntime_Ok_inv in H; auto.
    destruct H as (p & rs & l & Ht & Hp & Hrs & Hsz & _ & ->).
    apply Hdown; auto.
  - apply Kotlin_zeroOutTLSGlobals_Ok_inv in H.
    destruct H as [-> | (rs & l & _ & _ & _ & ->)]; auto.
  - injection H as <-. auto.
  - injection H as <-. auto.
  - rewrite threadExit_eq in H. apply Kotlin_deinitRuntimeIfNeeded_Ok_inv in H.
    destruct H as [[_ ->] | (p & rs & l & Hv & Hp & Hrs & _ & _ & ->)]; auto.
    apply Hdown; auto. now apply default_Some_valid.
Qed.

(** X3.  In a running process whose initializer list is well formed, the
    teardown of a thread that holds a runtime always returns: no assertion
    fires in any build and no pointer it follows is null or dangling.  It
    leaves the thread without a runtime and frees its [RuntimeState]. *)
Theorem Kotlin_deinitRuntimeIfNeeded_returns (s : State) (fuel : nat) (t : tid)
    (p : ptr) (l : list ptr) :
  reachable s ->
  registry s l -> (length l <= fuel)%nat ->
  runtimeState s !! t = Some p ->
  exists s',
    Kotlin_deinitRuntimeIfNeeded fuel t s = Ok tt s' /\
    runtimeState s' = delete t (runtimeState s) /\
    runtimes s' = delete p (runtimes s) /\
    globalRuntimeStatus s' = globalRuntimeStatus s /\
    nodes s' = nodes s.
Proof.
  intros Hr [Hc _] Hle Ht.
  pose proof (reachable_Owned s Hr) as (H1 & _ & _).
  pose proof (reachable_Inv s Hr) as (H0 & _ & _).
  destruct (H1 _ _ Ht) as (rs & Hrs & Hst).
  assert (Hv : default nullptr (runtimeState s !! t) = p) by now rewrite Ht.
  rewrite Kotlin_deinitRuntimeIfNeeded_valid by (rewrite Hv; eauto).
  rewrite Hv.
  rewrite (deinitRuntime_returns fuel t p false s rs l); eauto using chain_enough.
  eexists. split; [reflexivity|]. unfold deinit_state. msimpl. auto.
Qed.

(** X4.  Calls taken one at a time.  In a state that whole calls, one after
    the other, have reached, with a well-formed initializer list, a
    [Kotlin_destroyRuntime] that runs with no call of another thread under
    way, called by a thread that holds a runtime, returns exactly when no
    other thread holds one.  It then leaves the process with status
    [kDestroyed], no thread holding a runtime, no live [RuntimeState], and
    the counter at zero.  (An initialization under way on another thread is
    not counted: see the part on calls that overtake one another.) *)
Theorem Kotlin_destroyRuntime_returns_iff_alone (s : State) (fuel : nat) (t : tid)
    (p : ptr) (l : list ptr) :
  reachable s ->
  registry s l -> (length l <= fuel)%nat ->
  runtimeState s !! t = Some p ->
  ((exists s', Kotlin_destroyRuntime fuel t s = Ok tt s') <->
   size (runtimeState s) = 1%nat) /\
  (forall s',
      Kotlin_destroyRuntime fuel t s = Ok tt s' ->
      globalRuntimeStatus s' = GlobalRuntimeStatus.kDestroyed /\
      runtimeState s' = ∅ /\ runtimes s' = ∅ /\ aliveRuntimesCount s' = 0).
Proof.
  intros Hr [Hc _] Hle Ht.
  pose proof (reachable_Owned s Hr) as (H1 & H2 & H3).
  pose proof (reachable_Inv s Hr) as HI. pose proof (reachable_fit s Hr) as Hfit.
  pose proof (Inv_holds_runtime_Running s t p HI Ht) as Hg.
  assert (Hafter : forall s',
            Kotlin_destroyRuntime fuel t s = Ok tt s' ->
            size (runtimeState s) = 1%nat /\
            globalRuntimeStatus s' = GlobalRuntimeStatus.kDestroyed /\
            runtimeState s' = ∅ /\ runtimes s' = ∅ /\ aliveRuntimesCount s' = 0).
  { intros s' H.
    assert (Hr' : Inv s').
    { apply (Inv_step s fuel t CallDestroyRuntime s' HI Hfit H).
      pose proof (Kotlin_destroyRuntime_Ok_inv fuel t s s' HI Hfit H)
        as (p1 & rs & l1 & _ & _ & _ & Hsz & _ & ->).
      unfold threads_fit_int, INT_MAX, deinit_state. msimpl.
      rewrite map_size_delete_Some by eauto. lia. }
    assert (HO' : Owned s')
      by exact (Owned_step s fuel t CallDestroyRuntime s' HI Hfit
                  (conj H1 (conj H2 H3)) H).
    pose proof (Kotlin_destroyRuntime_Ok_inv fuel t s s' HI Hfit H)
      as (p1 & rs & l1 & _ & _ & _ & Hsz & _ & Hs').
    destruct Hr' as (_ & Hc' & HK).
    assert (Hd : globalRuntimeStatus s' = GlobalRuntimeStatus.kDestroyed)
      by (subst s'; reflexivity).
    rewrite Hd in HK. destruct HK as (He & _).
    split; [exact Hsz|]. split; [exact Hd|]. split; [exact He|]. split.
    - apply map_empty. intros p0. destruct (runtimes s' !! p0) as [rs0|] eqn:E; auto.
      destruct HO' as (_ & _ & H3'). destruct (H3' _ _ E) as (t0 & Ht0).
      rewrite He, lookup_empty in Ht0. discriminate.
    - rewrite Hc', He, map_size_empty. reflexivity. }
  split.
  - split.
    + intros [s' H]. now destruct (Hafter s' H).
    + intros Hsz.
      destruct (H1 _ _ Ht) as (rs & Hrs & Hst).
      assert (Hv : default nullptr (runtimeState s !! t) = p) by now rewrite Ht.
      destruct HI as (H0 & Hcount & _).
      rewrite Kotlin_destroyRuntime_unfold
        by (intros _; split; [exact Hg|rewrite Hv; eauto]).
      cbv zeta. rewrite Hcount, Hsz. change (wrap_int (Z.of_nat 1 - 1)) with 0.
      change (0 <=? 0) with true. change (0 <? 0) with false.
      rewrite andb_false_r, Hv.
      rewrite (deinitRuntime_returns fuel t p true (destroy_pre_state t s) rs l);
        eauto using chain_enough.
  - intros s' H. now destruct (Hafter s' H).
Qed.

End Ownership.

(** ** The global status and the order of the phases *)

Lemma phases_app a b : phases (a ++ b) = phases a ++ phases b.
Proof. unfold phases. apply omap_app. Qed.

Lemma phases_calls h t i m l : phases (calls h t i m l) = [].
Proof. unfold phases, calls. induction l; simpl; auto. Qed.

Lemma phases_phase_events h t i m l : phases (phase_events h t i m l) = [i].
Proof.
  unfold phase_events.
  change ((t, EvRunPhase i m) :: calls h t i m l)
    with ([(t, EvRunPhase i m)] ++ calls h t i m l).
  now rewrite phases_app, phases_calls.
Qed.

Lemma phases_snoc_other tr t e :
  phase_of (t, e) = None -> phases (tr ++ [(t, e)]) = phases tr.
Proof.
  intros H. rewrite phases_app. unfold phases at 2. simpl. rewrite H.
  apply app_nil_r.
Qed.

Section StatusOrder.
Context {B : Build}.

Lemma phases_init_events h t first env l :
  phases (init_events h t first env l)
  = (if first then [INIT_GLOBALS] else []) ++ [INIT_THREAD_LOCAL_GLOBALS].
Proof.
  unfold init_events. rewrite !phases_app. destruct first.
  - change ((t, EvConsoleInit) :: ?x) with ([(t, EvConsoleInit)] ++ x).
    rewrite !phases_app, !phases_phase_events.
    destruct KONAN_OBJC_INTEROP; reflexivity.
  - rewrite !phases_phase_events. reflexivity.
Qed.

Lemma phases_deinit_events h t rs d l :
  phases (deinit_events h t rs d l)
  = DEINIT_THREAD_LOCAL_GLOBALS :: (if d then [DEINIT_GLOBALS] else []).
Proof.
  unfold deinit_events. rewrite !phases_app.
  destruct d; rewrite !phases_phase_events; reflexivity.
Qed.

Lemma phases_shutdown_events t s : phases (shutdown_events t s) = [].
Proof.
  unfold shutdown_events.
  destruct (g_checkLeakedCleaners s), (g_checkLeaks s); reflexivity.
Qed.

Lemma deinitRuntime_invalid_state fuel t p d s :
  p = nullptr \/ runtimes s !! p = None ->
  deinitRuntime fuel t p d s = Fault.
Proof.
  intros H. unfold deinitRuntime.
  destruct (p =? nullptr)%N eqn:Hp.
  - destruct KONAN_ENABLE_ASSERT eqn:Ha; mrun; reflexivity.
  - destruct H as [->|Hn]; [discriminate|].
    destruct KONAN_ENABLE_ASSERT eqn:Ha; mrun; reflexivity.
Qed.

Lemma Kotlin_zeroOutTLSGlobals_Ok_changes fuel t s s' :
  Kotlin_zeroOutTLSGlobals fuel t s = Ok tt s' ->
  s' = s \/
  (default nullptr (runtimeState s !! t) <> nullptr /\
   exists rs l,
     s' = set_trace (trace s ++ phase_events (nodes s) t DEINIT_THREAD_LOCAL_GLOBALS
                                  (memoryState rs) l) s).
Proof.
  intros H.
  destruct (N.eq_dec (default nullptr (runtimeState s !! t)) nullptr) as [Hv|Hv].
  - rewrite Kotlin_zeroOutTLSGlobals_invalid in H by assumption.
    injection H as <-. auto.
  - apply Kotlin_zeroOutTLSGlobals_Ok_inv in H.
    destruct H as [-> | (rs & l & _ & _ & _ & ->)]; eauto.
Qed.

Lemma valid_is_Some s t :
  default nullptr (runtimeState s !! t) <> nullptr ->
  exists p, runtimeState s !! t = Some p.
Proof. destruct (runtimeState s !! t); simpl; eauto. congruence. Qed.

Lemma PhaseOrder_Running_snoc s s' i :
  globalRuntimeStatus s = GlobalRuntimeStatus.kRunning ->
  globalRuntimeStatus s' = GlobalRuntimeStatus.kRunning ->
  phases (trace s') = phases (trace s) ++ [i] -> thread_phase i ->
  PhaseOrder s -> PhaseOrder s'.
Proof.
  unfold PhaseOrder. intros -> -> Hp Hi (rest & Hr & Hall).
  exists (rest ++ [i]). rewrite Hp, Hr. split; [reflexivity|].
  apply Forall_app. auto.
Qed.

Lemma PhaseOrder_frame s s' :
  globalRuntimeStatus s' = globalRuntimeStatus s ->
  phases (trace s') = phases (trace s) ->
  PhaseOrder s -> PhaseOrder s'.
Proof. unfold PhaseOrder. intros -> ->. auto. Qed.

Lemma PhaseOrder_step s fuel t c s' :
  Inv s -> threads_fit_int s -> PhaseOrder s ->
  exec fuel t c s = Ok tt s' -> PhaseOrder s'.
Proof.
  intros HI Hfit HP H.
  assert (Hdeinit : forall s1,
            Kotlin_deinitRuntimeIfNeeded fuel t s = Ok tt s1 -> PhaseOrder s1).
  { intros s1 H1. apply Kotlin_deinitRuntimeIfNeeded_Ok_inv in H1.
    destruct H1 as [[_ ->] | (p & rs & l & Hv & Hp & Hrs & _ & _ & ->)]; auto.
    pose proof (default_Some_valid _ _ _ Hv Hp) as Ht.
    pose proof (Inv_holds_runtime_Running s t p HI Ht) as Hg.
    apply (PhaseOrder_Running_snoc s _ DEINIT_THREAD_LOCAL_GLOBALS); auto.
    - unfold deinit_state. msimpl. now rewrite phases_app, phases_deinit_events.
    - now right. }
  destruct c as [node|env| | | |v|v|]; simpl in H; auto.
  - apply AppendToInitializersTail_frame in H.
    destruct H as (_ & _ & Hg & _ & Htr). apply (PhaseOrder_frame s); auto.
    now rewrite Htr.
  - apply Kotlin_initRuntimeIfNeeded_Ok_inv in H.
    destruct H as [[_ ->] | (Hv & Hg & [[_ ->] | (_ & l & _ & ->)])]; auto.
    + apply (PhaseOrder_frame s); auto. msimpl.
      change (trace s ++ [(t, EvSetKonanTerminateHandler); (t, EvOnThreadExit nullptr)])
        with (trace s ++ [(t, EvSetKonanTerminateHandler)] ++ [(t, EvOnThreadExit nullptr)]).
      rewrite app_assoc, !phases_snoc_other; reflexivity.
    + unfold PhaseOrder, init_state in *. msimpl.
      rewrite phases_snoc_other by reflexivity.
      rewrite phases_app, phases_init_events.
      destruct (globalRuntimeStatus s); [| |congruence]; simpl.
      * rewrite HP. exists [INIT_THREAD_LOCAL_GLOBALS]. split; [reflexivity|].
        constructor; [now left|constructor].
      * destruct HP as (rest & -> & Hall).
        exists (rest ++ [INIT_THREAD_LOCAL_GLOBALS]). split; [reflexivity|].
        apply Forall_app. split; [exact Hall|].
        constructor; [now left|constructor].
  - apply Kotlin_destroyRuntime_Ok_inv in H; auto.
    destruct H as (p & rs & l & Ht & Hp & Hrs & Hsz & _ & ->).
    pose proof (Inv_holds_runtime_Running s t p HI Ht) as Hg.
    unfold PhaseOrder, deinit_state, destroy_pre_state in *. msimpl.
    rewrite Hg in HP. destruct HP as (rest & Hr & Hall).
    rewrite !phases_app, phases_deinit_events, phases_shutdown_events, Hr.
    exists (rest ++ [DEINIT_THREAD_LOCAL_GLOBALS]). split.
    + simpl. now rewrite <- !app_assoc.
    + apply Forall_app. split; [exact Hall|].
      constructor; [now right|constructor].
  - apply Kotlin_zeroOutTLSGlobals_Ok_changes in H.
    destruct H as [-> | (Hv & rs & l & ->)]; auto.
    destruct (valid_is_Some s t Hv) as [p Ht].
    pose proof (Inv_holds_runtime_Running s t p HI Ht) as Hg.
    apply (PhaseOrder_Running_snoc s _ DEINIT_THREAD_LOCAL_GLOBALS); auto.
    + msimpl. now rewrite phases_app, phases_phase_events.
    + now right.
  - injection H as <-. now apply (PhaseOrder_frame s).
  - injection H as <-. now apply (PhaseOrder_frame s).
Qed.

(** X5.  Calls taken one at a time.  In every state that whole calls, one
    after the other, have reached, the phases have come in one order:
    nothing ran before INIT_GLOBALS, which ran once, in the call that took
    the status out of [kUninitialized]; only the two per-thread phases
    followed while the status was [kRunning]; and DEINIT_GLOBALS is the last
    phase run, once, in the call that made the status [kDestroyed].  (Calls
    that overlap can enter the phases in another order: see the part on
    calls that overtake one another.) *)
Theorem phases_in_lifecycle_order (s : State) :
  reachable s ->
  match globalRuntimeStatus s with
  | GlobalRuntimeStatus.kUninitialized => phases (trace s) = []
  | GlobalRuntimeStatus.kRunning =>
      exists rest, phases (trace s) = INIT_GLOBALS :: rest /\ Forall thread_phase rest
  | GlobalRuntimeStatus.kDestroyed =>
      exists rest, phases (trace s) = INIT_GLOBALS :: rest ++ [DEINIT_GLOBALS] /\
                   Forall thread_phase rest
  end.
Proof.
  intros Hr. change (PhaseOrder s).
  induction Hr as [mem|s fuel t c s' Hr IH He Hf].
  - reflexivity.
  - eapply PhaseOrder_step; eauto using reachable_Inv, reachable_fit.
Qed.




End StatusOrder.

(** ** Initialization twice, and initialization undone *)

Lemma wrap_int_add_wrap (a b : Z) : wrap_int (wrap_int a + b) = wrap_int (a + b).
Proof.
  unfold wrap_int.
  replace ((a + 2 ^ 31) mod 2 ^ 32 - 2 ^ 31 + b + 2 ^ 31)
    with ((a + 2 ^ 31) mod 2 ^ 32 + b) by lia.
  rewrite Zplus_mod_idemp_l. f_equal. f_equal. lia.
Qed.

Section RoundTrip.
Context {B : Build}.

(** X7.  [Kotlin_initRuntimeIfNeeded] is idempotent: on a thread that holds
    a runtime it returns without any effect, and once a call has given the
    thread a runtime every further call on that thread, whatever its
    collaborators would answer, leaves the state as it is. *)
Theorem Kotlin_initRuntimeIfNeeded_idempotent (s : State) (fuel : nat) (env : Env)
    (t : tid) :
  (default nullptr (runtimeState s !! t) <> nullptr ->
   Kotlin_initRuntimeIfNeeded fuel env t s = Ok tt s) /\
  (forall s1,
      Kotlin_initRuntimeIfNeeded fuel env t s = Ok tt s1 ->
      alloc_ok env = true ->
      default nullptr (runtimeState s1 !! t) <> nullptr /\
      forall fuel' env', Kotlin_initRuntimeIfNeeded fuel' env' t s1 = Ok tt s1).
Proof.
  split; [apply Kotlin_initRuntimeIfNeeded_valid|].
  intros s1 H Ha.
  assert (Hv1 : default nullptr (runtimeState s1 !! t) <> nullptr).
  { apply Kotlin_initRuntimeIfNeeded_Ok_inv in H.
    destruct H as [[Hv ->] | (_ & _ & [[Hf _] | (_ & l & _ & ->)])];
      [exact Hv|congruence|].
    unfold init_state. msimpl. rewrite lookup_insert_eq. simpl.
    apply fresh_address_spec. }
  split; [exact Hv1|]. intros fuel' env'.
  now apply Kotlin_initRuntimeIfNeeded_valid.
Qed.

(** X8.  Initialization followed by teardown on the same thread gives back
    what the initialization took: the thread is without a runtime again, the
    set of live [RuntimeState] objects, the counter and the initializer list
    are as before, and the teardown hands [RestoreMemory], [DeinitMemory]
    and [WorkerDeinit] exactly the pointers that [InitMemory] and
    [WorkerInit] returned.  What stays is the global status [kRunning]. *)
Theorem init_then_deinit_round_trip (s : State) (fuel : nat) (env : Env) (t : tid)
    (l : list ptr) :
  runtimeState s !! t = None ->
  globalRuntimeStatus s <> GlobalRuntimeStatus.kDestroyed ->
  alloc_ok env = true ->
  registry s l -> (length l <= fuel)%nat ->
  - 2 ^ 31 <= aliveRuntimesCount s <= INT_MAX ->
  exists s2,
    (Kotlin_initRuntimeIfNeeded fuel env t ;; Kotlin_deinitRuntimeIfNeeded fuel t)%rt s
    = Ok tt s2 /\
    runtimeState s2 = runtimeState s /\
    runtimes s2 = runtimes s /\
    aliveRuntimesCount s2 = aliveRuntimesCount s /\
    nodes s2 = nodes s /\ initHeadNode s2 = initHeadNode s /\
    initTailNode s2 = initTailNode s /\
    globalRuntimeStatus s2 = GlobalRuntimeStatus.kRunning /\
    exists pre,
      trace s2
      = trace s ++ pre ++
        [(t, EvRestoreMemory (init_memory env))] ++
        phase_events (nodes s) t DEINIT_THREAD_LOCAL_GLOBALS (init_memory env) l ++
        [(t, EvGetWorkerId (init_worker env)); (t, EvWorkerDeinit (init_worker env));
         (t, EvDeinitMemory (init_memory env) false);
         (t, EvWorkerDestroyThreadDataIfNeeded (GetWorkerId (init_worker env)))].
Proof.
  intros Hn Hg Ha [Hc _] Hle Hrange.
  pose proof (chain_enough _ _ _ _ Hc Hle) as Hl.
  assert (Hv : default nullptr (runtimeState s !! t) = nullptr) by now rewrite Hn.
  destruct (fresh_address_spec (runtimes s)) as [Hf1 Hf2].
  unfold bind.
  rewrite (Kotlin_initRuntimeIfNeeded_success fuel env t s l) by assumption.
  set (p := fresh_address (runtimes s)) in *.
  set (s1 := set_trace _ _).
  assert (Hv1 : default nullptr (runtimeState s1 !! t) = p).
  { subst s1. unfold init_state. msimpl. now rewrite lookup_insert_eq. }
  rewrite Kotlin_deinitRuntimeIfNeeded_valid by (rewrite Hv1; exact Hf1).
  rewrite Hv1.
  rewrite (deinitRuntime_returns fuel t p false s1
             (mkRuntimeState (init_memory env) (init_worker env) RuntimeStatus.kRunning) l).
  - eexists. split; [reflexivity|].
    subst s1. unfold deinit_state, init_state, deinit_events. msimpl.
    fold p. rewrite !delete_insert_id by assumption.
    rewrite wrap_int_add_wrap.
    replace (aliveRuntimesCount s + 1 + -1) with (aliveRuntimesCount s) by lia.
    rewrite wrap_int_small by exact Hrange.
    repeat split; try reflexivity.
    exists (init_events (nodes s) t
              (GlobalRuntimeStatus.eqb (globalRuntimeStatus s)
                 GlobalRuntimeStatus.kUninitialized) env l ++
            [(t, EvOnThreadExit p)]).
    rewrite <- !app_assoc. reflexivity.
  - exact Hf1.
  - subst s1. unfold init_state. msimpl. fold p. apply lookup_insert_eq.
  - reflexivity.
  - subst s1. unfold init_state. msimpl. exact Hl.
Qed.

(** X9.  No call except [AppendToInitializersTail] writes to the initializer
    list: whether the call returns or aborts, the head and tail pointers and
    every [InitNode] are as before, so the list of registered nodes is the
    same. *)
Theorem lifecycle_keeps_registry (s : State) (fuel : nat) (t : tid) (c : call)
    (s' : State) :
  (forall node, c <> CallAppendToInitializersTail node) ->
  exec fuel t c s = Ok tt s' \/ exec fuel t c s = Abort s' ->
  initHeadNode s' = initHeadNode s /\ initTailNode s' = initTailNode s /\
  nodes s' = nodes s /\
  forall l, registry s l -> registry s' l.
Proof.
  intros Hc H.
  assert (Hframe : initHeadNode s' = initHeadNode s /\
                   initTailNode s' = initTailNode s /\ nodes s' = nodes s).
  { assert (Hdeinit : forall s1,
              Kotlin_deinitRuntimeIfNeeded fuel t s = Ok tt s1 \/
              Kotlin_deinitRuntimeIfNeeded fuel t s = Abort s1 ->
              initHeadNode s1 = initHeadNode s /\
              initTailNode s1 = initTailNode s /\ nodes s1 = nodes s).
    { intros s1 [H1|H1].
      - apply Kotlin_deinitRuntimeIfNeeded_Ok_inv in H1.
        destruct H1 as [[_ ->] | (p & rs & l & _ & _ & _ & _ & _ & ->)]; auto.
      - apply Kotlin_deinitRuntimeIfNeeded_Abort_inv in H1. subst s1. auto. }
    destruct c as [node|env| | | |v|v|]; simpl in H; auto.
    - now destruct (Hc node).
    - destruct H as [H|H].
      + apply Kotlin_initRuntimeIfNeeded_Ok_inv in H.
        destruct H as [[_ ->] | (_ & _ & [[_ ->] | (_ & l & _ & ->)])]; auto.
      + apply Kotlin_initRuntimeIfNeeded_Abort_inv in H. destruct H as (_ & _ & ->). auto.
    - destruct (Kotlin_destroyRuntime_entry fuel t s) as [[msg Hm] | Hpre].
      + rewrite Hm in H. destruct H as [H|H]; [discriminate|].
        injection H as <-. auto.
      + rewrite Kotlin_destroyRuntime_unfold in H by exact Hpre. cbv zeta in H.
        destruct (_ && _).
        { destruct H as [H|H]; [discriminate|]. injection H as <-. auto. }
        destruct (0 <? _).
        { destruct H as [H|H]; [discriminate|]. injection H as <-. auto. }
        destruct (deinitRuntime fuel t _ true (destroy_pre_state t s))
          as [[] s2|s2| |] eqn:Hd; destruct H as [H|H]; try discriminate;
          injection H as <-.
        * apply deinitRuntime_Ok_inv in Hd.
          destruct Hd as (rs & l & _ & _ & _ & _ & ->). auto.
        * apply deinitRuntime_Abort_inv in Hd. destruct Hd as (rs & _ & _ & _ & ->).
          auto.
    - destruct H as [H|H].
      + apply Kotlin_zeroOutTLSGlobals_Ok_inv in H.
        destruct H as [-> | (rs & l & _ & _ & _ & ->)]; auto.
      + now apply Kotlin_zeroOutTLSGlobals_not_Abort in H.
    - destruct H as [H|H]; [|discriminate]. injection H as <-. auto.
    - destruct H as [H|H]; [|discriminate]. injection H as <-. auto. }
  destruct Hframe as (Hh & Ht & Hn). repeat split; auto.
  - destruct H0 as [H0 _]. now rewrite Hh, Hn.
  - destruct H0 as [_ H0]. rewrite Ht. exact H0.
Qed.

End RoundTrip.

(** ** More on the initializer registry *)

Lemma last_elem_of (l : list N) d : l <> [] -> List.last l d ∈ l.
Proof.
  induction l as [|a l IH]; [congruence|]. intros _.
  destruct l as [|b l']; [left|].
  change (List.last (a :: b :: l') d) with (List.last (b :: l') d).
  right. apply IH. discriminate.
Qed.

(** What a terminating chain says about each of its nodes. *)
Lemma chain_members fuel (h : gmap N InitNode) p l :
  chain fuel h p = Some l ->
  forall q, q ∈ l ->
    q <> nullptr /\
    exists nd, h !! q = Some nd /\
      (next nd ∈ l \/ (next nd = nullptr /\ q = List.last l nullptr)).
Proof.
  revert p l. induction fuel as [|fuel IH]; intros p l Hc q Hq.
  - destruct l as [|a l]; [inversion Hq|].
    apply chain_cons_inv in Hc. destruct Hc as (f & n & Hf & _). discriminate.
  - destruct l as [|a l]; [inversion Hq|].
    apply chain_cons_inv in Hc.
    destruct Hc as (f & n & [= <-] & <- & Hp & Hn & Hc).
    apply elem_of_cons in Hq. destruct Hq as [->|Hq].
    + split; [exact Hp|]. exists n. split; [exact Hn|].
      destruct l as [|b l'].
      * right. apply chain_nil_inv in Hc. auto.
      * left. apply chain_cons_inv in Hc.
        destruct Hc as (f' & n' & _ & -> & _). right. left.
    + destruct (IH _ _ Hc q Hq) as (Hq0 & nd & Hnd & Hnext).
      split; [exact Hq0|]. exists nd. split; [exact Hnd|].
      destruct Hnext as [Hin | [Hnull Hlast]].
      * left. now right.
      * right. split; [exact Hnull|].
        destruct l as [|b l']; [inversion Hq|]. exact Hlast.
Qed.

Section RegistryMore.
Context {B : Build}.

(** One registration, with what it leaves alone. *)
Lemma append_registered s l node nd :
  registry s l ->
  node <> nullptr -> node ∉ l -> nodes s !! node = Some nd -> next nd = nullptr ->
  exists s',
    AppendToInitializersTail node s = Ok tt s' /\
    registry s' (l ++ [node]) /\
    (forall q, callback (nodes s') q = callback (nodes s) q) /\
    (forall q, q ∉ l -> nodes s' !! q = nodes s !! q) /\
    runtimeState s' = runtimeState s /\ runtimes s' = runtimes s /\
    aliveRuntimesCount s' = aliveRuntimesCount s /\
    globalRuntimeStatus s' = globalRuntimeStatus s /\ trace s' = trace s.
Proof.
  intros Hreg Hnode Hnotin Hnd Hnext. destruct l as [|q l].
  - pose proof (registry_empty_head s Hreg) as Hh.
    rewrite AppendToInitializersTail_empty by assumption.
    eexists. split; [reflexivity|]. msimpl. repeat split; auto.
    unfold registry. msimpl. simpl.
    now rewrite (Neqb_nullptr_false _ Hnode), Hnd, Hnext.
  - pose proof (registry_nonempty_head s _ Hreg ltac:(discriminate)) as Hh.
    destruct Hreg as [Hc Htl]. specialize (Htl ltac:(discriminate)).
    destruct (chain_snoc _ _ _ _ node nd Hc ltac:(discriminate) Hnode Hnotin Hnd Hnext)
      as (n & Hlast & Hn & Hnn & Hch).
    pose proof (last_elem_of (q :: l) nullptr ltac:(discriminate)) as Hin.
    rewrite <- Htl in Hlast, Hn, Hch, Hin.
    rewrite (AppendToInitializersTail_nonempty node s n) by assumption.
    eexists. split; [reflexivity|]. msimpl. repeat split; auto.
    + rewrite length_app. simpl length. rewrite Nat.add_1_r. exact Hch.
    + intros _. now rewrite last_last.
    + intros q'. now apply callback_insert_same_init.
    + intros q' Hq'. apply lookup_insert_ne. intros E. apply Hq'. now rewrite <- E.
Qed.

Lemma registerAll_registered ns : forall s l,
  registry s l ->
  NoDup ns ->
  (forall n, n ∈ ns ->
     n <> nullptr /\ (n ∉ l) /\ exists nd, nodes s !! n = Some nd /\ next nd = nullptr) ->
  exists s',
    registerAll ns s = Ok tt s' /\
    registry s' (l ++ ns) /\
    (forall q, callback (nodes s') q = callback (nodes s) q) /\
    runtimeState s' = runtimeState s /\ runtimes s' = runtimes s /\
    aliveRuntimesCount s' = aliveRuntimesCount s /\
    globalRuntimeStatus s' = globalRuntimeStatus s /\ trace s' = trace s.
Proof.
  induction ns as [|n ns IH]; intros s l Hreg Hnd Hall.
  - exists s. simpl. rewrite app_nil_r. repeat split; auto; apply Hreg.
  - apply NoDup_cons in Hnd. destruct Hnd as [Hn Hnd].
    destruct (Hall n ltac:(left)) as (Hn0 & Hnl & nd & Hlk & Hnx).
    destruct (append_registered s l n nd Hreg Hn0 Hnl Hlk Hnx)
      as (s1 & Ha & Hreg1 & Hcb1 & Hfr1 & Ht1 & Hr1 & Hc1 & Hg1 & Htr1).
    destruct (IH s1 (l ++ [n]) Hreg1 Hnd) as (s' & Hrun & Hreg' & Hcb' & Ht' & Hr' & Hc' & Hg' & Htr').
    { intros n' Hn'. destruct (Hall n' ltac:(now right)) as (Hn0' & Hnl' & nd' & Hlk' & Hnx').
      split; [exact Hn0'|]. split.
      - intros Hin. apply elem_of_app in Hin. destruct Hin as [Hin|Hin]; [contradiction|].
        apply list_elem_of_singleton in Hin. subst n'. contradiction.
      - exists nd'. rewrite Hfr1 by assumption. auto. }
    exists s'. simpl registerAll. unfold bind. rewrite Ha, Hrun.
    rewrite <- app_assoc in Hreg'.
    repeat split; try congruence; apply Hreg'.
Qed.

(** X10.  When the modules register their nodes one after the other (each
    node in memory, not null, with a null [next], no node twice), starting
    from the empty list, all registrations return; the list is then the
    nodes in the order of registration, and a traversal calls their
    callbacks, as the modules stored them, in that order, once each.
    Registration touches nothing of the lifecycle state. *)
Theorem registerAll_then_traverse (s : State) (ns : list ptr) :
  initHeadNode s = nullptr ->
  NoDup ns ->
  (forall n, n ∈ ns ->
     n <> nullptr /\ exists nd, nodes s !! n = Some nd /\ next nd = nullptr) ->
  exists s',
    registerAll ns s = Ok tt s' /\
    registry s' ns /\
    runtimeState s' = runtimeState s /\ runtimes s' = runtimes s /\
    aliveRuntimesCount s' = aliveRuntimesCount s /\
    globalRuntimeStatus s' = globalRuntimeStatus s /\
    forall fuel t initialize memory,
      (length ns <= fuel)%nat ->
      InitOrDeinitGlobalVariables fuel t initialize memory s'
      = Ok tt (set_trace
                 (trace s ++
                  (t, EvRunPhase initialize memory) ::
                  map (fun q => (t, EvInitializer (callback (nodes s) q)
                                       initialize memory)) ns) s').
Proof.
  intros Hh Hnd Hall.
  assert (Hreg : registry s []).
  { split; [|congruence]. simpl. now rewrite Hh. }
  destruct (registerAll_registered ns s [] Hreg Hnd)
    as (s' & Hrun & Hreg' & Hcb & Ht & Hr & Hc & Hg & Htr).
  { intros n Hn. destruct (Hall n Hn) as (Hn0 & Hex). split; [exact Hn0|].
    split; [|exact Hex]. intros Hin. inversion Hin. }
  exists s'. simpl in Hreg'. repeat split; try assumption; try apply Hreg'.
  intros fuel t i m Hle. destruct Hreg' as [Hch _].
  pose proof (chain_enough _ _ _ _ Hch Hle) as Hc'.
  destruct (InitOrDeinitGlobalVariables_cases fuel t i m s')
    as [(l' & Hl' & ->) | (Hn & _)]; [|congruence].
  assert (l' = ns) as -> by congruence.
  rewrite Htr. unfold phase_events, calls. f_equal. f_equal. f_equal. f_equal.
  apply map_ext. intros q. now rewrite Hcb.
Qed.

(** A walk that starts inside a set of nodes closed under [next] never
    ends. *)
Lemma walkInitNodes_closed (l : list ptr) (h : gmap N InitNode) t i m :
  (forall q, q ∈ l -> q <> nullptr /\ exists nd, h !! q = Some nd /\ next nd ∈ l) ->
  forall fuel q s, nodes s = h -> q ∈ l ->
    walkInitNodes fuel t i m q s = OutOfFuel.
Proof.
  intros Hclosed. induction fuel as [|fuel IH]; intros q s Hn Hq;
    destruct (Hclosed q Hq) as (Hq0 & nd & Hnd & Hnext);
    simpl; rewrite (Neqb_nullptr_false _ Hq0); [reflexivity|].
  msimpl. rewrite (Neqb_nullptr_false _ Hq0), Hn, Hnd. msimpl.
  apply IH; auto.
Qed.

(** X11.  Registering a node that is already in the list closes the list
    into a cycle: the call itself returns, and from then on no traversal
    comes to an end, whatever bound is put on its length. *)
Theorem registering_twice_makes_a_cycle (s : State) (l : list ptr) (node : ptr) :
  registry s l ->
  node ∈ l ->
  exists s',
    AppendToInitializersTail node s = Ok tt s' /\
    forall fuel t initialize memory,
      InitOrDeinitGlobalVariables fuel t initialize memory s' = OutOfFuel.
Proof.
  intros Hreg Hin.
  assert (Hl : l <> []) by (intros ->; inversion Hin).
  pose proof (registry_nonempty_head s l Hreg Hl) as Hh.
  destruct Hreg as [Hc Htl]. specialize (Htl Hl).
  pose proof (chain_members _ _ _ _ Hc) as Hmem.
  pose proof (last_elem_of l nullptr Hl) as Hlast. rewrite <- Htl in Hlast.
  destruct (Hmem _ Hlast) as (Ht0 & nt & Hnt & _).
  rewrite (AppendToInitializersTail_nonempty node s nt) by assumption.
  eexists. split; [reflexivity|].
  intros fuel t i m. unfold InitOrDeinitGlobalVariables. msimpl.
  apply (walkInitNodes_closed l
           (<[initTailNode s := mkInitNode (init nt) node]> (nodes s))); auto.
  - intros q Hq. destruct (Hmem q Hq) as (Hq0 & nd & Hnd & Hnext).
    split; [exact Hq0|].
    destruct (decide (initTailNode s = q)) as [<-|Hne].
    + rewrite lookup_insert_eq. eexists. split; [reflexivity|]. exact Hin.
    + rewrite lookup_insert_ne by assumption. exists nd. split; [exact Hnd|].
      destruct Hnext as [Hn | [_ Hq']]; [exact Hn|]. congruence.
  - destruct l as [|a l']; [congruence|].
    apply chain_cons_inv in Hc. destruct Hc as (f & n & _ & -> & _). left.
Qed.

End RegistryMore.

(** ** Teardown of a runtime that is gone *)

Section StaleTeardown.
Context {B : Build}.

(** X12.  [Kotlin_deinitRuntimeCallback] must not run on a runtime that is
    gone.  With a null argument it dereferences null, in every build.  And
    the argument that [Kotlin_initRuntimeIfNeeded] registers for thread exit
    is the thread's [runtimeState] pointer: once
    [Kotlin_deinitRuntimeIfNeeded] has torn that runtime down, the
    registration still holds the pointer, and the callback called with it
    reads freed memory. *)
Theorem deinit_callback_on_stale_runtime (s : State) (fuel : nat) (env : Env)
    (t : tid) (l : list ptr) :
  (forall fuel' t' s0, Kotlin_deinitRuntimeCallback fuel' t' nullptr s0 = Fault) /\
  (runtimeState s !! t = None ->
   globalRuntimeStatus s <> GlobalRuntimeStatus.kDestroyed ->
   alloc_ok env = true ->
   registry s l -> (length l <= fuel)%nat ->
   exists p s1 s2,
     Kotlin_initRuntimeIfNeeded fuel env t s = Ok tt s1 /\
     runtimeState s1 !! t = Some p /\
     last (trace s1) = Some (t, EvOnThreadExit p) /\
     Kotlin_deinitRuntimeIfNeeded fuel t s1 = Ok tt s2 /\
     forall fuel' t', Kotlin_deinitRuntimeCallback fuel' t' p s2 = Fault).
Proof.
  split.
  - intros fuel' t' s0. unfold Kotlin_deinitRuntimeCallback.
    apply deinitRuntime_invalid_state. now left.
  - intros Hn Hg Ha [Hc _] Hle.
    pose proof (chain_enough _ _ _ _ Hc Hle) as Hl.
    assert (Hv : default nullptr (runtimeState s !! t) = nullptr) by now rewrite Hn.
    destruct (fresh_address_spec (runtimes s)) as [Hf1 Hf2].
    set (p := fresh_address (runtimes s)) in *.
    exists p.
    rewrite (Kotlin_initRuntimeIfNeeded_success fuel env t s l) by assumption.
    fold p. set (s1 := set_trace _ _).
    assert (Ht1 : runtimeState s1 !! t = Some p).
    { subst s1. unfold init_state. msimpl. apply lookup_insert_eq. }
    assert (Hv1 : default nullptr (runtimeState s1 !! t) = p) by now rewrite Ht1.
    exists s1.
    rewrite Kotlin_deinitRuntimeIfNeeded_valid by (rewrite Hv1; exact Hf1).
    rewrite Hv1.
    rewrite (deinitRuntime_returns fuel t p false s1
               (mkRuntimeState (init_memory env) (init_worker env)
                  RuntimeStatus.kRunning) l); auto.
    2:{ subst s1. unfold init_state. msimpl. fold p. apply lookup_insert_eq. }
    eexists. split; [reflexivity|]. split; [exact Ht1|]. split.
    { subst s1. msimpl. apply last_snoc. }
    split; [reflexivity|].
    intros fuel' t'. unfold Kotlin_deinitRuntimeCallback.
    apply deinitRuntime_invalid_state. right.
    unfold deinit_state. msimpl. apply lookup_delete_eq.
Qed.

End StaleTeardown.

(** ** Destroying against the contract *)

Lemma no_shutdown_calls h t i m l : List.filter is_shutdown (calls h t i m l) = [].
Proof. unfold calls. induction l; simpl; auto. Qed.

Lemma no_shutdown_phase_events h t i m l :
  List.filter is_shutdown (phase_events h t i m l) = [].
Proof. unfold phase_events. simpl. apply no_shutdown_calls. Qed.


Section DestroyContract.
Context {B : Build}.

(** X13.  In a build with asserts, [Kotlin_destroyRuntime] called against
    its contract stops at its entry: with a global status other than
    [kRunning] it aborts on the first assertion, and with status [kRunning]
    on a thread without a runtime on the second.  Nothing has happened by
    then: the cleaners are not shut down and the global status is not
    [kDestroyed]. *)
Theorem destroy_against_contract_with_asserts (s : State) (fuel : nat) (t : tid) :
  KONAN_ENABLE_ASSERT = true ->
  (globalRuntimeStatus s <> GlobalRuntimeStatus.kRunning ->
   Kotlin_destroyRuntime fuel t s
   = Abort (set_trace (trace s ++
              [(t, EvRuntimeAssertFailed "Kotlin runtime must be running")]) s)) /\
  (globalRuntimeStatus s = GlobalRuntimeStatus.kRunning ->
   default nullptr (runtimeState s !! t) = nullptr ->
   Kotlin_destroyRuntime fuel t s
   = Abort (set_trace (trace s ++
              [(t, EvRuntimeAssertFailed
                     "Current thread must have Kotlin runtime on it.")]) s)).
Proof.
  intros Ha. split.
  - intros Hg. unfold Kotlin_destroyRuntime.
    assert (He : GlobalRuntimeStatus.eqb (globalRuntimeStatus s)
                   GlobalRuntimeStatus.kRunning = false)
      by (destruct (globalRuntimeStatus s); simpl; congruence).
    mrun. reflexivity.
  - intros Hg Hv. unfold Kotlin_destroyRuntime. mrun. reflexivity.
Qed.

(** X14.  In a build without asserts nothing guards the contract.  In a
    running process, [Kotlin_destroyRuntime] called by a thread that holds
    no runtime writes [kDestroyed] all the same; with two or more runtimes
    alive it then aborts with a diagnostic that reports one runtime fewer
    than there are, and with at most one alive it goes on to tear down a
    null [runtimeState] and dereferences it. *)
Theorem destroy_without_runtime_without_asserts (s : State) (fuel : nat) (t : tid) :
  KONAN_ENABLE_ASSERT = false ->
  reachable s ->
  runtimeState s !! t = None ->
  let alive := Z.of_nat (size (runtimeState s)) in
  (2 <= alive ->
   Kotlin_destroyRuntime fuel t s
   = Abort (set_trace (trace (destroy_pre_state t s) ++
                       [(t, EvConsoleErrorf alive_message [alive - 1])])
              (destroy_pre_state t s))) /\
  (alive <= 1 -> Kotlin_destroyRuntime fuel t s = Fault).
Proof.
  intros Ha Hr Hn. cbv zeta.
  pose proof (reachable_Inv s Hr) as (_ & Hc & _).
  pose proof (reachable_fit s Hr) as Hfit. unfold threads_fit_int, INT_MAX in Hfit.
  rewrite Kotlin_destroyRuntime_unfold by (rewrite Ha; discriminate).
  cbv zeta. rewrite Ha, Hc, Hn. simpl andb. cbv iota.
  rewrite wrap_int_small by (unfold INT_MAX; lia).
  split; intros Hsz.
  - replace (0 <? Z.of_nat (size (runtimeState s)) - 1) with true
      by (symmetry; apply Z.ltb_lt; lia).
    reflexivity.
  - replace (0 <? Z.of_nat (size (runtimeState s)) - 1) with false
      by (symmetry; apply Z.ltb_ge; lia).
    rewrite deinitRuntime_invalid_state; auto.
Qed.

Lemma no_shutdown_deinit_events h t rs d l :
  List.filter is_shutdown (deinit_events h t rs d l) = [].
Proof.
  unfold deinit_events. rewrite !List.filter_app.
  destruct d; rewrite ?no_shutdown_phase_events; reflexivity.
Qed.

(** What [Kotlin_destroyRuntime] has traced when it is past its entry: the
    shutdown of the cleaners, and after it no event of that kind. *)
Lemma Kotlin_destroyRuntime_trace_prefix fuel t s s' :
  (KONAN_ENABLE_ASSERT = true ->
   globalRuntimeStatus s = GlobalRuntimeStatus.kRunning /\
   default nullptr (runtimeState s !! t) <> nullptr) ->
  Kotlin_destroyRuntime fuel t s = Ok tt s' \/ Kotlin_destroyRuntime fuel t s = Abort s' ->
  exists rest,
    trace s' = trace s ++ shutdown_events t s ++ rest /\
    List.filter is_shutdown rest = [].
Proof.
  intros Hpre H. rewrite Kotlin_destroyRuntime_unfold in H by exact Hpre.
  cbv zeta in H.
  destruct (_ && _).
  { destruct H as [H|H]; [discriminate|]. injection H as <-.
    unfold destroy_pre_state. msimpl. eexists. rewrite <- app_assoc.
    split; reflexivity. }
  destruct (0 <? _).
  { destruct H as [H|H]; [discriminate|]. injection H as <-.
    unfold destroy_pre_state. msimpl. eexists. rewrite <- app_assoc.
    split; reflexivity. }
  destruct (deinitRuntime fuel t _ true (destroy_pre_state t s)) as [[] s2|s2| |] eqn:Hd;
    destruct H as [H|H]; try discriminate; injection H as <-.
  - apply deinitRuntime_Ok_inv in Hd. destruct Hd as (rs & l & _ & _ & _ & _ & ->).
    unfold deinit_state, destroy_pre_state. msimpl. eexists.
    rewrite <- app_assoc. split; [reflexivity|]. apply no_shutdown_deinit_events.
  - apply deinitRuntime_Abort_inv in Hd. destruct Hd as (rs & _ & _ & _ & ->).
    unfold destroy_pre_state. msimpl. eexists. rewrite <- app_assoc.
    split; reflexivity.
Qed.

(** X15.  The two leak-checker flags are independent cells that the
    accessors read and write, and they alone decide how
    [Kotlin_destroyRuntime] shuts the cleaners down.  After
    [Konan_Platform_setCleanersLeakChecker v] and
    [Konan_Platform_setMemoryLeakChecker w], in either order, the getters
    return [v] and [w]; and a destroy that is past its entry, whether it
    returns or aborts, has performed a full collection and
    [ShutdownCleaners(true)] when [v] is set, only [ShutdownCleaners(false)]
    when it is not, then has waited for the native workers exactly when [w]
    is set, and has made no other call of these three. *)
Theorem leak_checkers_decide_shutdown (s : State) (v w : bool) (fuel : nat) (t : tid) :
  let s1 := set_g_checkLeaks w (set_g_checkLeakedCleaners v s) in
  (Konan_Platform_setCleanersLeakChecker v ;; Konan_Platform_setMemoryLeakChecker w)%rt s
  = Ok tt s1 /\
  (Konan_Platform_setMemoryLeakChecker w ;; Konan_Platform_setCleanersLeakChecker v)%rt s
  = Ok tt s1 /\
  Konan_Platform_getCleanersLeakChecker s1 = Ok v s1 /\
  Konan_Platform_getMemoryLeakChecker s1 = Ok w s1 /\
  Kotlin_cleanersLeakCheckerEnabled s1 = Ok v s1 /\
  Kotlin_memoryLeakCheckerEnabled s1 = Ok w s1 /\
  forall s',
    (KONAN_ENABLE_ASSERT = true ->
     globalRuntimeStatus s = GlobalRuntimeStatus.kRunning /\
     default nullptr (runtimeState s !! t) <> nullptr) ->
    Kotlin_destroyRuntime fuel t s1 = Ok tt s' \/ Kotlin_destroyRuntime fuel t s1 = Abort s' ->
    exists rest,
      trace s'
      = trace s ++
        (if v then [(t, EvPerformFullGC); (t, EvShutdownCleaners true)]
         else [(t, EvShutdownCleaners false)]) ++
        (if w then [(t, EvWaitNativeWorkersTermination)] else []) ++ rest /\
      List.filter is_shutdown rest = [] /\
      List.filter is_shutdown (trace s')
      = List.filter is_shutdown (trace s) ++
        (if v then [(t, EvPerformFullGC); (t, EvShutdownCleaners true)]
         else [(t, EvShutdownCleaners false)]) ++
        (if w then [(t, EvWaitNativeWorkersTermination)] else []).
Proof.
  cbv zeta. repeat split.
  intros s' Hpre H.
  apply Kotlin_destroyRuntime_trace_prefix in H; [|exact Hpre].
  destruct H as (rest & Hrest & Hno). exists rest. rewrite Hrest.
  unfold shutdown_events. msimpl. rewrite <- !app_assoc.
  split; [reflexivity|]. split; [exact Hno|].
  rewrite !List.filter_app, Hno. destruct v, w; simpl; now rewrite ?app_nil_r.
Qed.


End DestroyContract.

(** ** When initialization aborts *)

Section InitAborts.
Context {B : Build}.

(** X16.  Calls taken one at a time.  [Kotlin_initRuntimeIfNeeded], run
    from its entry to its end with no step of another thread in between,
    aborts in one case only: the thread has no runtime and the global status
    is [kDestroyed]; it then has done nothing but print its diagnostic, and
    the two checks inside [initRuntime] do not fire.  [initRuntime] itself,
    entered on a thread that already holds a runtime, aborts on "No active
    runtimes allowed", after the allocation of the second [RuntimeState] and
    before the global status or the counter is touched.  (A destroy that
    stores [kDestroyed] while the call is under way makes the second check
    fire: see the part on calls that overtake one another.) *)
Theorem initialization_aborts_only_when_destroyed (s : State) (fuel : nat)
    (env : Env) (t : tid) :
  ((exists s', Kotlin_initRuntimeIfNeeded fuel env t s = Abort s') <->
   default nullptr (runtimeState s !! t) = nullptr /\
   globalRuntimeStatus s = GlobalRuntimeStatus.kDestroyed) /\
  (forall s',
      Kotlin_initRuntimeIfNeeded fuel env t s = Abort s' ->
      s' = set_trace (trace s ++ [(t, EvConsoleErrorf destroyed_message [])]) s) /\
  (default nullptr (runtimeState s !! t) <> nullptr ->
   alloc_ok env = true ->
   exists s',
     initRuntime fuel env t s = Abort s' /\
     trace s' = trace s ++ [(t, EvSetKonanTerminateHandler);
                            (t, EvRuntimeAssertFailed "No active runtimes allowed")] /\
     runtimes s' = <[fresh_address (runtimes s) :=
                       mkRuntimeState nullptr nullptr RuntimeStatus.kUninitialized]>
                     (runtimes s) /\
     runtimeState s' = runtimeState s /\
     globalRuntimeStatus s' = globalRuntimeStatus s /\
     aliveRuntimesCount s' = aliveRuntimesCount s).
Proof.
  split; [|split].
  - split.
    + intros [s' H]. apply Kotlin_initRuntimeIfNeeded_Abort_inv in H. tauto.
    + intros [Hv Hg]. eexists. now apply Kotlin_initRuntimeIfNeeded_destroyed.
  - intros s' H. apply Kotlin_initRuntimeIfNeeded_Abort_inv in H. tauto.
  - intros Hv Ha. apply Neqb_nullptr_false in Hv.
    destruct (fresh_address_spec (runtimes s)) as [Hf1 _].
    pose proof (Neqb_nullptr_false _ Hf1) as Hf.
    unfold initRuntime. mrun. eexists. split; [reflexivity|]. msimpl.
    rewrite <- app_assoc. auto.
Qed.

End InitAborts.

(** ** Zeroing the thread-local globals, then tearing down *)

Section ZeroThenDeinit.
Context {B : Build}.

(** X17.  [Kotlin_zeroOutTLSGlobals] does not end the runtime: the teardown
    that follows still returns, and it runs the
    DEINIT_THREAD_LOCAL_GLOBALS phase again, on the same memory state.  The
    callbacks of a thread therefore see that phase twice. *)
Theorem zeroOut_then_deinit_runs_phase_twice (s : State) (fuel : nat) (t : tid)
    (p : ptr) (rs : RuntimeState) (l : list ptr) :
  runtimeState s !! t = Some p -> p <> nullptr ->
  runtimes s !! p = Some rs ->
  memoryState rs <> nullptr ->
  (KONAN_ENABLE_ASSERT = true -> status rs = RuntimeStatus.kRunning) ->
  registry s l -> (length l <= fuel)%nat ->
  exists s2,
    (Kotlin_zeroOutTLSGlobals fuel t ;; Kotlin_deinitRuntimeIfNeeded fuel t)%rt s
    = Ok tt s2 /\
    trace s2
    = trace s ++
      phase_events (nodes s) t DEINIT_THREAD_LOCAL_GLOBALS (memoryState rs) l ++
      [(t, EvRestoreMemory (memoryState rs))] ++
      phase_events (nodes s) t DEINIT_THREAD_LOCAL_GLOBALS (memoryState rs) l ++
      [(t, EvGetWorkerId (worker rs)); (t, EvWorkerDeinit (worker rs));
       (t, EvDeinitMemory (memoryState rs) false);
       (t, EvWorkerDestroyThreadDataIfNeeded (GetWorkerId (worker rs)))] /\
    phases (trace s2)
    = phases (trace s) ++ [DEINIT_THREAD_LOCAL_GLOBALS; DEINIT_THREAD_LOCAL_GLOBALS] /\
    runtimeState s2 !! t = None /\ runtimes s2 !! p = None.
Proof.
  intros Ht Hp Hrs Hm Hst [Hc _] Hle.
  pose proof (chain_enough _ _ _ _ Hc Hle) as Hl.
  assert (Hv : default nullptr (runtimeState s !! t) = p) by now rewrite Ht.
  unfold bind.
  rewrite (Kotlin_zeroOutTLSGlobals_memory fuel t s p rs) by assumption.
  destruct (InitOrDeinitGlobalVariables_cases fuel t DEINIT_THREAD_LOCAL_GLOBALS
              (memoryState rs) s) as [(l' & Hl' & ->) | (Hn & _)]; [|congruence].
  assert (l' = l) as -> by congruence.
  set (s1 := set_trace _ s).
  assert (Hv1 : default nullptr (runtimeState s1 !! t) = p) by exact Hv.
  rewrite Kotlin_deinitRuntimeIfNeeded_valid by (rewrite Hv1; exact Hp).
  rewrite Hv1.
  rewrite (deinitRuntime_returns fuel t p false s1 rs l); auto.
  eexists. split; [reflexivity|].
  subst s1. unfold deinit_state, deinit_events. msimpl.
  split; [now rewrite <- !app_assoc|]. split; [|split].
  - rewrite !phases_app, !phases_phase_events. simpl. now rewrite <- app_assoc.
  - apply lookup_delete_eq.
  - apply lookup_delete_eq.
Qed.

End ZeroThenDeinit.

(** ** The platform codes *)

Lemma os_family_single (T : Target) :
  defined (os_macros T) = 1%nat ->
  os_macros T = only 8 (Konan_Platform_getOsFamily T).
Proof.
  unfold defined, os_macros, Konan_Platform_getOsFamily.
  destruct (KONAN_MACOSX T), (KONAN_IOS T), (KONAN_LINUX T), (KONAN_WINDOWS T),
    (KONAN_ANDROID T), (KONAN_WASM T), (KONAN_TVOS T), (KONAN_WATCHOS T);
    simpl; intros H; try discriminate; reflexivity.
Qed.

Lemma cpu_architecture_single (T : Target) :
  defined (cpu_macros T) = 1%nat ->
  cpu_macros T = only 7 (Konan_Platform_getCpuArchitecture T).
Proof.
  unfold defined, cpu_macros, Konan_Platform_getCpuArchitecture.
  destruct (KONAN_ARM32 T), (KONAN_ARM64 T), (KONAN_X86 T), (KONAN_X64 T),
    (KONAN_MIPS32 T), (KONAN_MIPSEL32 T), (KONAN_WASM T);
    simpl; intros H; try discriminate; reflexivity.
Qed.

(** X18.  The codes of [Konan_Platform_getOsFamily] and
    [Konan_Platform_getCpuArchitecture] stay within 0..8 and 0..7; the code
    is 0 exactly when none of the macros of the chain is defined; and among
    targets that define one macro of a chain, equal codes mean the same
    macro, so no two platforms share a code. *)
Theorem platform_codes_identify_the_target (T T' : Target) :
  0 <= Konan_Platform_getOsFamily T <= 8 /\
  0 <= Konan_Platform_getCpuArchitecture T <= 7 /\
  (Konan_Platform_getOsFamily T = 0 <-> defined (os_macros T) = 0%nat) /\
  (Konan_Platform_getCpuArchitecture T = 0 <-> defined (cpu_macros T) = 0%nat) /\
  (defined (os_macros T) = 1%nat -> defined (os_macros T') = 1%nat ->
   Konan_Platform_getOsFamily T = Konan_Platform_getOsFamily T' ->
   os_macros T = os_macros T') /\
  (defined (cpu_macros T) = 1%nat -> defined (cpu_macros T') = 1%nat ->
   Konan_Platform_getCpuArchitecture T = Konan_Platform_getCpuArchitecture T' ->
   cpu_macros T = cpu_macros T').
Proof.
  split; [|split; [|split; [|split; [|split]]]].
  - unfold Konan_Platform_getOsFamily.
    destruct (KONAN_MACOSX T), (KONAN_IOS T), (KONAN_LINUX T), (KONAN_WINDOWS T),
      (KONAN_ANDROID T), (KONAN_WASM T), (KONAN_TVOS T), (KONAN_WATCHOS T); lia.
  - unfold Konan_Platform_getCpuArchitecture.
    destruct (KONAN_ARM32 T), (KONAN_ARM64 T), (KONAN_X86 T), (KONAN_X64 T),
      (KONAN_MIPS32 T), (KONAN_MIPSEL32 T), (KONAN_WASM T); lia.
  - unfold defined, os_macros, Konan_Platform_getOsFamily.
    destruct (KONAN_MACOSX T), (KONAN_IOS T), (KONAN_LINUX T), (KONAN_WINDOWS T),
      (KONAN_ANDROID T), (KONAN_WASM T), (KONAN_TVOS T), (KONAN_WATCHOS T);
      simpl; split; intros H; try discriminate; reflexivity.
  - unfold defined, cpu_macros, Konan_Platform_getCpuArchitecture.
    destruct (KONAN_ARM32 T), (KONAN_ARM64 T), (KONAN_X86 T), (KONAN_X64 T),
      (KONAN_MIPS32 T), (KONAN_MIPSEL32 T), (KONAN_WASM T);
      simpl; split; intros H; try discriminate; reflexivity.
  - intros H1 H2 He.
    rewrite (os_family_single T H1), (os_family_single T' H2). now rewrite He.
  - intros H1 H2 He.
    rewrite (cpu_architecture_single T H1), (cpu_architecture_single T' H2).
    now rewrite He.
Qed.

(** ** Steps without interruption, and schedules *)

Section Uninterrupted.
Context {B : Build}.

Lemma run_thread_Returned fuel t n s : run_thread fuel t n Returned s = Ok Returned s.
Proof. induction n as [|n IH]; [reflexivity|]. simpl. unfold bind. simpl. exact IH. Qed.

Lemma run_thread_S fuel t n pt s :
  run_thread fuel t (S n) pt s
  = match thread_step fuel t pt s with
    | Ok pt' s' => run_thread fuel t n pt' s'
    | Abort s' => Abort s'
    | Fault => Fault
    | OutOfFuel => OutOfFuel
    end.
Proof. reflexivity. Qed.

Lemma uninterrupted_init fuel env t s :
  run_thread fuel t 7 (AtInitEntry env) s
  = (Kotlin_initRuntimeIfNeeded fuel env t ;; ret Returned) s.
Proof.
  destruct (fresh_address_spec (runtimes s)) as [Hf1 Hf2].
  pose proof (Neqb_nullptr_false _ Hf1) as Hf.
  rewrite !run_thread_S. unfold run_thread.
  unfold thread_step, Kotlin_initRuntimeIfNeeded, initRuntime.
  destruct (default nullptr (runtimeState s !! t) =? nullptr)%N eqn:Hv; mrun;
    [|reflexivity].
  destruct (globalRuntimeStatus s) eqn:Hs; mrun; try reflexivity.
  all: destruct (alloc_ok env) eqn:Ha; mrun; try reflexivity.
  all: destruct KONAN_OBJC_INTEROP eqn:Ho; mrun.
  all: repeat (phase_split; mrun; try reflexivity).
  all: destruct KONAN_ENABLE_ASSERT eqn:Hen; mrun; try reflexivity.
Qed.

End Uninterrupted.

Section Uninterrupted2.
Context {B : Build}.


Lemma uninterrupted_destroy fuel t s :
  run_thread fuel t 6 AtDestroyEntry s
  = (Kotlin_destroyRuntime fuel t ;; ret Returned) s.
Proof.
  rewrite !run_thread_S. unfold run_thread.
  unfold thread_step, Kotlin_destroyRuntime, deinitRuntime.
  destruct KONAN_ENABLE_ASSERT eqn:Hen; mrun.
  all: destruct (g_checkLeakedCleaners s) eqn:Hc1, (g_checkLeaks s) eqn:Hc2; mrun.
  all: try (destruct (GlobalRuntimeStatus.eqb (globalRuntimeStatus s)
                        GlobalRuntimeStatus.kRunning) eqn:Hg; mrun; try reflexivity).
  all: destruct (default nullptr (runtimeState s !! t) =? nullptr)%N eqn:Hv; mrun;
    try reflexivity.
  all: destruct (0 <=? wrap_int (aliveRuntimesCount s - 1)) eqn:Hn; mrun;
    try reflexivity.
  all: destruct (0 <? wrap_int (aliveRuntimesCount s - 1)) eqn:Hp; mrun;
    try reflexivity.
  all: destruct (runtimes s !! default nullptr (runtimeState s !! t)) as [rs|] eqn:Hrs;
    mrun; try reflexivity.
  all: try (destruct (RuntimeStatus.eqb (status rs) RuntimeStatus.kRunning) eqn:Hst;
            mrun; try reflexivity).
  all: repeat (phase_split; mrun; try reflexivity).
  all: rewrite ?lookup_delete_eq; reflexivity.
Qed.

End Uninterrupted2.

Section Schedules.
Context {B : Build}.

Lemma run_schedule_step fuel t sched th s pt pt' s' :
  th !! t = Some pt ->
  thread_step fuel t pt s = Ok pt' s' ->
  run_schedule fuel (t :: sched) th s = run_schedule fuel sched (<[t := pt']> th) s'.
Proof. intros Ht Hs. simpl. rewrite Ht. unfold bind. now rewrite Hs. Qed.

Lemma run_schedule_aborts fuel t sched th s pt s' :
  th !! t = Some pt ->
  thread_step fuel t pt s = Abort s' ->
  run_schedule fuel (t :: sched) th s = Abort s'.
Proof. intros Ht Hs. simpl. rewrite Ht. unfold bind. now rewrite Hs. Qed.

(** A thread that is given [n] steps in a row runs them as [run_thread]
    does. *)
Lemma run_schedule_block fuel t n sched : forall th s pt,
  th !! t = Some pt ->
  run_schedule fuel (repeat t n ++ sched) th s
  = match run_thread fuel t n pt s with
    | Ok pt' s' => run_schedule fuel sched (<[t := pt']> th) s'
    | Abort s' => Abort s'
    | Fault => Fault
    | OutOfFuel => OutOfFuel
    end.
Proof.
  induction n as [|n IH]; intros th s pt Ht.
  - simpl. now rewrite insert_id.
  - cbn [repeat app run_schedule]. rewrite Ht, run_thread_S. unfold bind.
    destruct (thread_step fuel t pt s) as [pt1 s1| | |]; try reflexivity.
    rewrite (IH _ s1 pt1) by apply lookup_insert_eq.
    destruct (run_thread fuel t n pt1 s1); try reflexivity.
    now rewrite insert_insert_eq.
Qed.

End Schedules.

Section StepsAndCalls.
Context {B : Build}.


End StepsAndCalls.

(** ** Calls that overtake one another *)

Ltac look :=
  repeat first [apply lookup_insert_eq | rewrite lookup_insert_ne by congruence].

Section Races.
Context {B : Build}.

Lemma phases_tl_init_events h t first env l :
  phases (tl (init_events h t first env l))
  = (if first then [INIT_GLOBALS] else []) ++ [INIT_THREAD_LOCAL_GLOBALS].
Proof. rewrite <- (phases_init_events h t first env l). reflexivity. Qed.

(** X20.  The compare-and-set makes one thread the first, but it does not
    make the others wait for it.  Two threads enter
    [Kotlin_initRuntimeIfNeeded] in an uninitialized process; thread [a]
    wins the compare-and-set and is then overtaken by thread [b], which
    finds the status [kRunning], runs its INIT_THREAD_LOCAL_GLOBALS phase
    and returns before [a] has run INIT_GLOBALS.  Both calls return, both
    threads hold a running runtime, and the phases are entered in the order
    INIT_THREAD_LOCAL_GLOBALS (of [b]), INIT_GLOBALS,
    INIT_THREAD_LOCAL_GLOBALS (of [a]). *)
Theorem thread_local_init_can_precede_global_init (s : State) (fuel : nat)
    (a b : tid) (envA envB : Env) (l : list ptr) :
  a <> b ->
  globalRuntimeStatus s = GlobalRuntimeStatus.kUninitialized ->
  runtimeState s !! a = None -> runtimeState s !! b = None ->
  alloc_ok envA = true -> alloc_ok envB = true ->
  chain fuel (nodes s) (initHeadNode s) = Some l ->
  exists th' s' pA pB,
    run_schedule fuel ([a; a; a] ++ repeat b 7 ++ [a; a; a; a])
      (<[a := AtInitEntry envA]> (<[b := AtInitEntry envB]> ∅)) s = Ok th' s' /\
    th' !! a = Some Returned /\ th' !! b = Some Returned /\
    globalRuntimeStatus s' = GlobalRuntimeStatus.kRunning /\
    pA <> pB /\
    runtimeState s' !! a = Some pA /\ runtimeState s' !! b = Some pB /\
    runtimes s' !! pA
    = Some (mkRuntimeState (init_memory envA) (init_worker envA) RuntimeStatus.kRunning) /\
    runtimes s' !! pB
    = Some (mkRuntimeState (init_memory envB) (init_worker envB) RuntimeStatus.kRunning) /\
    trace s'
    = trace s ++ [(a, EvSetKonanTerminateHandler)] ++
      init_events (nodes s) b false envB l ++ [(b, EvOnThreadExit pB)] ++
      tl (init_events (nodes s) a true envA l) ++ [(a, EvOnThreadExit pA)] /\
    phases (trace s')
    = phases (trace s) ++
      [INIT_THREAD_LOCAL_GLOBALS; INIT_GLOBALS; INIT_THREAD_LOCAL_GLOBALS].
Proof.
  intros Hab Hg Ha Hb HaA HaB Hl.
  destruct (fresh_address_spec (runtimes s)) as [HpA HpA'].
  set (pA := fresh_address (runtimes s)) in *.
  cbn [app].
  (* thread a: entry, allocation, compare-and-set *)
  erewrite run_schedule_step;
    [|apply lookup_insert_eq|apply step_AtInitEntry; congruence].
  erewrite run_schedule_step;
    [|apply lookup_insert_eq|apply step_AtInitRuntime; assumption].
  cbv zeta. fold pA.
  erewrite run_schedule_step; [|apply lookup_insert_eq|apply step_AtCompareAndSet].
  cbv zeta. msimpl. rewrite Hg. cbn [GlobalRuntimeStatus.eqb].
  rewrite !insert_insert_eq.
  set (s3 := set_globalRuntimeStatus _ _).
  (* thread b: the whole call *)
  rewrite (run_schedule_block fuel b 7 _ _ s3 (AtInitEntry envB))
    by (rewrite !lookup_insert_ne by congruence; apply lookup_insert_eq).
  rewrite uninterrupted_init. unfold bind at 1.
  rewrite (Kotlin_initRuntimeIfNeeded_success fuel envB b s3 l);
    [|subst s3; msimpl; now rewrite lookup_insert_ne, Hb by congruence
     |subst s3; msimpl; discriminate|exact HaB|exact Hl].
  unfold ret at 1.
  destruct (fresh_address_spec (runtimes s3)) as [HpB HpB'].
  set (pB := fresh_address (runtimes s3)) in *.
  assert (Hne : pA <> pB).
  { intros E. subst s3. msimpl. rewrite <- E, lookup_insert_eq in HpB'. discriminate. }
  set (s10 := set_trace _ (init_state b envB l s3)).
  (* thread a: the rest *)
  erewrite run_schedule_step;
    [|rewrite lookup_insert_ne by congruence; apply lookup_insert_eq
     |apply step_AtMustBeRunning; reflexivity].
  erewrite run_schedule_step; [|apply lookup_insert_eq|apply step_AtIncrement].
  erewrite run_schedule_step;
    [|apply lookup_insert_eq
     |apply (step_AtInitMemory fuel a envA pA true _ l); [exact HpA| |exact Hl]].
  2: { subst s10 s3. unfold init_state. msimpl. fold pB.
       rewrite lookup_insert_ne by congruence. apply lookup_insert_eq. }
  erewrite run_schedule_step; [|apply lookup_insert_eq|apply step_AtOnThreadExit].
  cbn [run_schedule]. unfold ret.
  eexists _, _, pA, pB. split; [reflexivity|].
  subst s10 s3. unfold init_state. msimpl. fold pB.
  rewrite !insert_insert_eq.
  split; [look|]. split; [look|].
  split; [reflexivity|]. split; [exact Hne|].
  split; [look|]. split; [look|]. split; [look|]. split; [look|].
  assert (Htr : forall x, default nullptr (<[b:=pB]> (<[a:=pA]> (runtimeState s)) !! a) = x
                          -> x = pA).
  { intros x <-. rewrite lookup_insert_ne by congruence.
    now rewrite lookup_insert_eq. }
  rewrite (Htr _ eq_refl).
  split.
  - rewrite <- !app_assoc. reflexivity.
  - rewrite !phases_app, phases_init_events, phases_tl_init_events.
    change (phases [(a, EvSetKonanTerminateHandler)]) with (@nil Z).
    change (phases [(b, EvOnThreadExit pB)]) with (@nil Z).
    change (phases [(a, EvOnThreadExit pA)]) with (@nil Z).
    rewrite !app_nil_r, <- !app_assoc. reflexivity.
Qed.

End Races.

Section Races2.
Context {B : Build}.

Lemma step_AtDestroyEntry fuel t s :
  (KONAN_ENABLE_ASSERT = true ->
   globalRuntimeStatus s = GlobalRuntimeStatus.kRunning /\
   default nullptr (runtimeState s !! t) <> nullptr) ->
  thread_step fuel t AtDestroyEntry s
  = Ok AtDestroyStore (set_trace (trace s ++ shutdown_events t s) s).
Proof.
  intros Hpre. unfold thread_step, shutdown_events.
  destruct (g_checkLeakedCleaners s) eqn:Hc1, (g_checkLeaks s) eqn:Hc2.
  all: destruct KONAN_ENABLE_ASSERT eqn:Ha;
    [destruct (Hpre eq_refl) as [Hg Hv]; apply Neqb_nullptr_false in Hv|].
  all: mrun; rewrite <- ?app_assoc; try reflexivity.
  all: rewrite app_nil_r; destruct s; reflexivity.
Qed.

Lemma step_AtDestroyStore fuel t s :
  thread_step fuel t AtDestroyStore s
  = Ok AtDestroyCount (set_globalRuntimeStatus GlobalRuntimeStatus.kDestroyed s).
Proof. reflexivity. Qed.

(** X21.  [Kotlin_destroyRuntime] reads the counter once; a thread that has
    passed the check of line 94 but not yet the increment of line 95 is not
    counted.  With the initialization of thread [i] standing there, the
    destroy of thread [d], the only holder of a runtime, finds no other
    runtime, runs DEINIT_GLOBALS and returns; thread [i] then completes its
    call.  Both calls return; the process is [kDestroyed], and thread [i]
    holds a running runtime whose INIT_THREAD_LOCAL_GLOBALS phase ran after
    DEINIT_GLOBALS. *)
Theorem destroy_can_return_beside_an_initialization (s : State) (fuel : nat)
    (d i : tid) (env : Env) (pD : ptr) (rsD : RuntimeState) (l : list ptr) :
  d <> i ->
  globalRuntimeStatus s = GlobalRuntimeStatus.kRunning ->
  runtimeState s !! d = Some pD -> pD <> nullptr ->
  runtimes s !! pD = Some rsD -> status rsD = RuntimeStatus.kRunning ->
  aliveRuntimesCount s = 1 ->
  runtimeState s !! i = None -> alloc_ok env = true ->
  chain fuel (nodes s) (initHeadNode s) = Some l ->
  exists th' s' pI,
    run_schedule fuel ([i; i; i; i] ++ repeat d 6 ++ [i; i; i])
      (<[d := AtDestroyEntry]> (<[i := AtInitEntry env]> ∅)) s = Ok th' s' /\
    th' !! d = Some Returned /\ th' !! i = Some Returned /\
    globalRuntimeStatus s' = GlobalRuntimeStatus.kDestroyed /\
    runtimeState s' !! d = None /\
    runtimeState s' !! i = Some pI /\ pI <> nullptr /\
    runtimes s' !! pI
    = Some (mkRuntimeState (init_memory env) (init_worker env) RuntimeStatus.kRunning) /\
    aliveRuntimesCount s' = 1 /\
    phases (trace s')
    = phases (trace s) ++
      [DEINIT_THREAD_LOCAL_GLOBALS; DEINIT_GLOBALS; INIT_THREAD_LOCAL_GLOBALS].
Proof.
  intros Hdi Hg Hd HpD HrsD Hst Hc Hi Ha Hl.
  destruct (fresh_address_spec (runtimes s)) as [HpI HpI'].
  set (pI := fresh_address (runtimes s)) in *.
  assert (Hne : pI <> pD) by congruence.
  cbn [app].
  (* thread i: up to the check of line 94 *)
  erewrite run_schedule_step; [|look|apply step_AtInitEntry; congruence].
  erewrite run_schedule_step; [|look|apply step_AtInitRuntime; assumption].
  cbv zeta. fold pI.
  erewrite run_schedule_step; [|look|apply step_AtCompareAndSet].
  cbv zeta. msimpl. rewrite Hg. cbn [GlobalRuntimeStatus.eqb].
  erewrite run_schedule_step; [|look|apply step_AtMustBeRunning; exact Hg].
  rewrite !insert_insert_eq.
  set (s4 := set_runtimeState _ _).
  (* thread d: the whole call *)
  rewrite (run_schedule_block fuel d 6 _ _ s4 AtDestroyEntry) by look.
  rewrite uninterrupted_destroy. unfold bind at 1.
  rewrite Kotlin_destroyRuntime_unfold;
    [|intros _; subst s4; msimpl;
      rewrite lookup_insert_ne, Hd by congruence; split; [exact Hg|exact HpD]].
  cbv zeta.
  assert (Hc4 : aliveRuntimesCount s4 = 1) by exact Hc.
  rewrite Hc4. change (wrap_int (1 - 1)) with 0.
  rewrite andb_false_r. cbn [Z.ltb Z.compare].
  assert (Hd4 : default nullptr (runtimeState s4 !! d) = pD).
  { subst s4. msimpl. now rewrite lookup_insert_ne, Hd by congruence. }
  rewrite Hd4.
  rewrite (deinitRuntime_returns fuel d pD true (destroy_pre_state d s4) rsD l);
    [|exact HpD
     |subst s4; unfold destroy_pre_state; msimpl;
      now rewrite lookup_insert_ne by congruence
     |intros _; exact Hst|exact Hl].
  unfold ret at 1.
  set (s10 := set_runtimeState _ _).
  (* thread i: the rest *)
  erewrite run_schedule_step; [|look|apply step_AtIncrement].
  erewrite run_schedule_step;
    [|look|apply (step_AtInitMemory fuel i env pI false _ l); [exact HpI| |exact Hl]].
  2: { subst s10 s4. unfold deinit_state, destroy_pre_state. msimpl.
       rewrite lookup_delete_ne by congruence. apply lookup_insert_eq. }
  erewrite run_schedule_step; [|look|apply step_AtOnThreadExit].
  cbn [run_schedule]. unfold ret.
  eexists _, _, pI. split; [reflexivity|].
  subst s10 s4. unfold deinit_state, destroy_pre_state. msimpl.
  rewrite Hc. rewrite !insert_insert_eq.
  split; [look|]. split; [look|]. split; [reflexivity|].
  split; [apply lookup_delete_eq|].
  split; [rewrite lookup_delete_ne by congruence; apply lookup_insert_eq|].
  split; [exact HpI|]. split; [apply lookup_insert_eq|].
  split; [reflexivity|].
  rewrite !phases_app, phases_deinit_events, phases_shutdown_events,
    phases_tl_init_events.
  change (phases [(i, EvSetKonanTerminateHandler)]) with (@nil Z).
  match goal with
  | |- context [phases [(i, EvOnThreadExit ?x)]] =>
      change (phases [(i, EvOnThreadExit x)]) with (@nil Z)
  end.
  rewrite !app_nil_r, <- !app_assoc. reflexivity.
Qed.

(** X22.  The store of [kDestroyed] can land between the two places at
    which an initialization reads the status.  Thread [i] enters
    [Kotlin_initRuntimeIfNeeded] and finds the process running; thread [d]
    then stores [kDestroyed]; thread [i] allocates its [RuntimeState],
    installs it, fails the compare-and-set and aborts the process on the
    check "Must be running", without the diagnostic of the entry test. *)
Theorem initialization_can_abort_beside_destroy (s : State) (fuel : nat)
    (d i : tid) (env : Env) (pD : ptr) :
  d <> i ->
  globalRuntimeStatus s = GlobalRuntimeStatus.kRunning ->
  runtimeState s !! d = Some pD -> pD <> nullptr ->
  runtimeState s !! i = None -> alloc_ok env = true ->
  exists s' pI,
    run_schedule fuel ([i] ++ [d; d] ++ [i; i; i])
      (<[d := AtDestroyEntry]> (<[i := AtInitEntry env]> ∅)) s = Abort s' /\
    trace s'
    = trace s ++ shutdown_events d s ++
      [(i, EvSetKonanTerminateHandler); (i, EvRuntimeAssertFailed "Must be running")] /\
    globalRuntimeStatus s' = GlobalRuntimeStatus.kDestroyed /\
    runtimeState s' !! i = Some pI /\
    runtimes s' !! pI
    = Some (mkRuntimeState nullptr nullptr RuntimeStatus.kUninitialized) /\
    aliveRuntimesCount s' = aliveRuntimesCount s.
Proof.
  intros Hdi Hg Hd HpD Hi Ha.
  cbn [app].
  erewrite run_schedule_step; [|look|apply step_AtInitEntry; congruence].
  erewrite run_schedule_step;
    [|look|apply step_AtDestroyEntry; intros _; rewrite Hd; split; [exact Hg|exact HpD]].
  erewrite run_schedule_step; [|look|apply step_AtDestroyStore].
  erewrite run_schedule_step;
    [|look|apply step_AtInitRuntime; [exact Hi|exact Ha]].
  cbv zeta.
  erewrite run_schedule_step; [|look|apply step_AtCompareAndSet].
  cbv zeta. msimpl.
  erewrite run_schedule_aborts;
    [|look|apply step_AtMustBeRunning_aborts; discriminate].
  eexists _, _. split; [reflexivity|]. msimpl.
  split; [now rewrite <- !app_assoc|]. split; [reflexivity|].
  split; [apply lookup_insert_eq|]. split; [apply lookup_insert_eq|reflexivity].
Qed.

End Races2.

(** ** The statements above, on the sample states *)

Lemma release_two_threads_reachable : @reachable release_build release_two_threads.
Proof.
  assert (H1 : @reachable release_build
                 (mkState 16%N 16%N sample_nodes false false ∅ 0
                    GlobalRuntimeStatus.kUninitialized ∅ [])).
  { apply (@reachable_step release_build (@initial_state release_build sample_nodes)
             0%nat 0%nat (CallAppendToInitializersTail 16%N)).
    - apply reachable_initial.
    - vm_compute. reflexivity.
    - vm_compute. discriminate. }
  assert (H2 : @reachable release_build release_start).
  { apply (@reachable_step release_build _ 0%nat 0%nat
             (CallAppendToInitializersTail 32%N) _ H1).
    - vm_compute. reflexivity.
    - vm_compute. discriminate. }
  assert (H3 : @reachable release_build
                 (mkState 16%N 32%N registered_nodes false false
                    (runtimeState one_thread) 1 GlobalRuntimeStatus.kRunning
                    (runtimes one_thread) (trace one_thread))).
  { apply (@reachable_step release_build _ 2%nat 0%nat
             (CallInitRuntimeIfNeeded env0) _ H2).
    - vm_compute. reflexivity.
    - vm_compute. discriminate. }
  apply (@reachable_step release_build _ 2%nat 1%nat
           (CallInitRuntimeIfNeeded env1) _ H3).
  - vm_compute. reflexivity.
  - vm_compute. discriminate.
Qed.

Lemma sample_registry : registry sample_start [16%N; 32%N].
Proof. split; [reflexivity|]. intros _. reflexivity. Qed.

Lemma one_thread_registry : registry one_thread [16%N; 32%N].
Proof. split; [reflexivity|]. intros _. reflexivity. Qed.

Lemma two_threads_registry : registry two_threads [16%N; 32%N].
Proof. split; [reflexivity|]. intros _. reflexivity. Qed.

Lemma every_runtime_has_one_owner_witness :
  @reachable debug_build two_threads /\
  runtimes two_threads !! 2%N
  = Some (mkRuntimeState 1001%N 2001%N RuntimeStatus.kRunning) /\
  (exists t, runtimeState two_threads !! t = Some 2%N) /\
  Z.of_nat (size (runtimes two_threads)) = aliveRuntimesCount two_threads.
Proof.
  destruct (@every_runtime_has_one_owner debug_build two_threads two_threads_reachable)
    as (_ & _ & Howner & Hsize).
  split; [exact two_threads_reachable|]. split; [reflexivity|].
  split; [|exact Hsize].
  exact (Howner 2%N _ eq_refl).
Defined.

Lemma other_threads_runtime_untouched_witness :
  @reachable debug_build two_threads /\
  0%nat <> 1%nat /\
  runtimeState two_threads !! 1%nat = Some 2%N /\
  exists s',
    @exec debug_build 2%nat 0%nat CallDeinitRuntimeIfNeeded two_threads = Ok tt s' /\
    runtimeState s' !! 1%nat = Some 2%N /\
    runtimes s' !! 2%N = runtimes two_threads !! 2%N.
Proof.
  assert (Hne : 0%nat <> 1%nat) by lia.
  assert (Ht : runtimeState two_threads !! 1%nat = Some 2%N) by reflexivity.
  split; [exact two_threads_reachable|]. split; [exact Hne|]. split; [exact Ht|].
  destruct (@exec debug_build 2%nat 0%nat CallDeinitRuntimeIfNeeded two_threads)
    as [[] s'| | |] eqn:He; try (vm_compute in He; discriminate).
  exists s'. split; [reflexivity|].
  exact (@other_threads_runtime_untouched debug_build two_threads 2%nat 0%nat 1%nat
           CallDeinitRuntimeIfNeeded 2%N s' two_threads_reachable Hne Ht He).
Defined.

Lemma Kotlin_deinitRuntimeIfNeeded_returns_witness :
  @reachable debug_build two_threads /\
  registry two_threads [16%N; 32%N] /\
  runtimeState two_threads !! 1%nat = Some 2%N /\
  exists s',
    @Kotlin_deinitRuntimeIfNeeded debug_build 2%nat 1%nat two_threads = Ok tt s' /\
    runtimes s' = delete 2%N (runtimes two_threads).
Proof.
  assert (Ht : runtimeState two_threads !! 1%nat = Some 2%N) by reflexivity.
  split; [exact two_threads_reachable|]. split; [exact two_threads_registry|].
  split; [exact Ht|].
  destruct (@Kotlin_deinitRuntimeIfNeeded_returns debug_build two_threads 2%nat 1%nat
              2%N [16%N; 32%N] two_threads_reachable two_threads_registry
              ltac:(simpl; lia) Ht) as (s' & Hs' & _ & Hrt & _).
  exists s'. split; [exact Hs'|exact Hrt].
Defined.

Lemma Kotlin_destroyRuntime_returns_iff_alone_witness :
  @reachable debug_build one_thread /\
  registry one_thread [16%N; 32%N] /\
  runtimeState one_thread !! 0%nat = Some 1%N /\
  size (runtimeState one_thread) = 1%nat /\
  exists s',
    @Kotlin_destroyRuntime debug_build 2%nat 0%nat one_thread = Ok tt s' /\
    runtimes s' = ∅ /\ aliveRuntimesCount s' = 0.
Proof.
  assert (Ht : runtimeState one_thread !! 0%nat = Some 1%N) by reflexivity.
  assert (Hsz : size (runtimeState one_thread) = 1%nat) by reflexivity.
  split; [exact one_thread_reachable|]. split; [exact one_thread_registry|].
  split; [exact Ht|]. split; [exact Hsz|].
  destruct (@Kotlin_destroyRuntime_returns_iff_alone debug_build one_thread 2%nat
              0%nat 1%N [16%N; 32%N] one_thread_reachable one_thread_registry
              ltac:(simpl; lia) Ht) as [Hiff Hafter].
  destruct (proj2 Hiff Hsz) as [s' Hs'].
  exists s'. split; [exact Hs'|].
  destruct (Hafter s' Hs') as (_ & _ & Hrt & Hc). split; [exact Hrt|exact Hc].
Defined.

Lemma phases_in_lifecycle_order_witness :
  @reachable debug_build two_threads /\
  phases (trace two_threads)
  = [INIT_GLOBALS; INIT_THREAD_LOCAL_GLOBALS; INIT_THREAD_LOCAL_GLOBALS] /\
  exists rest,
    phases (trace two_threads) = INIT_GLOBALS :: rest /\ Forall thread_phase rest.
Proof.
  split; [exact two_threads_reachable|]. split; [reflexivity|].
  exact (@phases_in_lifecycle_order debug_build two_threads two_threads_reachable).
Defined.


Lemma Kotlin_initRuntimeIfNeeded_idempotent_witness :
  alloc_ok env0 = true /\
  exists s1,
    @Kotlin_initRuntimeIfNeeded debug_build 2%nat env0 0%nat sample_start = Ok tt s1 /\
    @Kotlin_initRuntimeIfNeeded debug_build 0%nat env_no_memory 0%nat s1 = Ok tt s1.
Proof.
  split; [reflexivity|].
  destruct (@Kotlin_initRuntimeIfNeeded debug_build 2%nat env0 0%nat sample_start)
    as [[] s1| | |] eqn:He; try (vm_compute in He; discriminate).
  exists s1. split; [reflexivity|].
  destruct (@Kotlin_initRuntimeIfNeeded_idempotent debug_build sample_start 2%nat
              env0 0%nat) as [_ Hagain].
  destruct (Hagain s1 He eq_refl) as [_ Hall]. apply Hall.
Defined.

Lemma init_then_deinit_round_trip_witness :
  runtimeState sample_start !! 0%nat = None /\
  registry sample_start [16%N; 32%N] /\
  exists s2,
    (@Kotlin_initRuntimeIfNeeded debug_build 2%nat env0 0%nat ;;
     @Kotlin_deinitRuntimeIfNeeded debug_build 2%nat 0%nat)%rt sample_start
    = Ok tt s2 /\
    runtimeState s2 = runtimeState sample_start /\
    runtimes s2 = runtimes sample_start /\
    aliveRuntimesCount s2 = aliveRuntimesCount sample_start /\
    globalRuntimeStatus s2 = GlobalRuntimeStatus.kRunning.
Proof.
  assert (Hn : runtimeState sample_start !! 0%nat = None) by reflexivity.
  split; [exact Hn|]. split; [exact sample_registry|].
  destruct (@init_then_deinit_round_trip debug_build sample_start 2%nat env0 0%nat
              [16%N; 32%N] Hn ltac:(discriminate) eq_refl sample_registry
              ltac:(simpl; lia) ltac:(vm_compute; split; discriminate))
    as (s2 & Hrun & Ht & Hr & Hc & _ & _ & _ & Hg & _).
  exists s2. repeat split; assumption.
Defined.

Lemma lifecycle_keeps_registry_witness :
  registry two_threads [16%N; 32%N] /\
  exists s',
    @exec debug_build 2%nat 0%nat CallDestroyRuntime two_threads = Abort s' /\
    nodes s' = nodes two_threads /\ registry s' [16%N; 32%N].
Proof.
  split; [exact two_threads_registry|].
  destruct (@exec debug_build 2%nat 0%nat CallDestroyRuntime two_threads)
    as [[] s'|s'| |] eqn:He; try (vm_compute in He; discriminate).
  exists s'. split; [reflexivity|].
  destruct (@lifecycle_keeps_registry debug_build two_threads 2%nat 0%nat
              CallDestroyRuntime s' ltac:(discriminate) (or_intror He))
    as (_ & _ & Hn & Hreg).
  split; [exact Hn|]. exact (Hreg _ two_threads_registry).
Defined.

Lemma registerAll_then_traverse_witness :
  exists s',
    registerAll [16%N; 32%N; 48%N] (@initial_state debug_build sample_nodes) = Ok tt s' /\
    registry s' [16%N; 32%N; 48%N] /\
    InitOrDeinitGlobalVariables 3%nat 0%nat INIT_GLOBALS 1000%N s'
    = Ok tt (set_trace
               [(0%nat, EvRunPhase INIT_GLOBALS 1000%N);
                (0%nat, EvInitializer 100%N INIT_GLOBALS 1000%N);
                (0%nat, EvInitializer 200%N INIT_GLOBALS 1000%N);
                (0%nat, EvInitializer 300%N INIT_GLOBALS 1000%N)] s').
Proof.
  assert (Hnd : NoDup [16%N; 32%N; 48%N]).
  { repeat constructor; intros Hin; apply list_elem_of_In in Hin; simpl in Hin;
      intuition discriminate. }
  assert (Hall : forall n, n ∈ [16%N; 32%N; 48%N] ->
            n <> nullptr /\
            exists nd, nodes (@initial_state debug_build sample_nodes) !! n = Some nd /\
                       next nd = nullptr).
  { intros n Hin. apply list_elem_of_In in Hin. simpl in Hin.
    destruct Hin as [<-|[<-|[<-|[]]]]; (split; [discriminate|]);
      eexists; split; reflexivity. }
  destruct (registerAll_then_traverse (@initial_state debug_build sample_nodes)
              [16%N; 32%N; 48%N] eq_refl Hnd Hall)
    as (s' & Hrun & Hreg & _ & _ & _ & _ & Hwalk).
  exists s'. split; [exact Hrun|]. split; [exact Hreg|].
  rewrite (Hwalk 3%nat 0%nat INIT_GLOBALS 1000%N ltac:(simpl; lia)). reflexivity.
Defined.

Lemma registering_twice_makes_a_cycle_witness :
  registry sample_start [16%N; 32%N] /\
  exists s',
    AppendToInitializersTail 16%N sample_start = Ok tt s' /\
    InitOrDeinitGlobalVariables 1000%nat 0%nat INIT_GLOBALS 1000%N s' = OutOfFuel.
Proof.
  split; [exact sample_registry|].
  assert (Hin : 16%N ∈ [16%N; 32%N]) by left.
  destruct (registering_twice_makes_a_cycle sample_start [16%N; 32%N] 16%N
              sample_registry Hin) as (s' & Hs' & Hloop).
  exists s'. split; [exact Hs'|]. apply Hloop.
Defined.

Lemma deinit_callback_on_stale_runtime_witness :
  runtimeState sample_start !! 0%nat = None /\
  exists p s1 s2,
    @Kotlin_initRuntimeIfNeeded debug_build 2%nat env0 0%nat sample_start = Ok tt s1 /\
    last (trace s1) = Some (0%nat, EvOnThreadExit p) /\
    @Kotlin_deinitRuntimeIfNeeded debug_build 2%nat 0%nat s1 = Ok tt s2 /\
    @Kotlin_deinitRuntimeCallback debug_build 2%nat 0%nat p s2 = Fault.
Proof.
  assert (Hn : runtimeState sample_start !! 0%nat = None) by reflexivity.
  split; [exact Hn|].
  destruct (proj2 (@deinit_callback_on_stale_runtime debug_build sample_start 2%nat
                     env0 0%nat [16%N; 32%N])
              Hn ltac:(discriminate) eq_refl sample_registry ltac:(simpl; lia))
    as (p & s1 & s2 & H1 & _ & Hlast & H2 & Hstale).
  exists p, s1, s2. repeat split; try assumption. apply Hstale.
Defined.

Lemma destroy_against_contract_with_asserts_witness :
  @KONAN_ENABLE_ASSERT debug_build = true /\
  globalRuntimeStatus sample_start <> GlobalRuntimeStatus.kRunning /\
  @Kotlin_destroyRuntime debug_build 2%nat 0%nat sample_start
  = Abort (set_trace [(0%nat, EvRuntimeAssertFailed "Kotlin runtime must be running")]
             sample_start).
Proof.
  assert (Hg : globalRuntimeStatus sample_start <> GlobalRuntimeStatus.kRunning)
    by discriminate.
  split; [reflexivity|]. split; [exact Hg|].
  exact (proj1 (@destroy_against_contract_with_asserts debug_build sample_start
                  2%nat 0%nat eq_refl) Hg).
Defined.

Lemma destroy_without_runtime_without_asserts_witness :
  @KONAN_ENABLE_ASSERT release_build = false /\
  @reachable release_build release_two_threads /\
  runtimeState release_two_threads !! 2%nat = None /\
  size (runtimeState release_two_threads) = 2%nat /\
  exists s',
    @Kotlin_destroyRuntime release_build 2%nat 2%nat release_two_threads = Abort s' /\
    last (trace s') = Some (2%nat, EvConsoleErrorf alive_message [1]).
Proof.
  assert (Hn : runtimeState release_two_threads !! 2%nat = None) by reflexivity.
  split; [reflexivity|]. split; [exact release_two_threads_reachable|].
  split; [exact Hn|]. split; [reflexivity|].
  destruct (@destroy_without_runtime_without_asserts release_build release_two_threads
              2%nat 2%nat eq_refl release_two_threads_reachable Hn) as [Hmany _].
  eexists. split; [apply Hmany; vm_compute; discriminate|]. reflexivity.
Defined.

Lemma leak_checkers_decide_shutdown_witness :
  exists s',
    @Kotlin_destroyRuntime debug_build 2%nat 0%nat
      (set_g_checkLeaks true (set_g_checkLeakedCleaners false one_thread)) = Ok tt s' /\
    List.filter is_shutdown (trace s')
    = [(0%nat, EvShutdownCleaners false); (0%nat, EvWaitNativeWorkersTermination)].
Proof.
  assert (Hpre : @KONAN_ENABLE_ASSERT debug_build = true ->
            globalRuntimeStatus one_thread = GlobalRuntimeStatus.kRunning /\
            default nullptr (runtimeState one_thread !! 0%nat) <> nullptr).
  { intros _. split; [reflexivity|vm_compute; discriminate]. }
  destruct (@Kotlin_destroyRuntime debug_build 2%nat 0%nat
              (set_g_checkLeaks true (set_g_checkLeakedCleaners false one_thread)))
    as [[] s'| | |] eqn:He; try (vm_compute in He; discriminate).
  exists s'. split; [reflexivity|].
  destruct (@leak_checkers_decide_shutdown debug_build one_thread false true 2%nat 0%nat)
    as (_ & _ & _ & _ & _ & _ & Hshut).
  destruct (Hshut s' Hpre (or_introl He)) as (rest & _ & _ & Hall).
  exact Hall.
Defined.

Lemma initialization_aborts_only_when_destroyed_witness :
  default nullptr (runtimeState one_thread !! 0%nat) <> nullptr /\
  alloc_ok env1 = true /\
  exists s',
    @initRuntime debug_build 2%nat env1 0%nat one_thread = Abort s' /\
    last (trace s') = Some (0%nat, EvRuntimeAssertFailed "No active runtimes allowed") /\
    aliveRuntimesCount s' = aliveRuntimesCount one_thread.
Proof.
  assert (Hv : default nullptr (runtimeState one_thread !! 0%nat) <> nullptr)
    by (vm_compute; discriminate).
  split; [exact Hv|]. split; [reflexivity|].
  destruct (@initialization_aborts_only_when_destroyed debug_build one_thread 2%nat
              env1 0%nat) as (_ & _ & Hre).
  destruct (Hre Hv eq_refl) as (s' & Hs' & Htr & _ & _ & _ & Hc).
  exists s'. split; [exact Hs'|]. split; [|exact Hc].
  rewrite Htr. reflexivity.
Defined.

Lemma zeroOut_then_deinit_runs_phase_twice_witness :
  runtimeState one_thread !! 0%nat = Some 1%N /\
  runtimes one_thread !! 1%N
  = Some (mkRuntimeState 1000%N 2000%N RuntimeStatus.kRunning) /\
  registry one_thread [16%N; 32%N] /\
  exists s2,
    (Kotlin_zeroOutTLSGlobals 2%nat 0%nat ;;
     @Kotlin_deinitRuntimeIfNeeded debug_build 2%nat 0%nat)%rt one_thread = Ok tt s2 /\
    phases (trace s2)
    = [INIT_GLOBALS; INIT_THREAD_LOCAL_GLOBALS;
       DEINIT_THREAD_LOCAL_GLOBALS; DEINIT_THREAD_LOCAL_GLOBALS].
Proof.
  assert (Ht : runtimeState one_thread !! 0%nat = Some 1%N) by reflexivity.
  assert (Hrs : runtimes one_thread !! 1%N
                = Some (mkRuntimeState 1000%N 2000%N RuntimeStatus.kRunning))
    by reflexivity.
  split; [exact Ht|]. split; [exact Hrs|]. split; [exact one_thread_registry|].
  destruct (@zeroOut_then_deinit_runs_phase_twice debug_build one_thread 2%nat 0%nat
              1%N _ [16%N; 32%N] Ht ltac:(discriminate) Hrs ltac:(discriminate)
              ltac:(reflexivity) one_thread_registry ltac:(simpl; lia))
    as (s2 & Hrun & _ & Hph & _).
  exists s2. split; [exact Hrun|]. rewrite Hph. reflexivity.
Defined.

Lemma platform_codes_identify_the_target_witness :
  defined (os_macros linux_x64) = 1%nat /\
  defined (os_macros linux_arm64) = 1%nat /\
  Konan_Platform_getOsFamily linux_x64 = Konan_Platform_getOsFamily linux_arm64 /\
  os_macros linux_x64 = os_macros linux_arm64 /\
  defined (os_macros bare_target) = 0%nat /\
  Konan_Platform_getOsFamily bare_target = 0 /\
  defined (cpu_macros macos_arm64) = 1%nat /\
  defined (cpu_macros linux_arm64) = 1%nat /\
  Konan_Platform_getCpuArchitecture macos_arm64
  = Konan_Platform_getCpuArchitecture linux_arm64 /\
  cpu_macros macos_arm64 = cpu_macros linux_arm64 /\
  0 <= Konan_Platform_getOsFamily linux_x64 <= 8.
Proof.
  destruct (platform_codes_identify_the_target linux_x64 linux_arm64)
    as (Hrange & _ & _ & _ & Hos & _).
  destruct (platform_codes_identify_the_target bare_target bare_target)
    as (_ & _ & Hzero & _).
  destruct (platform_codes_identify_the_target macos_arm64 linux_arm64)
    as (_ & _ & _ & _ & _ & Hcpu).
  split; [reflexivity|]. split; [reflexivity|]. split; [reflexivity|].
  split; [exact (Hos eq_refl eq_refl eq_refl)|].
  split; [reflexivity|].
  split; [exact (proj2 Hzero eq_refl)|].
  split; [reflexivity|]. split; [reflexivity|]. split; [reflexivity|].
  split; [exact (Hcpu eq_refl eq_refl eq_refl)|].
  exact Hrange.
Defined.

Lemma thread_local_init_can_precede_global_init_witness :
  exists th' s',
    @run_schedule debug_build 2%nat
      ([0; 0; 0] ++ repeat 1 7 ++ [0; 0; 0; 0])%nat
      (<[0%nat := AtInitEntry env0]> (<[1%nat := AtInitEntry env1]> ∅)) sample_start
    = Ok th' s' /\
    th' !! 0%nat = Some Returned /\ th' !! 1%nat = Some Returned /\
    phases (trace s')
    = [INIT_THREAD_LOCAL_GLOBALS; INIT_GLOBALS; INIT_THREAD_LOCAL_GLOBALS].
Proof.
  destruct (@thread_local_init_can_precede_global_init debug_build sample_start 2%nat
              0%nat 1%nat env0 env1 [16%N; 32%N])
    as (th' & s' & pA & pB & Hrun & Ha & Hb & _ & _ & _ & _ & _ & _ & _ & Hph);
    try reflexivity; [discriminate|].
  exists th', s'. split; [exact Hrun|]. split; [exact Ha|]. split; [exact Hb|].
  exact Hph.
Defined.

Lemma destroy_can_return_beside_an_initialization_witness :
  exists th' s' pI,
    @run_schedule debug_build 2%nat
      ([1; 1; 1; 1] ++ repeat 0 6 ++ [1; 1; 1])%nat
      (<[0%nat := AtDestroyEntry]> (<[1%nat := AtInitEntry env1]> ∅)) one_thread
    = Ok th' s' /\
    globalRuntimeStatus s' = GlobalRuntimeStatus.kDestroyed /\
    runtimeState s' !! 1%nat = Some pI /\
    runtimes s' !! pI
    = Some (mkRuntimeState 1001%N 2001%N RuntimeStatus.kRunning) /\
    aliveRuntimesCount s' = 1.
Proof.
  destruct (@destroy_can_return_beside_an_initialization debug_build one_thread 2%nat
              0%nat 1%nat env1 1%N
              (mkRuntimeState 1000%N 2000%N RuntimeStatus.kRunning) [16%N; 32%N])
    as (th' & s' & pI & Hrun & _ & _ & Hg & _ & Hi & _ & Hrs & Hc & _);
    try reflexivity; try discriminate.
  exists th', s', pI. split; [exact Hrun|]. split; [exact Hg|].
  split; [exact Hi|]. split; [exact Hrs|exact Hc].
Defined.

Lemma initialization_can_abort_beside_destroy_witness :
  exists s' pI,
    @run_schedule debug_build 2%nat ([1] ++ [0; 0] ++ [1; 1; 1])%nat
      (<[0%nat := AtDestroyEntry]> (<[1%nat := AtInitEntry env1]> ∅)) one_thread
    = Abort s' /\
    trace s'
    = trace one_thread ++ @shutdown_events 0%nat one_thread ++
      [(1%nat, EvSetKonanTerminateHandler);
       (1%nat, EvRuntimeAssertFailed "Must be running")] /\
    globalRuntimeStatus s' = GlobalRuntimeStatus.kDestroyed /\
    runtimeState s' !! 1%nat = Some pI.
Proof.
  destruct (@initialization_can_abort_beside_destroy debug_build one_thread 2%nat
              0%nat 1%nat env1 1%N)
    as (s' & pI & Hrun & Htr & Hg & Hi & _);
    try reflexivity; try discriminate.
  exists s', pI. split; [exact Hrun|]. split; [exact Htr|].
  split; [exact Hg|exact Hi].
Defined.
